(** * EASYDOCS: the README generator's client, and the pipeline it talks to

    A shallow embedding of the React client (HomePage, SessionsPage,
    SettingsPage, DropZone, AIModelDropdown, DeleteConfirmationModal) and of
    the server-side pipeline contracts the client relies on (persistence
    store, chunker, prompt orchestrator).

    Conventions.
    - A React component's [useState] cells are the fields of a [State]
      record; a handler is a program in the monad [Prog] below, which threads
      the current state, records the observable effects (requests, toasts,
      timers, console output) and carries JavaScript's [throw].
    - A handler is a closure over the render that created it: what it reads
      from a state variable directly is the value of that render ([closure]),
      while a functional update [setX(prev => ...)] sees the current state.
    - What the world answers at an [await] (the session token, the HTTP
      response or the network failure) is an argument of the handler.
    - Opaque text (identifiers, tokens, file names, messages) is a [string];
      text that is inspected character by character is a list of UTF-16 code
      units ([JS.jsstring]). *)

From Stdlib Require Import String Ascii List ZArith QArith Qminmax Lqa Lia DecimalString.
From Stdlib Require Import Floats.
From stdpp Require Import base option list gmap strings.

Open Scope string_scope.
Open Scope list_scope.
Open Scope nat_scope.

(** ** JavaScript values *)

Module JS.

(** [a || b] on strings: the empty string is the only falsy string. *)
Definition or_else (a b : string) : string :=
  if decide (a = "") then b else a.

(** [a?.field || b] where [a] may be [undefined]. *)
Definition opt_or_else (a : option string) (b : string) : string :=
  match a with
  | Some s => or_else s b
  | None => b
  end.

(** [`${n}`] for a non-negative integer. *)
Definition of_nat (n : nat) : string :=
  NilEmpty.string_of_uint (Nat.to_uint n).

(** [`${token}`] for [string | null]. *)
Definition of_nullable (t : option string) : string :=
  match t with
  | Some s => s
  | None => "null"
  end.

(** The double-quote character of a template literal. *)
Definition dquote : string := String "034" EmptyString.

(** A string as its UTF-16 code units. *)
Definition jsstring : Type := list N.

(** An ASCII literal of the source as code units. *)
Definition lit (s : string) : jsstring :=
  map N_of_ascii (list_ascii_of_string s).
Global Arguments lit : simpl never.

(** WhiteSpace and LineTerminator of ECMA-262, the characters
    [String.prototype.trim] strips: TAB, LF, VT, FF, CR, SP, NBSP,
    U+1680, U+2000..U+200A, LS, PS, U+202F, U+205F, U+3000, BOM. *)
Definition is_white_space (c : N) : bool :=
  ((9 <=? c) && (c <=? 13) || (c =? 32) || (c =? 160) || (c =? 5760)
   || (8192 <=? c) && (c <=? 8202) || (c =? 8232) || (c =? 8233)
   || (c =? 8239) || (c =? 8287) || (c =? 12288) || (c =? 65279))%N.

Fixpoint trim_start (s : jsstring) : jsstring :=
  match s with
  | c :: rest => if is_white_space c then trim_start rest else s
  | [] => []
  end.

Definition trim_end (s : jsstring) : jsstring :=
  rev (trim_start (rev s)).

(** [s.trim()] *)
Definition trim (s : jsstring) : jsstring :=
  trim_end (trim_start s).

End JS.

(** ** HTTP as [fetch] shows it *)

Module Http.

Inductive Method := GET | POST | DELETE.

(** A [File] picked by the user. *)
Record File := { file_name : string; file_size : nat; file_bytes : list N }.

Inductive FormValue :=
| FormFile (f : File)
| FormText (s : string).

(** [FormData]: the fields in the order they were appended. *)
Definition FormData : Type := list (string * FormValue).

Definition append (name : string) (v : FormValue) (fd : FormData) : FormData :=
  fd ++ [(name, v)].

Inductive Body :=
| NoBody
| FormBody (fd : FormData).

Record Request := {
  url : string;
  method : Method;
  headers : list (string * string);
  body : Body
}.

(** What [res.json()] gives, as far as the client looks at it: a rejected
    parse, or a value with its [error] member ([None] when the value has no
    such member, or is [null]). *)
Inductive Json :=
| JsonInvalid (syntax_error : string)
| JsonValue (error_member : option string).

Record Response := {
  status : nat;
  text : string;   (** [await res.text()], [await (await res.blob()).text()] *)
  json : Json      (** [await res.json()] *)
}.

(** [response.ok]: the status is in the range 200-299. *)
Definition ok (r : Response) : bool :=
  (200 <=? status r) && (status r <=? 299).

(** A [fetch] promise resolves with a response, whatever its status, or
    rejects with a [TypeError] when the request could not be made. *)
Inductive FetchOutcome :=
| Responded (r : Response)
| Rejected (message : string).

End Http.

(** ** Handlers as programs *)

Module Prog.

Section Prog.
Context {St Ev : Type}.

(** How a block ends: normally, or by a thrown [Error] with its message. *)
Inductive Completion (A : Type) :=
| Normal (a : A)
| Thrown (message : string).
Global Arguments Normal {A} a.
Global Arguments Thrown {A} message.

Definition M (A : Type) : Type := St -> Completion A * St * list Ev.

Definition ret {A} (a : A) : M A :=
  fun s => (Normal a, s, []).

Definition bind {A B} (m : M A) (k : A -> M B) : M B :=
  fun s =>
    match m s with
    | (Normal a, s1, l1) =>
        let '(r, s2, l2) := k a s1 in (r, s2, l1 ++ l2)
    | (Thrown e, s1, l1) => (Thrown e, s1, l1)
    end.

(** [throw new Error(message)] *)
Definition throw {A} (message : string) : M A :=
  fun s => (Thrown message, s, []).

(** A state setter. *)
Definition modify (f : St -> St) : M unit :=
  fun s => (Normal tt, f s, []).

(** An observable effect. *)
Definition emit (e : Ev) : M unit :=
  fun s => (Normal tt, s, [e]).

(** [try { body } catch (err) { handler(err.message) }] *)
Definition try_catch {A} (body : M A) (handler : string -> M A) : M A :=
  fun s =>
    match body s with
    | (Normal a, s1, l1) => (Normal a, s1, l1)
    | (Thrown e, s1, l1) =>
        let '(r, s2, l2) := handler e s1 in (r, s2, l1 ++ l2)
    end.

(** [try { body } finally { fin }] *)
Definition finally {A} (body : M A) (fin : M unit) : M A :=
  fun s =>
    let '(r, s1, l1) := body s in
    match fin s1 with
    | (Normal _, s2, l2) => (r, s2, l1 ++ l2)
    | (Thrown e, s2, l2) => (Thrown e, s2, l1 ++ l2)
    end.

(** [if (c) { m }] *)
Definition when (c : bool) (m : M unit) : M unit :=
  if c then m else ret tt.

Definition final_state {A} (r : Completion A * St * list Ev) : St := r.1.2.
Definition completion {A} (r : Completion A * St * list Ev) : Completion A := r.1.1.
Definition effects {A} (r : Completion A * St * list Ev) : list Ev := r.2.
End Prog.

Global Arguments M : clear implicits.

End Prog.

Import Prog.

#[global] Instance prog_ret {St Ev} : MRet (M St Ev) := @ret St Ev.
#[global] Instance prog_bind {St Ev} : MBind (M St Ev) :=
  fun A B k m => @bind St Ev A B m k.

(** ** What a handler does to the world around the component *)

Module Browser.
Import Http.

(** The callbacks handed to [setTimeout]. *)
Inductive Callback :=
| ClearDeleteSuccess   (** [() => setDeleteSuccess(null)] *)
| ClearDeleteError     (** [() => setDeleteError(null)] *)
| SignOutAndRedirect.  (** [async () => { await signOut(); window.location.href = '/' }] *)

(** The observable effects of the handlers; a toast is recorded by its kind
    and message. *)
Inductive Effect :=
| Fetch (req : Request)
| ToastError (message : string)
| ToastSuccess (message : string)
| ToastLoading (message : string)
| ConsoleError (label message : string)
| SetTimeout (callback : Callback) (ms : nat).

(** [await fetch(url, init)]: the request goes out, then the promise
    settles the way the network decides. *)
Definition fetch {St} (req : Request) (net : FetchOutcome) : M St Effect Response :=
  emit (Fetch req) ;;
  match net with
  | Responded r => mret r
  | Rejected message => throw message
  end.

(** The requests among the effects of a run. *)
Definition requests (l : list Effect) : list Request :=
  omap (fun e => match e with Fetch req => Some req | _ => None end) l.

(** [`Bearer ${token}`] with the [string | null] that [getToken] resolves to. *)
Definition bearer (token : option string) : string :=
  "Bearer " +:+ JS.of_nullable token.

End Browser.

(** ** pages/SessionsPage.tsx *)

Module SessionsPage.
Import Http Browser.

Record ReadmeData := {
  id : string;
  filename : string;
  created_at : string;
  prompt : string;
  model : string;
  total_tokens : nat;
  content : option string
}.

(** The [useState] cells of the page, and [currentReadme] of the
    application context that [setCurrentReadme] writes. *)
Record State := {
  searchTerm : string;
  selectedSession : option string;
  isPreviousSelected : bool;
  readmeData : list ReadmeData;
  loading : bool;
  error : option string;
  deleteConfirmId : option string;
  deletingId : option string;
  deleteError : option string;
  deleteSuccess : option string;
  currentReadme : option string
}.

Definition P : Type -> Type := M State Effect.

Definition setSelectedSession (v : option string) : P unit :=
  modify (fun s =>
    {| searchTerm := searchTerm s; selectedSession := v;
       isPreviousSelected := isPreviousSelected s; readmeData := readmeData s;
       loading := loading s; error := error s;
       deleteConfirmId := deleteConfirmId s; deletingId := deletingId s;
       deleteError := deleteError s; deleteSuccess := deleteSuccess s;
       currentReadme := currentReadme s |}).

Definition setPreviousSelected (v : bool) : P unit :=
  modify (fun s =>
    {| searchTerm := searchTerm s; selectedSession := selectedSession s;
       isPreviousSelected := v; readmeData := readmeData s;
       loading := loading s; error := error s;
       deleteConfirmId := deleteConfirmId s; deletingId := deletingId s;
       deleteError := deleteError s; deleteSuccess := deleteSuccess s;
       currentReadme := currentReadme s |}).

(** [setReadmeData(prev => f(prev))] *)
Definition setReadmeData (f : list ReadmeData -> list ReadmeData) : P unit :=
  modify (fun s =>
    {| searchTerm := searchTerm s; selectedSession := selectedSession s;
       isPreviousSelected := isPreviousSelected s; readmeData := f (readmeData s);
       loading := loading s; error := error s;
       deleteConfirmId := deleteConfirmId s; deletingId := deletingId s;
       deleteError := deleteError s; deleteSuccess := deleteSuccess s;
       currentReadme := currentReadme s |}).

Definition setError (v : option string) : P unit :=
  modify (fun s =>
    {| searchTerm := searchTerm s; selectedSession := selectedSession s;
       isPreviousSelected := isPreviousSelected s; readmeData := readmeData s;
       loading := loading s; error := v;
       deleteConfirmId := deleteConfirmId s; deletingId := deletingId s;
       deleteError := deleteError s; deleteSuccess := deleteSuccess s;
       currentReadme := currentReadme s |}).

Definition setDeleteConfirmId (v : option string) : P unit :=
  modify (fun s =>
    {| searchTerm := searchTerm s; selectedSession := selectedSession s;
       isPreviousSelected := isPreviousSelected s; readmeData := readmeData s;
       loading := loading s; error := error s;
       deleteConfirmId := v; deletingId := deletingId s;
       deleteError := deleteError s; deleteSuccess := deleteSuccess s;
       currentReadme := currentReadme s |}).

Definition setDeletingId (v : option string) : P unit :=
  modify (fun s =>
    {| searchTerm := searchTerm s; selectedSession := selectedSession s;
       isPreviousSelected := isPreviousSelected s; readmeData := readmeData s;
       loading := loading s; error := error s;
       deleteConfirmId := deleteConfirmId s; deletingId := v;
       deleteError := deleteError s; deleteSuccess := deleteSuccess s;
       currentReadme := currentReadme s |}).

Definition setDeleteError (v : option string) : P unit :=
  modify (fun s =>
    {| searchTerm := searchTerm s; selectedSession := selectedSession s;
       isPreviousSelected := isPreviousSelected s; readmeData := readmeData s;
       loading := loading s; error := error s;
       deleteConfirmId := deleteConfirmId s; deletingId := deletingId s;
       deleteError := v; deleteSuccess := deleteSuccess s;
       currentReadme := currentReadme s |}).

Definition setDeleteSuccess (v : option string) : P unit :=
  modify (fun s =>
    {| searchTerm := searchTerm s; selectedSession := selectedSession s;
       isPreviousSelected := isPreviousSelected s; readmeData := readmeData s;
       loading := loading s; error := error s;
       deleteConfirmId := deleteConfirmId s; deletingId := deletingId s;
       deleteError := deleteError s; deleteSuccess := v;
       currentReadme := currentReadme s |}).

Definition setCurrentReadme (v : option string) : P unit :=
  modify (fun s =>
    {| searchTerm := searchTerm s; selectedSession := selectedSession s;
       isPreviousSelected := isPreviousSelected s; readmeData := readmeData s;
       loading := loading s; error := error s;
       deleteConfirmId := deleteConfirmId s; deletingId := deletingId s;
       deleteError := deleteError s; deleteSuccess := deleteSuccess s;
       currentReadme := v |}).

(** The message thrown for a DELETE response that is not [ok]
    (lines 85-96). *)
Definition delete_failure (status : nat) : string :=
  if status =? 401 then "Unauthorized - Please log in again"
  else if status =? 404 then "Session not found - it may have already been deleted"
  else if status =? 403 then "You do not have permission to delete this session"
  else "Failed to delete session (" +:+ JS.of_nat status +:+ ")".

Definition handleDelete (base_url : string) (closure : State) (id' : string)
    (token : option string) (net : FetchOutcome) : P unit :=
  finally
    (try_catch
       (setDeletingId (Some id') ;;
        setDeleteError None ;;
        response ← fetch {| url := base_url +:+ "/delete/" +:+ id';
                            method := DELETE;
                            headers := [("Content-Type", "application/json");
                                        ("Authorization", bearer token)];
                            body := NoBody |} net ;
        (if negb (ok response) then throw (delete_failure (status response))
         else mret tt) ;;
        (* Remove the deleted item from local state *)
        setReadmeData (fun prev => filter (fun item => id item ≠ id') prev) ;;
        (* If the deleted session was currently selected, clear selection *)
        when (bool_decide (selectedSession closure = Some id'))
          (setSelectedSession None ;;
           setPreviousSelected false ;;
           setCurrentReadme (Some "")) ;;
        (* Show success message *)
        let deletedSession :=
          find (fun item => bool_decide (id item = id')) (readmeData closure) in
        setDeleteSuccess
          (Some (JS.dquote +:+ JS.opt_or_else (filename <$> deletedSession) "Session"
                 +:+ JS.dquote +:+ " deleted successfully")) ;;
        emit (SetTimeout ClearDeleteSuccess 3000))
       (fun errorMessage =>
          setDeleteError (Some errorMessage) ;;
          emit (ConsoleError "Error deleting session:" errorMessage) ;;
          emit (SetTimeout ClearDeleteError 5000)))
    (setDeletingId None ;;
     setDeleteConfirmId None).

(** The message thrown for a GET /readme response that is not [ok]
    (lines 158-166). *)
Definition content_failure (status : nat) : string :=
  if status =? 401 then "Unauthorized - Please log in"
  else if status =? 404 then "README not found"
  else "HTTP error! status: " +:+ JS.of_nat status.

Definition fetchReadmeContent (base_url : string) (readmeId : string)
    (token : option string) (net : FetchOutcome) : P string :=
  try_catch
    (response ← fetch {| url := base_url +:+ "/readme/" +:+ readmeId;
                         method := GET;
                         headers := [("Authorization", bearer token)];
                         body := NoBody |} net ;
     (if negb (ok response) then throw (content_failure (status response))
      else mret tt) ;;
     mret (text response))
    (fun err =>
       emit (ConsoleError "Error fetching README content:" err) ;;
       throw err).

(** The page's own messages for a record that is absent, and for a caller
    who may not touch it. *)
Definition is_not_found_error (message : string) : Prop :=
  message = "Session not found - it may have already been deleted"
  \/ message = "README not found".

Definition is_permission_error (message : string) : Prop :=
  message = "You do not have permission to delete this session".

Definition handleViewSession (base_url : string) (session : ReadmeData)
    (token : option string) (net : FetchOutcome) : P unit :=
  try_catch
    (setPreviousSelected true ;;
     setSelectedSession (Some (id session)) ;;
     content' ← fetchReadmeContent base_url (id session) token net ;
     setCurrentReadme (Some content') ;;
     setReadmeData (fun prev =>
       map (fun s =>
              if bool_decide (id s = id session)
              then {| id := id s; filename := filename s; created_at := created_at s;
                      prompt := prompt s; model := model s;
                      total_tokens := total_tokens s; content := Some content' |}
              else s) prev))
    (fun err => setError (Some err)).

End SessionsPage.

(** ** components/Upload/DropZone.tsx *)

Module DropZone.
Import Http.

(** The component's state is [isDragOver]; what it does to its parent is
    calling [onFileSelect]. *)
Definition State : Type := bool.

Inductive Call :=
| OnFileSelect (file : File).

Definition P : Type -> Type := M State Call.

Definition setIsDragOver (v : bool) : P unit := modify (fun _ => v).

Definition handleDragOver (disabled : bool) : P unit :=
  when (negb disabled) (setIsDragOver true).

Definition handleDragLeave : P unit := setIsDragOver false.

(** [files] is [Array.from(e.dataTransfer.files)]. *)
Definition handleDrop (disabled : bool) (files : list File) : P unit :=
  setIsDragOver false ;;
  if disabled then mret tt
  else
    match files with
    | file :: _ => emit (OnFileSelect file)
    | [] => mret tt
    end.

(** [files] is [e.target.files], which may be [null]. *)
Definition handleFileInput (files : option (list File)) : P unit :=
  match files with
  | Some (file :: _) => emit (OnFileSelect file)
  | _ => mret tt
  end.

(** The files handed to [onFileSelect] by a run. *)
Definition selected (r : Completion unit * State * list Call) : list File :=
  map (fun c => match c with OnFileSelect f => f end) (effects r).

End DropZone.

(** ** components/Layout/AIModelDropdown.tsx *)

Module AIModelDropdown.

Inductive Icon := Sparkles | Zap.

Record AIModel := {
  id : string;
  name : string;
  provider : string;
  icon : Icon;
  description : string
}.

Definition defaultModels : list AIModel :=
  [ {| id := "gemini-2.0-flash"; name := "Gemini 2.0 Flash"; provider := "Google";
       icon := Sparkles;
       description := "v1.5 — Prior top-tier model with large context and strong multimodal abilities" |};
    {| id := "gemini-2.5-flash"; name := "Gemini 2.5 Flash"; provider := "Google";
       icon := Sparkles;
       description := "v1.5 — Prior top-tier model with large context and strong multimodal abilities" |};
    {| id := "gemini-1.5-flash"; name := "Gemini 1.5 Flash"; provider := "Google";
       icon := Sparkles;
       description := "v2.5 — Most advanced Gemini model with superior reasoning and 1M token context" |};
    {| id := "gemini-pro"; name := "Gemini Pro"; provider := "Google";
       icon := Zap;
       description := "v2.0 — Lightweight, fast generation, good for real-time tasks" |} ].

(** [models.find(m => m.id === defaultModel) || models[0]]; [defaultModel]
    is an optional prop, and the result is [undefined] on an empty list. *)
Definition initialModel (models : list AIModel) (defaultModel : option string)
  : option AIModel :=
  match find (fun m => bool_decide (Some (id m) = defaultModel)) models with
  | Some m => Some m
  | None => head models
  end.

Record State := {
  isOpen : bool;
  selectedModel : option AIModel
}.

Inductive Call :=
| OnModelChange (model : AIModel).

Definition P : Type -> Type := M State Call.

Definition init (models : list AIModel) (defaultModel : option string) : State :=
  {| isOpen := false; selectedModel := initialModel models defaultModel |}.

Definition setIsOpen (v : bool) : P unit :=
  modify (fun s => {| isOpen := v; selectedModel := selectedModel s |}).

Definition setSelectedModel (m : AIModel) : P unit :=
  modify (fun s => {| isOpen := isOpen s; selectedModel := Some m |}).

(** The trigger button: [setIsOpen(!isOpen)]. *)
Definition toggle (closure : State) : P unit := setIsOpen (negb (isOpen closure)).

Definition handleModelSelect (model : AIModel) : P unit :=
  setSelectedModel model ;;
  setIsOpen false ;;
  emit (OnModelChange model).

(** The label of the trigger button, [selectedModel.name]. *)
Definition displayed (s : State) : option string := name <$> selectedModel s.

End AIModelDropdown.

(** ** pages/HomePage.tsx *)

Module HomePage.
Import Http Browser.

(** The page's own cells, [currentReadme] and [apiKey] of the application
    context, and the state of the two child components it mounts. *)
Record State := {
  selectedFile : option File;
  isGenerating : bool;
  userPrompt : string;
  model : string;
  showCodeBlock : bool;
  currentReadme : option string;
  apiKey : string;
  dropZone : DropZone.State;
  dropdown : AIModelDropdown.State
}.

Definition P : Type -> Type := M State Effect.

Definition setSelectedFile (v : option File) : P unit :=
  modify (fun s =>
    {| selectedFile := v; isGenerating := isGenerating s; userPrompt := userPrompt s;
       model := model s; showCodeBlock := showCodeBlock s;
       currentReadme := currentReadme s; apiKey := apiKey s;
       dropZone := dropZone s; dropdown := dropdown s |}).

Definition setIsGenerating (v : bool) : P unit :=
  modify (fun s =>
    {| selectedFile := selectedFile s; isGenerating := v; userPrompt := userPrompt s;
       model := model s; showCodeBlock := showCodeBlock s;
       currentReadme := currentReadme s; apiKey := apiKey s;
       dropZone := dropZone s; dropdown := dropdown s |}).

Definition setUserPrompt (v : string) : P unit :=
  modify (fun s =>
    {| selectedFile := selectedFile s; isGenerating := isGenerating s; userPrompt := v;
       model := model s; showCodeBlock := showCodeBlock s;
       currentReadme := currentReadme s; apiKey := apiKey s;
       dropZone := dropZone s; dropdown := dropdown s |}).

Definition setModel (v : string) : P unit :=
  modify (fun s =>
    {| selectedFile := selectedFile s; isGenerating := isGenerating s;
       userPrompt := userPrompt s; model := v; showCodeBlock := showCodeBlock s;
       currentReadme := currentReadme s; apiKey := apiKey s;
       dropZone := dropZone s; dropdown := dropdown s |}).

Definition setShowCodeBlock (v : bool) : P unit :=
  modify (fun s =>
    {| selectedFile := selectedFile s; isGenerating := isGenerating s;
       userPrompt := userPrompt s; model := model s; showCodeBlock := v;
       currentReadme := currentReadme s; apiKey := apiKey s;
       dropZone := dropZone s; dropdown := dropdown s |}).

Definition setCurrentReadme (v : option string) : P unit :=
  modify (fun s =>
    {| selectedFile := selectedFile s; isGenerating := isGenerating s;
       userPrompt := userPrompt s; model := model s; showCodeBlock := showCodeBlock s;
       currentReadme := v; apiKey := apiKey s;
       dropZone := dropZone s; dropdown := dropdown s |}).

Definition setDropZone (v : DropZone.State) (s : State) : State :=
  {| selectedFile := selectedFile s; isGenerating := isGenerating s;
     userPrompt := userPrompt s; model := model s; showCodeBlock := showCodeBlock s;
     currentReadme := currentReadme s; apiKey := apiKey s;
     dropZone := v; dropdown := dropdown s |}.

Definition setDropdown (v : AIModelDropdown.State) (s : State) : State :=
  {| selectedFile := selectedFile s; isGenerating := isGenerating s;
     userPrompt := userPrompt s; model := model s; showCodeBlock := showCodeBlock s;
     currentReadme := currentReadme s; apiKey := apiKey s;
     dropZone := dropZone s; dropdown := v |}.

Definition handleFileSelect (file : File) : P unit :=
  setSelectedFile (Some file) ;;
  emit (ToastSuccess ("Selected: " +:+ file_name file)).

(** The form the request carries. *)
Definition generateForm (selectedFile : File) (apiKey userPrompt model : string)
  : FormData :=
  append "model" (FormText (JS.or_else model "gemini-1.5-flash"))
    (append "prompt" (FormText userPrompt)
       (append "api_key" (FormText apiKey)
          (append "file" (FormFile selectedFile) []))).

(** The request to the generation endpoint. *)
Definition generateRequest (base_url : string) (selectedFile : File)
    (apiKey userPrompt model : string) (token : option string) : Request :=
  {| url := base_url +:+ "/generate";
     method := POST;
     headers := [("Authorization", bearer token)];
     body := FormBody (generateForm selectedFile apiKey userPrompt model) |}.

Definition generateReadme (base_url : string)
    (selectedFile : option File) (apiKey userPrompt model : string)
    (token : option string) (net : FetchOutcome) : P unit :=
  match selectedFile with
  | None => emit (ToastError "Please select a project file first")
  | Some file =>
      setIsGenerating true ;;
      emit (ToastLoading "AI is analyzing your project...") ;;
      finally
        (try_catch
           (res ← fetch (generateRequest base_url file apiKey userPrompt model token) net ;
            (if negb (ok res) then
               match json res with
               | JsonInvalid syntax_error => throw syntax_error
               | JsonValue error => throw (JS.opt_or_else error "Something went wrong")
               end
             else mret tt) ;;
            setCurrentReadme (Some (text res)) ;;
            emit (ToastSuccess "README generated successfully!"))
           (fun message =>
              emit (ToastError ("Failed to generate README: " +:+ message))))
        (setShowCodeBlock true ;;
         setIsGenerating false)
  end.

(** A child component's handler run inside the page: the child's state is
    updated and each call it makes reaches the page's callback. *)
Definition mount {C Call} (get : State -> C) (set : C -> State -> State)
    (callback : Call -> P unit) (m : M C Call unit) : P unit :=
  fun s =>
    let '(_, c, calls) := m (get s) in
    foldr (fun call k => callback call ;; k) (mret tt) calls (set c s).

(** What the user can do on the page. *)
Inductive Event :=
| Drop (files : list File)
| ChooseFile (files : option (list File))
| TypePrompt (newPrompt : string)
| ToggleModels
| PickModel (n : nat)
| ClickGenerate (token : option string) (net : FetchOutcome).

(** The handler an event reaches in the render [closure]. The upload
    section, with the drop zone, the prompt, the dropdown and the button,
    is rendered while [showCodeBlock] is false; the file input is disabled
    with the drop zone; the menu entries exist while the menu is open; the
    button is disabled by [!selectedFile || isGenerating]. *)
Definition handle (base_url : string) (closure : State) (e : Event) : P unit :=
  if showCodeBlock closure then mret tt
  else
    match e with
    | Drop files =>
        mount dropZone setDropZone
          (fun c => match c with DropZone.OnFileSelect f => handleFileSelect f end)
          (DropZone.handleDrop (isGenerating closure) files)
    | ChooseFile files =>
        if isGenerating closure then mret tt
        else
          mount dropZone setDropZone
            (fun c => match c with DropZone.OnFileSelect f => handleFileSelect f end)
            (DropZone.handleFileInput files)
    | TypePrompt newPrompt => setUserPrompt newPrompt
    | ToggleModels =>
        mount dropdown setDropdown
          (fun c => match c with AIModelDropdown.OnModelChange m =>
                                   setModel (AIModelDropdown.id m) end)
          (AIModelDropdown.toggle (dropdown closure))
    | PickModel n =>
        if AIModelDropdown.isOpen (dropdown closure) then
          match AIModelDropdown.defaultModels !! n with
          | Some m =>
              mount dropdown setDropdown
                (fun c => match c with AIModelDropdown.OnModelChange m =>
                                         setModel (AIModelDropdown.id m) end)
                (AIModelDropdown.handleModelSelect m)
          | None => mret tt
          end
        else mret tt
    | ClickGenerate token net =>
        if negb (bool_decide (is_Some (selectedFile closure))) || isGenerating closure
        then mret tt
        else generateReadme base_url (selectedFile closure) (apiKey closure)
               (userPrompt closure) (model closure) token net
    end.

(** The page as first rendered. *)
Definition init (apiKey0 : string) (currentReadme0 : option string) : State :=
  {| selectedFile := None; isGenerating := false; userPrompt := "";
     model := "gemini-1.5-pro"; showCodeBlock := false;
     currentReadme := currentReadme0; apiKey := apiKey0;
     dropZone := false;
     dropdown := AIModelDropdown.init AIModelDropdown.defaultModels
                   (Some "gemini-1.5-pro") |}.

(** A session: the events one after the other, each handled in the render
    of the state it finds. *)
Fixpoint run (base_url : string) (events : list Event) (s : State)
  : State * list Effect :=
  match events with
  | [] => (s, [])
  | e :: rest =>
      let '(_, s1, l1) := handle base_url s e s in
      let '(s2, l2) := run base_url rest s1 in
      (s2, l1 ++ l2)
  end.

(** The user leaves the model menu's entries alone. *)
Definition picks_no_model (events : list Event) : bool :=
  forallb (fun e => match e with PickModel _ => false | _ => true end) events.

(** The page before any model was picked: its [model] cell still holds the
    initial identifier, and the dropdown still shows its initial entry. *)
Definition untouched (s : State) : Prop :=
  model s = "gemini-1.5-pro"
  /\ AIModelDropdown.selectedModel (dropdown s) = head AIModelDropdown.defaultModels.

(** The values a request's form carries under [name]. *)
Definition form_field (name : string) (req : Request) : list FormValue :=
  match body req with
  | FormBody fd => omap (fun kv => if decide (kv.1 = name) then Some kv.2 else None) fd
  | NoBody => []
  end.

(** The request submits the page's initial model identifier. *)
Definition carries_default (req : Request) : Prop :=
  form_field "model" req = [FormText "gemini-1.5-pro"].

End HomePage.

(** ** components/UI/DeleteConfirmationModal.tsx *)

Module DeleteConfirmationModal.

Record Props := {
  isOpen : bool;
  itemName : JS.jsstring
}.

(** The state is [inputValue], initially empty. *)
Definition State : Type := JS.jsstring.

Inductive Call :=
| OnCancel
| OnConfirm.

Definition P : Type -> Type := M State Call.

Definition init : State := [].

(** [inputValue.trim() === itemName] *)
Definition isMatch (props : Props) (inputValue : State) : bool :=
  bool_decide (JS.trim inputValue = itemName props).

(** The two buttons as rendered: nothing when the modal is closed. *)
Record Buttons := {
  cancel_onClick : Call;
  confirm_onClick : Call;
  confirm_disabled : bool
}.

Definition render (props : Props) (inputValue : State) : option Buttons :=
  if isOpen props then
    Some {| cancel_onClick := OnCancel;
            confirm_onClick := OnConfirm;
            confirm_disabled := negb (isMatch props inputValue) |}
  else None.

Inductive Event :=
| Type_ (value : JS.jsstring)   (** [onChange] of the input *)
| ClickCancel
| ClickConfirm.

(** An event on the rendered modal; a disabled button dispatches no
    click, and a closed modal has neither input nor buttons. *)
Definition handle (props : Props) (closure : State) (e : Event) : P unit :=
  match render props closure with
  | None => mret tt
  | Some buttons =>
      match e with
      | Type_ value => modify (fun _ => value)
      | ClickCancel => emit (cancel_onClick buttons)
      | ClickConfirm =>
          if confirm_disabled buttons then mret tt
          else emit (confirm_onClick buttons)
      end
  end.

End DeleteConfirmationModal.

(** ** pages/SettingsPage.tsx *)

Module SettingsPage.
Import Http Browser.

(** *** Token usage

    [dailyTokensUsed] and [tokenLimit] are JavaScript numbers; they are
    taken here as exact rationals, so the arithmetic below is the one the
    source writes, without the rounding of doubles. *)

Definition tokenUsagePercentOrg (dailyTokensUsed tokenLimit : Q) : Q :=
  (dailyTokensUsed / tokenLimit) * 100.

(** [Math.min(tokenUsagePercentOrg, 100)] *)
Definition tokenUsagePercent (dailyTokensUsed tokenLimit : Q) : Q :=
  Qmin (tokenUsagePercentOrg dailyTokensUsed tokenLimit) 100.

(** The "Remaining" tile: [{tokenLimit - dailyTokensUsed}]. *)
Definition remaining (dailyTokensUsed tokenLimit : Q) : Q :=
  tokenLimit - dailyTokensUsed.

(** The same on IEEE doubles, the numbers JavaScript computes with.
    [Math.min] gives NaN when an argument is NaN, and the negative zero
    when the arguments are the two zeros. *)
Definition Math_min (x y : float) : float :=
  if is_nan x || is_nan y then nan
  else if (x <? y)%float then x
  else if (y <? x)%float then y
  else if get_sign x then x else y.

Definition tokenUsagePercent64 (dailyTokensUsed tokenLimit : float) : float :=
  Math_min ((dailyTokensUsed / tokenLimit) * 100)%float 100%float.

Inductive BarColour := Red | Yellow | Green.

Definition barColour (dailyTokensUsed tokenLimit : Q) : BarColour :=
  let p := tokenUsagePercent dailyTokensUsed tokenLimit in
  if Qlt_le_dec 80 p then Red
  else if Qlt_le_dec 60 p then Yellow
  else Green.

(** *** Account deletion *)

Record State := {
  showDelete : bool;
  modal : DeleteConfirmationModal.State
}.

Definition P : Type -> Type := M State Effect.

Definition setShowDelete (v : bool) : P unit :=
  modify (fun s => {| showDelete := v; modal := modal s |}).

Definition setModal (v : DeleteConfirmationModal.State) (s : State) : State :=
  {| showDelete := showDelete s; modal := v |}.

Definition deleteAccountRequest (base_url : string) (token : option string) : Request :=
  {| url := base_url +:+ "/delete-account";
     method := DELETE;
     headers := [("Content-Type", "application/json");
                 ("Authorization", bearer token)];
     body := NoBody |}.

Definition handleDeleteAccount (base_url : string)
    (token : option string) (net : FetchOutcome) : P unit :=
  try_catch
    (response ← fetch (deleteAccountRequest base_url token) net ;
     (if negb (ok response) then
        throw ("Failed to delete account. Status: " +:+ JS.of_nat (status response))
      else mret tt) ;;
     emit (ToastSuccess "Account deleted successfully!") ;;
     setShowDelete false ;;
     emit (SetTimeout SignOutAndRedirect 1500))
    (fun message =>
       emit (ConsoleError "Error deleting account:" message) ;;
       emit (ToastError "Failed to delete account. Please try again.")).

(** The props the page gives the modal (lines 258-263). *)
Definition modalProps (closure : State) : DeleteConfirmationModal.Props :=
  {| DeleteConfirmationModal.isOpen := showDelete closure;
     DeleteConfirmationModal.itemName := JS.lit "Delete Account" |}.

Inductive Event :=
| ClickDeleteAccount   (** the button of the danger zone *)
| Modal (e : DeleteConfirmationModal.Event)
        (token : option string) (net : FetchOutcome).

Definition handle (base_url : string) (closure : State) (e : Event) : P unit :=
  match e with
  | ClickDeleteAccount => setShowDelete true
  | Modal e token net =>
      fun s =>
        let '(_, input, calls) :=
          DeleteConfirmationModal.handle (modalProps closure) (modal closure) e (modal s) in
        foldr
          (fun call k =>
             match call with
             | DeleteConfirmationModal.OnCancel => setShowDelete false
             | DeleteConfirmationModal.OnConfirm => handleDeleteAccount base_url token net
             end ;; k)
          (mret tt) calls (setModal input s)
  end.

Definition init : State :=
  {| showDelete := false; modal := DeleteConfirmationModal.init |}.

Fixpoint run (base_url : string) (events : list Event) (s : State)
  : State * list Effect :=
  match events with
  | [] => (s, [])
  | e :: rest =>
      let '(_, s1, l1) := handle base_url s e s in
      let '(s2, l2) := run base_url rest s1 in
      (s2, l1 ++ l2)
  end.

(** The account-deletion requests among the effects. *)
Definition deletions (l : list Effect) : list Request :=
  omap (fun e => match e with
                 | Fetch req =>
                     match method req with
                     | DELETE => Some req
                     | _ => None
                     end
                 | _ => None
                 end) l.

(** What the user typed into the modal's input, event by event. *)
Definition typed (events : list Event) : list JS.jsstring :=
  omap (fun e => match e with
                 | Modal (DeleteConfirmationModal.Type_ value) _ _ => Some value
                 | _ => None
                 end) events.

End SettingsPage.

(** ** The persistence store (server side) *)

Module PersistenceStore.

(** Modelled from the spec: the persisted artifact of section 3
    (ReadmeRecord); the server's storage code is not part of the client
    sources. *)
Record ReadmeRecord := {
  owner : string;
  source_filename : string;
  requirement : string;
  model_used : string;
  total_tokens : nat;
  created_at : nat;
  document : string
}.

(** Modelled from the spec: the two failures of [get] and [delete]
    (section 4.6), which the server's storage code would raise. *)
Inductive StoreError := NotFound | Forbidden.

(** Modelled from the spec: the store of section 4.6, records keyed by
    their unique identifier. *)
Abbreviation Store := (gmap string ReadmeRecord).

(** Modelled from the spec: an operation of the store of section 4.6, giving
    a result or an error, and the store after. *)
Definition Op (A : Type) : Type := Store -> (StoreError + A) * Store.

(** Modelled from the spec: the ownership check shared by [get] and
    [delete] (section 4.6): [NotFound] if absent, [Forbidden] if the owner
    does not match the caller. *)
Definition check (id caller : string) (s : Store) : StoreError + ReadmeRecord :=
  match s !! id with
  | None => inl NotFound
  | Some r => if decide (owner r = caller) then inr r else inl Forbidden
  end.

(** Modelled from the spec: [get(id, owner)] of section 4.6, which returns
    the document text and leaves the store as it is. *)
Definition get (id caller : string) : Op string :=
  fun s =>
    match check id caller s with
    | inl e => (inl e, s)
    | inr r => (inr (document r), s)
    end.

(** Modelled from the spec: [delete(id, owner)] of section 4.6, which
    removes the record and fails with the same checks as [get]. *)
Definition delete (id caller : string) : Op unit :=
  fun s =>
    match check id caller s with
    | inl e => (inl e, s)
    | inr _ => (inr tt, base.delete id s)
    end.

End PersistenceStore.

(** ** The endpoints the client calls *)

Module Server.
Import Http PersistenceStore.

(** Modelled from the spec: the HTTP face of the store, which the client
    sources only call. The caller identity arrives already verified
    (section 6), and is absent when the request carries no valid session;
    the statuses are the ones the client tells apart (401, 403, 404). *)
Definition error_status (e : StoreError) : nat :=
  match e with
  | NotFound => 404
  | Forbidden => 403
  end.

(** Modelled from the spec: an answer of the server, a status and a text
    body that is no JSON. *)
Definition plain (status' : nat) (text' : string) : Response :=
  {| status := status'; text := text'; json := JsonInvalid "Unexpected token" |}.

(** Modelled from the spec: GET /readme/<id>, answering with the document
    text of [get(id, owner)]. *)
Definition readme (caller : option string) (id : string) (s : Store)
  : Response * Store :=
  match caller with
  | None => (plain 401 "", s)
  | Some owner' =>
      match get id owner' s with
      | (inl e, s') => (plain (error_status e) "", s')
      | (inr doc, s') => (plain 200 doc, s')
      end
  end.

(** Modelled from the spec: DELETE /delete/<id>, performing
    [delete(id, owner)]. *)
Definition delete_ (caller : option string) (id : string) (s : Store)
  : Response * Store :=
  match caller with
  | None => (plain 401 "", s)
  | Some owner' =>
      match delete id owner' s with
      | (inl e, s') => (plain (error_status e) "", s')
      | (inr _, s') => (plain 200 "", s')
      end
  end.

End Server.

(** ** The chunker (server side) *)

Module Chunker.

(** Modelled from the spec: the configuration surface of section 6 as far
    as the chunker reads it; the ratio of the token estimate is the
    "fixed, documented ratio" of section 4.3. The server's pipeline code is
    not part of the client sources. *)
Record Config := {
  MAX_TOKENS : nat;
  CHARS_PER_TOKEN : nat
}.

(** Modelled from the spec: FileEntry of section 3, with the truncation
    flag of section 4.1. *)
Record FileEntry := {
  path : string;
  size : nat;
  content : string;
  language : string;
  truncated : bool
}.

(** Modelled from the spec: Chunk of section 3, entries in selection order,
    their cumulative estimate and the sequence index. *)
Record Chunk := {
  index : nat;
  entries : list FileEntry;
  tokens : nat
}.

(** Modelled from the spec: the Chunker's failure of section 4.3. *)
Inductive ChunkerError := NoContentSelected.

(** Modelled from the spec: the token estimate of section 4.3, text length
    by a fixed ratio. *)
Definition estimate_tokens (cfg : Config) (text : string) : nat :=
  String.length text / CHARS_PER_TOKEN cfg.

(** Modelled from the spec: an entry's own estimate, that of its content. *)
Definition estimate (cfg : Config) (e : FileEntry) : nat :=
  estimate_tokens cfg (content e).

(** Modelled from the spec: an entry whose own estimate exceeds the ceiling
    (section 4.3). *)
Definition oversized (cfg : Config) (e : FileEntry) : bool :=
  MAX_TOKENS cfg <? estimate cfg e.

(** Modelled from the spec: the further truncation of an oversized entry
    (section 4.3), which keeps the longest prefix the ceiling pays for. *)
Definition truncate_entry (cfg : Config) (e : FileEntry) : FileEntry :=
  {| path := path e;
     size := size e;
     content := String.substring 0 (MAX_TOKENS cfg * CHARS_PER_TOKEN cfg) (content e);
     language := language e;
     truncated := true |}.

(** Modelled from the spec: the entry as it is packed, truncated if
    oversized and never dropped (section 4.3). *)
Definition packed (cfg : Config) (e : FileEntry) : FileEntry :=
  if oversized cfg e then truncate_entry cfg e else e.

(** Modelled from the spec: the open chunk of the greedy packing is closed,
    if it holds anything. *)
Definition flush (i : nat) (cur : list FileEntry) (cur_tokens : nat) : list Chunk :=
  match cur with
  | [] => []
  | _ => [ {| index := i; entries := cur; tokens := cur_tokens |} ]
  end.

(** Modelled from the spec: the greedy packing of section 4.3. [cur] is the
    open chunk with its cumulative estimate [cur_tokens], [i] the index of
    the next chunk to close. *)
Fixpoint pack (cfg : Config) (todo : list FileEntry)
    (i : nat) (cur : list FileEntry) (cur_tokens : nat) : list Chunk :=
  match todo with
  | [] => flush i cur cur_tokens
  | e :: rest =>
      let t := estimate cfg e in
      if oversized cfg e then
        let closed := flush i cur cur_tokens in
        let j := i + length closed in
        let e' := truncate_entry cfg e in
        closed
          ++ {| index := j; entries := [e']; tokens := estimate cfg e' |}
          :: pack cfg rest (S j) [] 0
      else if MAX_TOKENS cfg <? cur_tokens + t then
        let closed := flush i cur cur_tokens in
        closed ++ pack cfg rest (i + length closed) [e] t
      else
        pack cfg rest i (cur ++ [e]) (cur_tokens + t)
  end.

(** Modelled from the spec: the Chunker's contract of section 4.3. *)
Definition chunker (cfg : Config) (selected : list FileEntry)
  : ChunkerError + list Chunk :=
  match selected with
  | [] => inl NoContentSelected
  | _ => inr (pack cfg selected 0 [] 0)
  end.

(** Modelled from the spec: the cumulative estimate of section 3, the
    estimates of a chunk's entries summed. *)
Definition estimate_sum (cfg : Config) (es : list FileEntry) : nat :=
  sum_list_with (estimate cfg) es.

(** A chunk of entries packed as they are, within the ceiling. *)
Definition whole (cfg : Config) (selected : list FileEntry) (c : Chunk) : Prop :=
  tokens c <= MAX_TOKENS cfg
  /\ Forall (fun e => e ∈ selected /\ estimate cfg e <= MAX_TOKENS cfg) (entries c).

(** A chunk holding one oversized entry, truncated, and nothing else. *)
Definition alone (cfg : Config) (selected : list FileEntry) (c : Chunk) : Prop :=
  exists e, e ∈ selected /\ MAX_TOKENS cfg < estimate cfg e
            /\ entries c = [truncate_entry cfg e]
            /\ tokens c <= estimate cfg e.

Definition well_packed (cfg : Config) (selected : list FileEntry) (c : Chunk) : Prop :=
  tokens c = estimate_sum cfg (entries c)
  /\ (whole cfg selected c \/ alone cfg selected c).

End Chunker.

(** ** The prompt orchestrator (server side) *)

Module Orchestrator.
Import Chunker.

(** Modelled from the spec: the generative model boundary of section 6, a
    call answering with output text and the tokens it consumed, or
    failing. The server's pipeline code is not part of the client
    sources. *)
Inductive CallResult :=
| Output (text : string) (tokens_consumed : nat)
| Failure.

(** Modelled from the spec: the model as the orchestrator meets it (the
    boundary of section 6), what the [n]-th call of the run answers to its
    prompt. *)
Definition Model : Type := nat -> string -> CallResult.

(** Modelled from the spec: what the orchestrator of section 4.4 does, in
    order: a call for a chunk (first attempt or retry) with its answer, and
    the backoff before a retry. *)
Inductive Event :=
| Call (chunk : nat) (attempt : nat) (answer : CallResult)
| Backoff.

(** Modelled from the spec: the terminal states of section 4.4. *)
Inductive Status := Complete | PartialFailure.

(** Modelled from the spec: GenerationSession of section 3 with the merged
    document of section 9's accumulator. *)
Record Session := {
  merged : string;
  outputs : list string;
  tokens_used : nat;
  calls : nat;
  log : list Event
}.

(** Modelled from the spec: what the orchestrator returns (section 4.4), the
    document, whether it is partial, and the session it ended in. *)
Record Result := {
  status : Status;
  document : string;
  partial : bool;
  session : Session
}.

(** Modelled from the spec: the session before the first call (Pending). *)
Definition start : Session :=
  {| merged := ""; outputs := []; tokens_used := 0; calls := 0; log := [] |}.

Section Policies.
(** The fixed framing, the generic instruction, the recap and the merge
    of section 4.4, which the spec names without fixing them. *)
Variables SYSTEM_FRAMING DEFAULT_INSTRUCTION : string.
Variable recap : string -> string.
Variable merge : string -> string -> string.
Variable model : Model.

(** Modelled from the spec: a file's content under its path header
    (section 4.4). *)
Definition render_entry (e : FileEntry) : string :=
  "--- " +:+ path e +:+ " ---" +:+ content e.

(** Modelled from the spec: the chunk's file contents with path headers. *)
Definition render_chunk (c : Chunk) : string :=
  foldr (fun e k => render_entry e +:+ k) "" (entries c).

(** Modelled from the spec: the prompt of a call (section 4.4), with the
    recap from the second call onward. *)
Definition prompt (requirement : string) (c : Chunk) (s : Session) : string :=
  SYSTEM_FRAMING
    +:+ JS.or_else requirement DEFAULT_INSTRUCTION
    +:+ render_chunk c
    +:+ match outputs s with
        | [] => ""
        | _ => recap (merged s)
        end.

(** Modelled from the spec: a successful call is merged into the session,
    and its reported tokens are counted (sections 4.4 and 4.5). *)
Definition accept (events : list Event) (made : nat)
    (text : string) (n : nat) (s : Session) : Session :=
  {| merged := merge (merged s) text;
     outputs := outputs s ++ [text];
     tokens_used := tokens_used s + n;
     calls := calls s + made;
     log := log s ++ events |}.

(** Modelled from the spec: the session after a second failure, its merged
    document kept as it was (section 4.4). *)
Definition abandon (events : list Event) (made : nat) (s : Session) : Session :=
  {| merged := merged s;
     outputs := outputs s;
     tokens_used := tokens_used s;
     calls := calls s + made;
     log := log s ++ events |}.

(** Modelled from the spec: one call per chunk, one retry after a
    backoff, and on a second failure the remaining chunks are given up
    and the document merged so far is returned as partial
    (section 4.4). *)
Fixpoint process (requirement : string) (chunks : list Chunk) (s : Session)
  : Result :=
  match chunks with
  | [] =>
      {| status := Complete; document := merged s; partial := false; session := s |}
  | c :: rest =>
      let p := prompt requirement c s in
      match model (calls s) p with
      | Output text n =>
          process requirement rest
            (accept [Call (index c) 1 (Output text n)] 1 text n s)
      | Failure =>
          match model (S (calls s)) p with
          | Output text n =>
              process requirement rest
                (accept [Call (index c) 1 Failure; Backoff;
                           Call (index c) 2 (Output text n)] 2 text n s)
          | Failure =>
              let s' := abandon [Call (index c) 1 Failure; Backoff;
                                 Call (index c) 2 Failure] 2 s in
              {| status := PartialFailure; document := merged s';
                 partial := true; session := s' |}
          end
      end
  end.

(** Modelled from the spec: the orchestrator's contract of section 4.4. *)
Definition orchestrate (requirement : string) (chunks : list Chunk) : Result :=
  process requirement chunks start.
End Policies.

(** The output texts of the successful calls of a log, in order. *)
Definition successes (l : list Event) : list string :=
  omap (fun e => match e with
                 | Call _ _ (Output text _) => Some text
                 | _ => None
                 end) l.

(** The retry discipline, read off a log: a chunk's first attempt either
    succeeds, or fails and is followed by one backoff and one retry of the
    same chunk; after a failed retry nothing more happens. *)
Fixpoint disciplined (l : list Event) : bool :=
  match l with
  | [] => true
  | Call _ 1 (Output _ _) :: rest => disciplined rest
  | Call i 1 Failure :: Backoff :: Call j 2 answer :: rest =>
      (i =? j) &&
      match answer with
      | Output _ _ => disciplined rest
      | Failure => match rest with [] => true | _ => false end
      end
  | _ => false
  end.

(** The log ends with a retry that failed. *)
Definition ends_in_failure (l : list Event) : bool :=
  match last l with
  | Some (Call _ 2 Failure) => true
  | _ => false
  end.

(** The chunks that were attempted, in order. *)
Definition attempted (l : list Event) : list nat :=
  omap (fun e => match e with
                 | Call i 1 _ => Some i
                 | _ => None
                 end) l.

(** What a run from session [s] over [chunks] adds to the log, and how its
    result [r] relates to it. *)
Record Trail (merge : string -> string -> string) (model : Model)
    (chunks : list Chunk) (s : Session) (r : Result) (tail : list Event) : Prop := {
  trail_log : log (session r) = log s ++ tail;
  trail_disciplined : disciplined tail = true;
  trail_document : document r = foldl merge (merged s) (successes tail);
  trail_merged : merged (session r) = document r;
  trail_outputs : outputs (session r) = outputs s ++ successes tail;
  trail_attempted : exists k, attempted tail = index <$> take k chunks;
  trail_answers :
    Forall (fun text => exists n p k, model n p = Output text k) (successes tail);
  trail_complete :
    status r = Complete ->
    partial r = false /\ ends_in_failure tail = false
    /\ length (successes tail) = length chunks;
  trail_partial :
    status r = PartialFailure ->
    partial r = true /\ ends_in_failure tail = true
    /\ length (successes tail) < length chunks
}.

End Orchestrator.

(** ** pages/SessionsPage.tsx: the list, the search and the two-step deletion *)

Module SessionsView.
Import Http Browser SessionsPage.

Definition setSearchTerm (v : string) : P unit :=
  modify (fun s =>
    {| searchTerm := v; selectedSession := selectedSession s;
       isPreviousSelected := isPreviousSelected s; readmeData := readmeData s;
       loading := loading s; error := error s;
       deleteConfirmId := deleteConfirmId s; deletingId := deletingId s;
       deleteError := deleteError s; deleteSuccess := deleteSuccess s;
       currentReadme := currentReadme s |}).

Definition setLoading (v : bool) : P unit :=
  modify (fun s =>
    {| searchTerm := searchTerm s; selectedSession := selectedSession s;
       isPreviousSelected := isPreviousSelected s; readmeData := readmeData s;
       loading := v; error := error s;
       deleteConfirmId := deleteConfirmId s; deletingId := deletingId s;
       deleteError := deleteError s; deleteSuccess := deleteSuccess s;
       currentReadme := currentReadme s |}).

(** The message thrown for a GET /readmes response that is not [ok]
    (lines 52-57). *)
Definition list_failure (status : nat) : string :=
  if status =? 401 then "Unauthorized - Please log in"
  else "HTTP error! status: " +:+ JS.of_nat status.

Definition listRequest (base_url : string) (token : option string) : Request :=
  {| url := base_url +:+ "/readmes";
     method := GET;
     headers := [("Content-Type", "application/json");
                 ("Authorization", bearer token)];
     body := NoBody |}.

(** [data] is the array the body of an [ok] response parses to. *)
Definition fetchReadmeData (base_url : string) (token : option string)
    (net : FetchOutcome) (data : list ReadmeData) : P unit :=
  finally
    (try_catch
       (setLoading true ;;
        setError None ;;
        response ← fetch (listRequest base_url token) net ;
        (if negb (ok response) then throw (list_failure (status response))
         else mret tt) ;;
        match json response with
        | JsonInvalid syntax_error => throw syntax_error
        | JsonValue _ => setReadmeData (fun _ => data)
        end)
       (fun message =>
          setError (Some message) ;;
          emit (ConsoleError "Error fetching README data:" message)))
    (setLoading false).

Definition handleDeleteClick (id' : string) : P unit :=
  setDeleteConfirmId (Some id').

Definition handleCancelDelete : P unit :=
  setDeleteConfirmId None.

Definition handleConfirmDelete (base_url : string) (closure : State) (id' : string)
    (token : option string) (net : FetchOutcome) : P unit :=
  handleDelete base_url closure id' token net.

Definition handleRetry (base_url : string) (token : option string)
    (net : FetchOutcome) (data : list ReadmeData) : P unit :=
  fetchReadmeData base_url token net data.

(** [s.includes(sub)] *)
Definition includes (s sub : string) : bool :=
  bool_decide (is_Some (String.index 0 sub s)).

(** [value && ...] for a [string | null]: [null] and the empty string are
    falsy. *)
Definition truthy (value : option string) : bool :=
  match value with
  | Some s => negb (bool_decide (s = ""))
  | None => false
  end.

Section Rendering.
(** [String.prototype.toLowerCase], which the page applies to file names
    and to the search term. *)
Variable toLowerCase : string -> string.
Variable base_url : string.

Definition filteredSessions (s : State) : list ReadmeData :=
  filter (fun session =>
            includes (toLowerCase (filename session)) (toLowerCase (searchTerm s)) = true)
         (readmeData s).

(** [readmeData.find(s => s.id === selectedSession)] *)
Definition selectedSessionData (s : State) : option ReadmeData :=
  find (fun d => bool_decide (Some (id d) = selectedSession s)) (readmeData s).

(** The list of sessions is on screen. *)
Definition list_shown (s : State) : bool :=
  negb (loading s) && negb (truthy (error s)) && negb (isPreviousSelected s).

(** The delete buttons of the session [id'] are on screen: as a row of the
    filtered list, or as the session under preview. *)
Definition on_screen (s : State) (id' : string) : bool :=
  negb (loading s) && negb (truthy (error s)) &&
  if isPreviousSelected s
  then bool_decide (id <$> selectedSessionData s = Some id')
  else bool_decide (id' ∈ id <$> filteredSessions s).

(** What the user, and the page's timers, can do. *)
Inductive Event :=
| Search (term : string)
| Back
| Retry (token : option string) (net : FetchOutcome) (data : list ReadmeData)
| View (n : nat) (token : option string) (net : FetchOutcome)
| Trash (id' : string)
| Cancel (id' : string)
| Confirm (id' : string) (token : option string) (net : FetchOutcome)
| Timeout (callback : Callback).

(** The handler an event reaches in the render [closure] (lines 217-540):
    the search box is shown outside the preview and disabled while loading,
    the back arrow is shown in the preview, Retry with the error panel; a
    row shows the trash button, or, once it was clicked, the confirm and
    cancel buttons, all disabled while that session is being deleted. *)
Definition handle (closure : State) (e : Event) : P unit :=
  match e with
  | Search term =>
      if isPreviousSelected closure || loading closure then mret tt
      else setSearchTerm term
  | Back =>
      if isPreviousSelected closure then setPreviousSelected false else mret tt
  | Retry token net data =>
      if truthy (error closure) then handleRetry base_url token net data else mret tt
  | View n token net =>
      if list_shown closure then
        match filteredSessions closure !! n with
        | Some session => handleViewSession base_url session token net
        | None => mret tt
        end
      else mret tt
  | Trash id' =>
      if on_screen closure id'
         && negb (bool_decide (deleteConfirmId closure = Some id'))
         && negb (bool_decide (deletingId closure = Some id'))
      then handleDeleteClick id' else mret tt
  | Cancel id' =>
      if on_screen closure id'
         && bool_decide (deleteConfirmId closure = Some id')
         && negb (bool_decide (deletingId closure = Some id'))
      then handleCancelDelete else mret tt
  | Confirm id' token net =>
      if on_screen closure id'
         && bool_decide (deleteConfirmId closure = Some id')
         && negb (bool_decide (deletingId closure = Some id'))
      then handleConfirmDelete base_url closure id' token net else mret tt
  | Timeout ClearDeleteSuccess => setDeleteSuccess None
  | Timeout ClearDeleteError => setDeleteError None
  | Timeout SignOutAndRedirect => mret tt
  end.

Fixpoint run (events : list Event) (s : State) : State * list Effect :=
  match events with
  | [] => (s, [])
  | e :: rest =>
      let '(_, s1, l1) := handle s e s in
      let '(s2, l2) := run rest s1 in
      (s2, l1 ++ l2)
  end.
End Rendering.

(** The page as first rendered, before the effect that loads the list. *)
Definition init (currentReadme0 : option string) : State :=
  {| searchTerm := ""; selectedSession := None; isPreviousSelected := false;
     readmeData := []; loading := true; error := None;
     deleteConfirmId := None; deletingId := None;
     deleteError := None; deleteSuccess := None;
     currentReadme := currentReadme0 |}.

(** The urls of the DELETE requests among the effects. *)
Definition deleted (l : list Effect) : list string :=
  omap (fun e => match e with
                 | Fetch req =>
                     match method req with
                     | DELETE => Some (url req)
                     | _ => None
                     end
                 | _ => None
                 end) l.

(** The sessions whose trash button was clicked, event by event. *)
Definition trashed (events : list Event) : list string :=
  omap (fun e => match e with
                 | Trash id' => Some id'
                 | _ => None
                 end) events.

(** A session with its content loaded. *)
Definition with_content (text' : string) (s : ReadmeData) : ReadmeData :=
  {| id := id s; filename := filename s; created_at := created_at s;
     prompt := prompt s; model := model s; total_tokens := total_tokens s;
     content := Some text' |}.

End SessionsView.

(** ** context/AppContext.tsx *)

Module AppContext.
Import Http Browser.

(** The provider's cells, and the browser's [localStorage], which
    [setApiKey] writes and the initial state reads. *)
Record State := {
  currentReadme : option string;
  dailyTokensUsed : Q;
  apiKey : JS.jsstring;
  localStorage : gmap string JS.jsstring
}.

Definition P : Type -> Type := M State Effect.

Definition setDailyTokensUsed (v : Q) : P unit :=
  modify (fun s =>
    {| currentReadme := currentReadme s; dailyTokensUsed := v;
       apiKey := apiKey s; localStorage := localStorage s |}).

(** [setApiKeyState(key); localStorage.setItem('apiKey', key)] *)
Definition setApiKey (key : JS.jsstring) : P unit :=
  modify (fun s =>
    {| currentReadme := currentReadme s; dailyTokensUsed := dailyTokensUsed s;
       apiKey := key; localStorage := <["apiKey" := key]> (localStorage s) |}).

(** The provider as mounted over a given [localStorage]:
    [localStorage.getItem('apiKey') || ''], which is the stored key, or the
    empty string when none is stored. *)
Definition init (stored : gmap string JS.jsstring) : State :=
  {| currentReadme := None;
     dailyTokensUsed := 0;
     apiKey := default [] (stored !! "apiKey");
     localStorage := stored |}.

(** The message thrown for a GET /usage response that is not [ok]. *)
Definition usage_failure (status : nat) : string :=
  if status =? 401 then "Unauthorized - Please log in"
  else "HTTP error! status: " +:+ JS.of_nat status.

Definition usageRequest (base_url : string) (token : string) : Request :=
  {| url := base_url +:+ "/usage";
     method := GET;
     headers := [("Content-Type", "application/json");
                 ("Authorization", "Bearer " +:+ token)];
     body := NoBody |}.

(** [daily_tokens_used] is the member of that name of the value the body of
    an [ok] response parses to. A [null] or empty token is falsy. *)
Definition refreshUsage (base_url : string) (token : option string)
    (net : FetchOutcome) (daily_tokens_used : Q) : P unit :=
  try_catch
    (match token with
     | Some (String c t) =>
         response ← fetch (usageRequest base_url (String c t)) net ;
         (if negb (ok response) then throw (usage_failure (status response))
          else mret tt) ;;
         match json response with
         | JsonInvalid syntax_error => throw syntax_error
         | JsonValue _ => setDailyTokensUsed daily_tokens_used
         end
     | _ => emit (ConsoleError "No auth token available" "")
     end)
    (fun message => emit (ConsoleError "Error refreshing token usage:" message)).

End AppContext.

(** ** pages/SettingsPage.tsx: the API key *)

Module ApiKeySettings.
Import Http.

(** The cells of the API key section, over the application context. *)
Record State := {
  app : AppContext.State;
  showApiKey : bool;
  isEditing : bool;
  isSaving : bool;
  isLoading : bool;
  localApiKey : JS.jsstring
}.

(** What the section does to the world: the two requests, the second with
    its JSON body [{api_key}], toasts and console output. *)
Inductive Effect :=
| Get (req : Request)
| PostJson (url' : string) (headers' : list (string * string)) (api_key : JS.jsstring)
| ToastError (message : string)
| ToastSuccess (message : string)
| ConsoleError (label message : string).

Definition P : Type -> Type := M State Effect.

Definition setApp (f : AppContext.State -> AppContext.State) : P unit :=
  modify (fun s =>
    {| app := f (app s); showApiKey := showApiKey s; isEditing := isEditing s;
       isSaving := isSaving s; isLoading := isLoading s;
       localApiKey := localApiKey s |}).

(** The context's [setApiKey], called from the page. *)
Definition setApiKey (key : JS.jsstring) : P unit :=
  setApp (fun a => final_state (AppContext.setApiKey key a)).

Definition setShowApiKey (v : bool) : P unit :=
  modify (fun s =>
    {| app := app s; showApiKey := v; isEditing := isEditing s;
       isSaving := isSaving s; isLoading := isLoading s;
       localApiKey := localApiKey s |}).

Definition setIsEditing (v : bool) : P unit :=
  modify (fun s =>
    {| app := app s; showApiKey := showApiKey s; isEditing := v;
       isSaving := isSaving s; isLoading := isLoading s;
       localApiKey := localApiKey s |}).

Definition setIsSaving (v : bool) : P unit :=
  modify (fun s =>
    {| app := app s; showApiKey := showApiKey s; isEditing := isEditing s;
       isSaving := v; isLoading := isLoading s;
       localApiKey := localApiKey s |}).

Definition setIsLoading (v : bool) : P unit :=
  modify (fun s =>
    {| app := app s; showApiKey := showApiKey s; isEditing := isEditing s;
       isSaving := isSaving s; isLoading := v;
       localApiKey := localApiKey s |}).

Definition setLocalApiKey (v : JS.jsstring) : P unit :=
  modify (fun s =>
    {| app := app s; showApiKey := showApiKey s; isEditing := isEditing s;
       isSaving := isSaving s; isLoading := isLoading s;
       localApiKey := v |}).

Definition settle (net : FetchOutcome) : P Response :=
  match net with
  | Responded r => mret r
  | Rejected message => throw message
  end.

Definition json_headers (token : option string) : list (string * string) :=
  [("Content-Type", "application/json"); ("Authorization", Browser.bearer token)].

(** [api_key] is the member of that name of the value the body parses to,
    [None] when there is none. *)
Definition fetchApiKey (base_url : string) (token : option string)
    (net : FetchOutcome) (api_key : option JS.jsstring) : P unit :=
  finally
    (try_catch
       (setIsLoading true ;;
        emit (Get {| url := base_url +:+ "/get_apikey"; method := GET;
                     headers := json_headers token; body := NoBody |}) ;;
        response ← settle net ;
        (if negb (ok response) then
           throw ("HTTP error! status: " +:+ JS.of_nat (status response))
         else mret tt) ;;
        match json response with
        | JsonInvalid syntax_error => throw syntax_error
        | JsonValue _ =>
            match api_key with
            | Some (c :: key) =>
                setApiKey (c :: key) ;;
                setLocalApiKey (c :: key)
            | _ =>
                setApiKey [] ;;
                setLocalApiKey []
            end
        end)
       (fun message =>
          emit (ConsoleError "Error fetching API key:" message) ;;
          emit (ToastError "Failed to load API key")))
    (setIsLoading false).

Definition saveApiKeyToServer (base_url : string) (keyToSave : JS.jsstring)
    (token : option string) (net : FetchOutcome) : P unit :=
  finally
    (try_catch
       (setIsSaving true ;;
        emit (PostJson (base_url +:+ "/save_apikey") (json_headers token) keyToSave) ;;
        response ← settle net ;
        (if negb (ok response) then
           throw ("HTTP error! status: " +:+ JS.of_nat (status response))
         else mret tt) ;;
        match json response with
        | JsonInvalid syntax_error => throw syntax_error
        | JsonValue _ => mret tt
        end)
       (fun message =>
          emit (ConsoleError "Error saving API key:" message) ;;
          throw message))
    (setIsSaving false).

Definition handleSaveApiKey (base_url : string) (closure : State)
    (token : option string) (net : FetchOutcome) : P unit :=
  match JS.trim (localApiKey closure) with
  | [] => emit (ToastError "Please enter a valid API key")
  | _ =>
      try_catch
        (saveApiKeyToServer base_url (localApiKey closure) token net ;;
         setApiKey (localApiKey closure) ;;
         emit (ToastSuccess "API key saved successfully!") ;;
         setIsEditing false)
        (fun _ => emit (ToastError "Failed to save API key. Please try again."))
  end.

Definition handleApiKeyChange (value : JS.jsstring) : P unit :=
  setLocalApiKey value.

Definition handleEditCancel (closure : State) : P unit :=
  setLocalApiKey (AppContext.apiKey (app closure)) ;;
  setIsEditing false.

(** The Edit button: [setLocalApiKey(apiKey); setIsEditing(true)]. *)
Definition handleEdit (closure : State) : P unit :=
  setLocalApiKey (AppContext.apiKey (app closure)) ;;
  setIsEditing true.

(** The text the input shows: [isEditing ? localApiKey : apiKey]. *)
Definition shown (s : State) : JS.jsstring :=
  if isEditing s then localApiKey s else AppContext.apiKey (app s).

(** What the user can do in the section. *)
Inductive Event :=
| ClickEdit
| Type_ (value : JS.jsstring)
| ClickSave (token : option string) (net : FetchOutcome)
| ClickCancel
| ToggleShow.

(** The handler an event reaches in the render [closure] (lines 188-249):
    nothing while the key is loading; the input is disabled outside editing;
    Save and Cancel exist while editing and are disabled while saving; Edit
    exists otherwise. *)
Definition handle (base_url : string) (closure : State) (e : Event) : P unit :=
  if isLoading closure then mret tt
  else
    match e with
    | ClickEdit => if isEditing closure then mret tt else handleEdit closure
    | Type_ value => if isEditing closure then handleApiKeyChange value else mret tt
    | ClickSave token net =>
        if isEditing closure && negb (isSaving closure)
        then handleSaveApiKey base_url closure token net else mret tt
    | ClickCancel =>
        if isEditing closure && negb (isSaving closure)
        then handleEditCancel closure else mret tt
    | ToggleShow => setShowApiKey (negb (showApiKey closure))
    end.

Fixpoint run (base_url : string) (events : list Event) (s : State)
  : State * list Effect :=
  match events with
  | [] => (s, [])
  | e :: rest =>
      let '(_, s1, l1) := handle base_url s e s in
      let '(s2, l2) := run base_url rest s1 in
      (s2, l1 ++ l2)
  end.

(** The keys sent to the server among the effects. *)
Definition saved (l : list Effect) : list JS.jsstring :=
  omap (fun e => match e with
                 | PostJson _ _ key => Some key
                 | _ => None
                 end) l.

(** The section as first rendered over the context. *)
Definition init (a : AppContext.State) : State :=
  {| app := a; showApiKey := false; isEditing := false; isSaving := false;
     isLoading := true; localApiKey := [] |}.

End ApiKeySettings.

(** ** components/Upload/DropZone.tsx: drag events in sequence *)

Module DropZoneEvents.
Import Http DropZone.

Inductive Event :=
| DragOver
| DragLeave
| Drop (files : list File)
| Input (files : option (list File)).

(** The file input is disabled with the zone. *)
Definition handle (disabled : bool) (e : Event) : P unit :=
  match e with
  | DragOver => handleDragOver disabled
  | DragLeave => handleDragLeave
  | Drop files => handleDrop disabled files
  | Input files => if disabled then mret tt else handleFileInput files
  end.

Fixpoint run (disabled : bool) (events : list Event) (s : State)
  : State * list Call :=
  match events with
  | [] => (s, [])
  | e :: rest =>
      let '(_, s1, l1) := handle disabled e s in
      let '(s2, l2) := run disabled rest s1 in
      (s2, l1 ++ l2)
  end.

(** The first file of each non-empty drop or choice, in order. *)
Definition offered (events : list Event) : list File :=
  omap (fun e => match e with
                 | Drop (file :: _) => Some file
                 | Input (Some (file :: _)) => Some file
                 | _ => None
                 end) events.

End DropZoneEvents.

(** ** pages/HomePage.tsx: what a session of the page adds up to *)

Module HomeSession.
Import Http HomePage.

(** The file an event selects: the first of a non-empty drop or choice. *)
Definition selects (e : Event) : option File :=
  match e with
  | Drop (file :: _) => Some file
  | ChooseFile (Some (file :: _)) => Some file
  | _ => None
  end.

(** The prompt an event types. *)
Definition types (e : Event) : option string :=
  match e with
  | TypePrompt newPrompt => Some newPrompt
  | _ => None
  end.

(** The user does not click Generate. *)
Definition generates_nothing (events : list Event) : bool :=
  forallb (fun e => match e with ClickGenerate _ _ => false | _ => true end) events.

(** The page's model identifier and the dropdown's entry agree: either no
    model was picked yet, or the identifier is the id of the entry shown. *)
Definition in_step (s : State) : Prop :=
  untouched s
  \/ exists m, m ∈ AIModelDropdown.defaultModels
               /\ AIModelDropdown.selectedModel (dropdown s) = Some m
               /\ model s = AIModelDropdown.id m.

End HomeSession.

(** ** Sample data *)

Module Samples.
Import Http.

Definition base_url : string := "https://api.easydocs.test".

Definition answer (status' : nat) (text' : string) : Response :=
  {| status := status'; text := text'; json := JsonValue None |}.

Definition session_a : SessionsPage.ReadmeData :=
  {| SessionsPage.id := "64f0a1"; SessionsPage.filename := "shop.zip";
     SessionsPage.created_at := "2025-07-01T10:00:00Z";
     SessionsPage.prompt := ""; SessionsPage.model := "gemini-2.0-flash";
     SessionsPage.total_tokens := 521; SessionsPage.content := None |}.

Definition session_b : SessionsPage.ReadmeData :=
  {| SessionsPage.id := "64f0b2"; SessionsPage.filename := "scraper.zip";
     SessionsPage.created_at := "2025-07-02T08:30:00Z";
     SessionsPage.prompt := "Add a usage section";
     SessionsPage.model := "gemini-1.5-flash";
     SessionsPage.total_tokens := 184; SessionsPage.content := Some "# Scraper" |}.

Definition sessions : SessionsPage.State :=
  {| SessionsPage.searchTerm := "";
     SessionsPage.selectedSession := Some "64f0a1";
     SessionsPage.isPreviousSelected := true;
     SessionsPage.readmeData := [session_a; session_b];
     SessionsPage.loading := false;
     SessionsPage.error := None;
     SessionsPage.deleteConfirmId := Some "64f0a1";
     SessionsPage.deletingId := None;
     SessionsPage.deleteError := None;
     SessionsPage.deleteSuccess := None;
     SessionsPage.currentReadme := Some "# Shop" |}.

Definition readme_a : PersistenceStore.ReadmeRecord :=
  {| PersistenceStore.owner := "user_alice";
     PersistenceStore.source_filename := "shop.zip";
     PersistenceStore.requirement := "";
     PersistenceStore.model_used := "gemini-2.0-flash";
     PersistenceStore.total_tokens := 521;
     PersistenceStore.created_at := 1;
     PersistenceStore.document := "# Shop" |}.

Definition archive : File :=
  {| file_name := "shop.zip"; file_size := 3; file_bytes := [80; 75; 3]%N |}.

Definition other_archive : File :=
  {| file_name := "scraper.zip"; file_size := 2; file_bytes := [80; 75]%N |}.

Definition home : HomePage.State := HomePage.init "AIza-key" None.

Definition store : PersistenceStore.Store := {[ "64f0a1" := readme_a ]}.

(** Opening the modal, typing the phrase, confirming. *)
Definition delete_my_account (typed : JS.jsstring) : list SettingsPage.Event :=
  [ SettingsPage.ClickDeleteAccount;
    SettingsPage.Modal (DeleteConfirmationModal.Type_ typed) None (Rejected "offline");
    SettingsPage.Modal DeleteConfirmationModal.ClickConfirm (Some "jwt")
      (Responded (answer 200 "")) ].

Definition limits : Chunker.Config :=
  {| Chunker.MAX_TOKENS := 2; Chunker.CHARS_PER_TOKEN := 4 |}.

Definition entry (path' content' : string) : Chunker.FileEntry :=
  {| Chunker.path := path'; Chunker.size := String.length content';
     Chunker.content := content'; Chunker.language := "python";
     Chunker.truncated := false |}.

(** One token, two tokens, five tokens (oversized), one token. *)
Definition selection : list Chunker.FileEntry :=
  [ entry "setup.py" "abcd";
    entry "app.py" "abcdefgh";
    entry "data.py" "abcdefghijklmnopqrst";
    entry "util.py" "abcdef" ].

Definition two_chunks : list Chunker.Chunk :=
  [ {| Chunker.index := 0; Chunker.entries := [entry "setup.py" "abcd"];
       Chunker.tokens := 1 |};
    {| Chunker.index := 1; Chunker.entries := [entry "app.py" "abcdefgh"];
       Chunker.tokens := 2 |} ].

(** A model that answers the first call and fails from then on. *)
Definition flaky : Orchestrator.Model :=
  fun n _ =>
    match n with
    | 0 => Orchestrator.Output "# Shop" 12
    | _ => Orchestrator.Failure
    end.

End Samples.

(** ** Sample sessions for the pages *)

Module Scenarios.
Import Http.

(** ASCII lower-casing, as [toLowerCase] acts on ASCII text. *)
Definition lower_ascii (c : ascii) : ascii :=
  let n := nat_of_ascii c in
  if (65 <=? n) && (n <=? 90) then ascii_of_nat (n + 32) else c.

Fixpoint lower (s : string) : string :=
  match s with
  | EmptyString => EmptyString
  | String c t => String (lower_ascii c) (lower t)
  end.

(** The session list as loaded, nothing selected or awaiting
    confirmation. *)
Definition listed : SessionsPage.State :=
  {| SessionsPage.searchTerm := "";
     SessionsPage.selectedSession := None;
     SessionsPage.isPreviousSelected := false;
     SessionsPage.readmeData := [Samples.session_a; Samples.session_b];
     SessionsPage.loading := false;
     SessionsPage.error := None;
     SessionsPage.deleteConfirmId := None;
     SessionsPage.deletingId := None;
     SessionsPage.deleteError := None;
     SessionsPage.deleteSuccess := None;
     SessionsPage.currentReadme := None |}.

(** Searching, then deleting the first session in two clicks. *)
Definition search_and_delete : list SessionsView.Event :=
  [ SessionsView.Search "shop";
    SessionsView.Trash "64f0a1";
    SessionsView.Confirm "64f0a1" (Some "jwt") (Responded (Samples.answer 200 "")) ].

(** A refusal with a JSON body naming the reason. *)
Definition refusal : Response :=
  {| status := 429; text := "";
     json := JsonValue (Some "Daily token limit reached") |}.

(** Dropping an archive, an empty drop, typing a prompt twice. *)
Definition prepare : list HomePage.Event :=
  [ HomePage.Drop [Samples.archive; Samples.other_archive];
    HomePage.TypePrompt "Add a usage";
    HomePage.Drop [];
    HomePage.TypePrompt "Add a usage section" ].

Definition drags : list DropZoneEvents.Event :=
  [ DropZoneEvents.DragOver;
    DropZoneEvents.Drop [Samples.archive; Samples.other_archive];
    DropZoneEvents.DragOver;
    DropZoneEvents.DragLeave;
    DropZoneEvents.Input (Some [Samples.other_archive]);
    DropZoneEvents.Drop [] ].

Definition account_modal : DeleteConfirmationModal.Props :=
  {| DeleteConfirmationModal.isOpen := true;
     DeleteConfirmationModal.itemName := JS.lit "Delete Account" |}.

(** A modal asked to confirm a name that ends with a space. *)
Definition padded_modal : DeleteConfirmationModal.Props :=
  {| DeleteConfirmationModal.isOpen := true;
     DeleteConfirmationModal.itemName := JS.lit "shop.zip " |}.

(** The settings page with the modal open and the phrase typed. *)
Definition confirming : SettingsPage.State :=
  {| SettingsPage.showDelete := true;
     SettingsPage.modal := JS.lit " Delete Account" |}.

Definition context : AppContext.State :=
  AppContext.init {[ "apiKey" := JS.lit "AIza-old"; "theme" := JS.lit "dark" ]}.

(** The API key section once the key has loaded. *)
Definition key_section : ApiKeySettings.State :=
  {| ApiKeySettings.app := context;
     ApiKeySettings.showApiKey := false;
     ApiKeySettings.isEditing := false;
     ApiKeySettings.isSaving := false;
     ApiKeySettings.isLoading := false;
     ApiKeySettings.localApiKey := JS.lit "AIza-old" |}.

(** The section in editing, a new key typed with a space after it. *)
Definition key_typed : ApiKeySettings.State :=
  {| ApiKeySettings.app := context;
     ApiKeySettings.showApiKey := false;
     ApiKeySettings.isEditing := true;
     ApiKeySettings.isSaving := false;
     ApiKeySettings.isLoading := false;
     ApiKeySettings.localApiKey := JS.lit "AIza-new " |}.

Definition retype_and_save : list ApiKeySettings.Event :=
  [ ApiKeySettings.ClickEdit;
    ApiKeySettings.Type_ (JS.lit "   ");
    ApiKeySettings.ClickSave (Some "jwt") (Responded (Samples.answer 200 ""));
    ApiKeySettings.Type_ (JS.lit "AIza-new");
    ApiKeySettings.ClickSave (Some "jwt") (Responded (Samples.answer 200 "")) ].

End Scenarios.

(** * Properties *)

(** Running a handler: the monad's operations and a page's setters are
    unfolded, and what remains is computed. *)
Ltac run_prog :=
  unfold final_state, completion, effects, finally, try_catch, when, Browser.fetch,
    mbind, mret, prog_bind, prog_ret, bind, ret, modify, emit, throw;
  cbn.

(** ** The session list *)

Section SessionsPageProofs.
Import Http Browser SessionsPage.

Lemma filter_other_ids_all (i : string) (l : list ReadmeData) :
  i ∉ (id <$> l) -> filter (fun item => id item ≠ i) l = l.
Proof.
  induction l as [|x l IH]; intros Hnot; [reflexivity|].
  rewrite fmap_cons in Hnot. apply not_elem_of_cons in Hnot as [Hx Hl].
  rewrite filter_cons_True by congruence. f_equal. auto.
Qed.

Lemma filter_other_ids_length (i : string) (l : list ReadmeData) :
  NoDup (id <$> l) -> i ∈ id <$> l ->
  length l = S (length (filter (fun item => id item ≠ i) l)).
Proof.
  induction l as [|x l IH]; intros Hnd Hin.
  - inversion Hin.
  - rewrite fmap_cons in Hnd, Hin. apply NoDup_cons in Hnd as [Hx Hnd].
    destruct (decide (id x = i)) as [Heq|Hne].
    + rewrite filter_cons_False by (intros H; apply H; exact Heq).
      subst i. rewrite filter_other_ids_all by exact Hx. reflexivity.
    + rewrite filter_cons_True by exact Hne. cbn [length]. f_equal.
      apply IH; [exact Hnd|].
      apply elem_of_cons in Hin as [Hin|Hin]; [congruence|exact Hin].
Qed.

Lemma handleDelete_success base_url closure i token r st :
  ok r = true ->
  readmeData (final_state (handleDelete base_url closure i token (Responded r) st))
  = filter (fun item => id item ≠ i) (readmeData st).
Proof.
  intros Hok. unfold handleDelete, setDeletingId, setDeleteError, setReadmeData,
    setDeleteSuccess, setDeleteConfirmId, setSelectedSession, setPreviousSelected,
    setCurrentReadme.
  run_prog. rewrite Hok. cbn.
  destruct (bool_decide (selectedSession closure = Some i)); reflexivity.
Qed.

(** A failed deletion, whatever the failure, leaves the list, the
    selection and the displayed document alone, and reports the failure in
    [deleteError]. *)
Lemma handleDelete_failure base_url closure i token net st :
  match net with Responded r => ok r = false | Rejected _ => True end ->
  let st' := final_state (handleDelete base_url closure i token net st) in
  readmeData st' = readmeData st
  /\ selectedSession st' = selectedSession st
  /\ isPreviousSelected st' = isPreviousSelected st
  /\ currentReadme st' = currentReadme st
  /\ deleteError st' =
       Some (match net with
             | Responded r => delete_failure (status r)
             | Rejected message => message
             end).
Proof.
  destruct net as [r|msg]; intros Hok;
    unfold handleDelete, setDeletingId, setDeleteError, setReadmeData,
      setDeleteSuccess, setDeleteConfirmId, setSelectedSession, setPreviousSelected,
      setCurrentReadme; run_prog.
  - rewrite Hok. cbn. auto.
  - auto.
Qed.

(** C1. For every session list the page holds and every id: when the
    DELETE request answers with a success status, [handleDelete] leaves in
    the list exactly the entries whose id differs from the deleted one,
    unchanged and in their order (the new list is the old one filtered, no
    entry with the deleted id remains, and the entries with another id
    form the same sequence before and after); when the ids of the list are
    unique and the deleted id is among them, exactly one record is removed.
    When the request answers with a status that is not a success, the list
    is unchanged. *)
Theorem handleDelete_removes_the_deleted_id
    (base_url : string) (closure st : State) (i : string)
    (token : option string) (r : Response) :
  let before := readmeData st in
  let after :=
    readmeData (final_state (handleDelete base_url closure i token (Responded r) st)) in
  (ok r = true ->
     after = filter (fun item => id item ≠ i) before
     /\ Forall (fun item => id item ≠ i) after
     /\ filter (fun item => id item ≠ i) after = filter (fun item => id item ≠ i) before
     /\ (NoDup (id <$> before) -> i ∈ id <$> before ->
         length before = S (length after)))
  /\ (ok r = false -> after = before).
Proof.
  intros before after. split.
  - intros Hok. subst after. rewrite (handleDelete_success _ _ _ _ _ _ Hok).
    fold before. repeat split.
    + apply Forall_forall. intros item Hin.
      apply list_elem_of_filter in Hin. tauto.
    + apply list_filter_filter_l. tauto.
    + apply filter_other_ids_length.
  - intros Hok. subst after before.
    apply (handleDelete_failure base_url closure i token (Responded r) st Hok).
Qed.

Lemma handleDelete_removes_the_deleted_id_witness :
  (ok (Samples.answer 200 "") = true
   /\ NoDup (id <$> readmeData Samples.sessions)
   /\ "64f0a1" ∈ id <$> readmeData Samples.sessions
   /\ readmeData (final_state
         (handleDelete Samples.base_url Samples.sessions "64f0a1" (Some "jwt")
            (Responded (Samples.answer 200 "")) Samples.sessions))
       = [Samples.session_b]
   /\ length (readmeData Samples.sessions) = 2)
  /\ (ok (Samples.answer 404 "") = false
      /\ readmeData (final_state
            (handleDelete Samples.base_url Samples.sessions "64f0a1" (Some "jwt")
               (Responded (Samples.answer 404 "")) Samples.sessions))
          = [Samples.session_a; Samples.session_b]).
Proof.
  assert (Hnd : NoDup (id <$> readmeData Samples.sessions))
    by (apply (bool_decide_unpack _); vm_compute; exact I).
  assert (Hin : "64f0a1" ∈ id <$> readmeData Samples.sessions)
    by (apply (bool_decide_unpack _); vm_compute; exact I).
  split.
  - destruct (handleDelete_removes_the_deleted_id Samples.base_url Samples.sessions
                Samples.sessions "64f0a1" (Some "jwt") (Samples.answer 200 ""))
      as [Hsuccess _].
    destruct (Hsuccess eq_refl) as (Heq & _ & _ & Hlen).
    split; [reflexivity|]. split; [exact Hnd|]. split; [exact Hin|]. split.
    + rewrite Heq. vm_compute. reflexivity.
    + rewrite (Hlen Hnd Hin), Heq. vm_compute. reflexivity.
  - destruct (handleDelete_removes_the_deleted_id Samples.base_url Samples.sessions
                Samples.sessions "64f0a1" (Some "jwt") (Samples.answer 404 ""))
      as [_ Hfailure].
    split; [reflexivity|]. rewrite (Hfailure eq_refl). reflexivity.
Defined.

End SessionsPageProofs.

(** ** The store and the pages that read it *)

Section StoreProofs.
Import Http Browser PersistenceStore.

Lemma check_absent (s : Store) (id caller : string) :
  s !! id = None -> check id caller s = inl NotFound.
Proof. intros H. unfold check. rewrite H. reflexivity. Qed.

Lemma check_foreign (s : Store) (id caller : string) (r : ReadmeRecord) :
  s !! id = Some r -> owner r ≠ caller -> check id caller s = inl Forbidden.
Proof.
  intros H Hne. unfold check. rewrite H.
  destruct (decide (owner r = caller)); [contradiction|reflexivity].
Qed.

Lemma check_owned (s : Store) (id caller : string) (r : ReadmeRecord) :
  s !! id = Some r -> owner r = caller -> check id caller s = inr r.
Proof.
  intros H Heq. unfold check. rewrite H.
  destruct (decide (owner r = caller)); [reflexivity|contradiction].
Qed.

(** A read never changes the store. *)
Lemma get_preserves (s : Store) (id caller : string) :
  (get id caller s).2 = s.
Proof. unfold get. destruct (check id caller s); reflexivity. Qed.

(** A deletion that succeeds has removed the record. *)
Lemma delete_removes (s s' : Store) (id caller : string) :
  delete id caller s = (inr tt, s') -> s' !! id = None.
Proof.
  unfold delete. destruct (check id caller s); intros H; inversion H.
  apply lookup_delete_eq.
Qed.

(** A deletion leaves every other record alone. *)
Lemma delete_frame (s : Store) (id id' caller : string) :
  id ≠ id' -> (delete id caller s).2 !! id' = s !! id'.
Proof.
  intros Hne. unfold delete. destruct (check id caller s); cbn; [reflexivity|].
  apply lookup_delete_ne. exact Hne.
Qed.

Lemma readme_preserves (s : Store) (id : string) (caller : option string) :
  (Server.readme caller id s).2 = s.
Proof.
  unfold Server.readme. destruct caller as [c|]; [|reflexivity].
  pose proof (get_preserves s id c) as H.
  destruct (get id c s) as [[e|doc] s']; exact H.
Qed.

Lemma fetchReadmeContent_ok base_url id token r (st : SessionsPage.State) :
  ok r = true ->
  SessionsPage.fetchReadmeContent base_url id token (Responded r) st
  = (Normal (text r), st,
     [Fetch {| url := base_url +:+ "/readme/" +:+ id; method := GET;
               headers := [("Authorization", bearer token)]; body := NoBody |}]).
Proof.
  intros Hok. unfold SessionsPage.fetchReadmeContent. run_prog.
  rewrite Hok. reflexivity.
Qed.

Lemma fetchReadmeContent_not_ok base_url id token r (st : SessionsPage.State) :
  ok r = false ->
  completion (SessionsPage.fetchReadmeContent base_url id token (Responded r) st)
  = Thrown (SessionsPage.content_failure (status r))
  /\ final_state (SessionsPage.fetchReadmeContent base_url id token (Responded r) st) = st.
Proof.
  intros Hok. unfold SessionsPage.fetchReadmeContent. run_prog.
  rewrite Hok. split; reflexivity.
Qed.

(** C2, as stated, fails for retrieval: [fetchReadmeContent] has no branch
    for HTTP 403, so a Forbidden answer is not turned into a permission
    error but into the message it gives for any status it does not single
    out, here "HTTP error! status: 403". *)
Lemma fetchReadmeContent_403_not_permission_error :
  ~ (forall base_url id token r (st : SessionsPage.State),
       status r = 403 ->
       exists message,
         completion (SessionsPage.fetchReadmeContent base_url id token (Responded r) st)
         = Thrown message
         /\ SessionsPage.is_permission_error message).
Proof.
  intros Hclaim.
  destruct (Hclaim Samples.base_url "64f0a1" (Some "jwt") (Samples.answer 403 "")
              Samples.sessions eq_refl) as (message & Hthrown & Hperm).
  vm_compute in Hthrown. inversion Hthrown as [Hmessage].
  unfold SessionsPage.is_permission_error in Hperm.
  rewrite <- Hmessage in Hperm. discriminate Hperm.
Qed.

(** C2 (amended). Retrieval and deletion of a persisted README are
    owner-scoped: for every id, [get(id, owner)] and [delete(id, owner)]
    fail with NotFound when no record with that id exists and with
    Forbidden when the record's owner differs from the caller, and the store
    is unchanged by either failure. On the client, [handleDelete] turns the
    404 answer into its not-found error and the 403 answer into its
    permission error and leaves the session list unchanged;
    [fetchReadmeContent] turns the 404 answer into its not-found error,
    reports the 403 answer through its generic "HTTP error! status: 403",
    and throws without changing the page's state. After a successful
    [delete(id, owner)], a subsequent [get(id, owner)] of the same id fails
    with NotFound. *)
Theorem get_delete_owner_scoped
    (s : Store) (id caller : string)
    (base_url : string) (closure st : SessionsPage.State) (token : option string) :
  let on_delete :=
    SessionsPage.handleDelete base_url closure id token
      (Responded (Server.delete_ (Some caller) id s).1) st in
  let on_get :=
    SessionsPage.fetchReadmeContent base_url id token
      (Responded (Server.readme (Some caller) id s).1) st in
  (s !! id = None ->
     get id caller s = (inl NotFound, s)
     /\ delete id caller s = (inl NotFound, s)
     /\ SessionsPage.deleteError (final_state on_delete)
        = Some "Session not found - it may have already been deleted"
     /\ SessionsPage.readmeData (final_state on_delete) = SessionsPage.readmeData st
     /\ completion on_get = Thrown "README not found"
     /\ final_state on_get = st)
  /\ (forall r, s !! id = Some r -> owner r ≠ caller ->
      get id caller s = (inl Forbidden, s)
      /\ delete id caller s = (inl Forbidden, s)
      /\ SessionsPage.deleteError (final_state on_delete)
         = Some "You do not have permission to delete this session"
      /\ SessionsPage.readmeData (final_state on_delete) = SessionsPage.readmeData st
      /\ completion on_get = Thrown "HTTP error! status: 403"
      /\ final_state on_get = st)
  /\ (forall s', delete id caller s = (inr tt, s') ->
      get id caller s' = (inl NotFound, s')).
Proof.
  intros on_delete on_get. split; [|split].
  - intros Habsent.
    assert (Hget : get id caller s = (inl NotFound, s))
      by (unfold get; rewrite (check_absent _ _ _ Habsent); reflexivity).
    assert (Hdel : delete id caller s = (inl NotFound, s))
      by (unfold delete; rewrite (check_absent _ _ _ Habsent); reflexivity).
    subst on_delete on_get. unfold Server.delete_, Server.readme.
    rewrite Hget, Hdel. cbn [fst Server.error_status].
    split; [reflexivity|]. split; [reflexivity|].
    pose proof (handleDelete_failure base_url closure id token
                  (Responded (Server.plain 404 "")) st eq_refl) as (Hl & _ & _ & _ & He).
    pose proof (fetchReadmeContent_not_ok base_url id token (Server.plain 404 "") st
                  eq_refl) as [Hc Hs].
    split; [exact He|]. split; [exact Hl|]. split; [exact Hc|exact Hs].
  - intros r Hsome Hforeign.
    assert (Hget : get id caller s = (inl Forbidden, s))
      by (unfold get; rewrite (check_foreign _ _ _ _ Hsome Hforeign); reflexivity).
    assert (Hdel : delete id caller s = (inl Forbidden, s))
      by (unfold delete; rewrite (check_foreign _ _ _ _ Hsome Hforeign); reflexivity).
    subst on_delete on_get. unfold Server.delete_, Server.readme.
    rewrite Hget, Hdel. cbn [fst Server.error_status].
    split; [reflexivity|]. split; [reflexivity|].
    pose proof (handleDelete_failure base_url closure id token
                  (Responded (Server.plain 403 "")) st eq_refl) as (Hl & _ & _ & _ & He).
    pose proof (fetchReadmeContent_not_ok base_url id token (Server.plain 403 "") st
                  eq_refl) as [Hc Hs].
    split; [exact He|]. split; [exact Hl|]. split; [exact Hc|exact Hs].
  - intros s' Hdel. unfold get.
    rewrite (check_absent _ _ _ (delete_removes _ _ _ _ Hdel)). reflexivity.
Qed.

Lemma get_delete_owner_scoped_witness :
  ((∅ : Store) !! "64f0a1" = None
   /\ get "64f0a1" "user_alice" ∅ = (inl NotFound, ∅)
   /\ completion (SessionsPage.fetchReadmeContent Samples.base_url "64f0a1" (Some "jwt")
         (Responded (Server.readme (Some "user_alice") "64f0a1" ∅).1) Samples.sessions)
      = Thrown "README not found")
  /\ (Samples.store !! "64f0a1" = Some Samples.readme_a
      /\ owner Samples.readme_a ≠ "user_bob"
      /\ delete "64f0a1" "user_bob" Samples.store = (inl Forbidden, Samples.store)
      /\ SessionsPage.deleteError (final_state
            (SessionsPage.handleDelete Samples.base_url Samples.sessions "64f0a1"
               (Some "jwt")
               (Responded (Server.delete_ (Some "user_bob") "64f0a1" Samples.store).1)
               Samples.sessions))
         = Some "You do not have permission to delete this session")
  /\ (delete "64f0a1" "user_alice" Samples.store = (inr tt, ∅)
      /\ get "64f0a1" "user_alice" ∅ = (inl NotFound, ∅)).
Proof.
  assert (Hstored : Samples.store !! "64f0a1" = Some Samples.readme_a)
    by apply lookup_singleton_eq.
  assert (Hforeign : owner Samples.readme_a ≠ "user_bob") by discriminate.
  assert (Hdeleted : delete "64f0a1" "user_alice" Samples.store = (inr tt, ∅)).
  { unfold delete.
    rewrite (check_owned Samples.store "64f0a1" "user_alice" _ Hstored eq_refl).
    unfold Samples.store. rewrite delete_singleton_eq. reflexivity. }
  split; [|split].
  - destruct (get_delete_owner_scoped ∅ "64f0a1" "user_alice" Samples.base_url
                Samples.sessions Samples.sessions (Some "jwt")) as (Habsent & _ & _).
    destruct (Habsent (lookup_empty _)) as (Hget & _ & _ & _ & Hthrown & _).
    split; [apply lookup_empty|]. split; [exact Hget|exact Hthrown].
  - destruct (get_delete_owner_scoped Samples.store "64f0a1" "user_bob" Samples.base_url
                Samples.sessions Samples.sessions (Some "jwt")) as (_ & Hother & _).
    destruct (Hother _ Hstored Hforeign) as (_ & Hdel & Herr & _).
    split; [exact Hstored|]. split; [exact Hforeign|]. split; [exact Hdel|exact Herr].
  - destruct (get_delete_owner_scoped Samples.store "64f0a1" "user_alice" Samples.base_url
                Samples.sessions Samples.sessions (Some "jwt")) as (_ & _ & Hafter).
    split; [exact Hdeleted|]. exact (Hafter _ Hdeleted).
Defined.

(** C7. For every persisted README id and owner, two [get(id, owner)] in a
    row give the same result and leave the store as it was, so two runs of
    [fetchReadmeContent] against the unchanged record complete alike; when
    the record exists and belongs to the caller, both return its document
    text, byte for byte. *)
Theorem get_twice_same_text
    (s : Store) (id : string) (caller : option string)
    (base_url : string) (token : option string) (st1 st2 : SessionsPage.State) :
  let first := Server.readme caller id s in
  let second := Server.readme caller id first.2 in
  let run1 := SessionsPage.fetchReadmeContent base_url id token (Responded first.1) st1 in
  let run2 := SessionsPage.fetchReadmeContent base_url id token (Responded second.1) st2 in
  first.2 = s /\ second.2 = s
  /\ completion run1 = completion run2
  /\ (forall owner', (get id owner' (get id owner' s).2).1 = (get id owner' s).1)
  /\ (forall owner' r, caller = Some owner' -> s !! id = Some r -> owner r = owner' ->
      completion run1 = Normal (document r) /\ completion run2 = Normal (document r)).
Proof.
  intros first second run1 run2.
  assert (H1 : first.2 = s) by apply readme_preserves.
  assert (H2 : second.2 = s) by (subst second; rewrite H1; apply readme_preserves).
  assert (Hsame : second = first) by (subst second; rewrite H1; reflexivity).
  split; [exact H1|]. split; [exact H2|]. split; [|split].
  - subst run1 run2. rewrite Hsame.
    destruct (ok first.1) eqn:Hok.
    + rewrite !(fetchReadmeContent_ok _ _ _ _ _ Hok). reflexivity.
    + destruct (fetchReadmeContent_not_ok base_url id token first.1 st1 Hok) as [-> _].
      destruct (fetchReadmeContent_not_ok base_url id token first.1 st2 Hok) as [-> _].
      reflexivity.
  - intros owner'. rewrite get_preserves. reflexivity.
  - intros owner' r -> Hsome Hown.
    assert (Hfirst : first.1 = Server.plain 200 (document r)).
    { subst first. unfold Server.readme, get.
      rewrite (check_owned _ _ _ _ Hsome Hown). reflexivity. }
    subst run1 run2. rewrite Hsame, Hfirst.
    rewrite !(fetchReadmeContent_ok _ _ _ (Server.plain 200 (document r)) _ eq_refl).
    split; reflexivity.
Qed.

Lemma get_twice_same_text_witness :
  Samples.store !! "64f0a1" = Some Samples.readme_a
  /\ owner Samples.readme_a = "user_alice"
  /\ completion (SessionsPage.fetchReadmeContent Samples.base_url "64f0a1" (Some "jwt")
        (Responded (Server.readme (Some "user_alice") "64f0a1" Samples.store).1)
        Samples.sessions)
     = Normal "# Shop"
  /\ completion (SessionsPage.fetchReadmeContent Samples.base_url "64f0a1" (Some "jwt")
        (Responded (Server.readme (Some "user_alice") "64f0a1"
                      (Server.readme (Some "user_alice") "64f0a1" Samples.store).2).1)
        Samples.sessions)
     = Normal "# Shop".
Proof.
  assert (Hstored : Samples.store !! "64f0a1" = Some Samples.readme_a)
    by apply lookup_singleton_eq.
  destruct (get_twice_same_text Samples.store "64f0a1" (Some "user_alice")
              Samples.base_url (Some "jwt") Samples.sessions Samples.sessions)
    as (_ & _ & _ & _ & Howned).
  destruct (Howned "user_alice" Samples.readme_a eq_refl Hstored eq_refl) as [Hrun1 Hrun2].
  split; [exact Hstored|]. split; [reflexivity|]. split; [exact Hrun1|exact Hrun2].
Defined.

End StoreProofs.

(** ** The upload page *)

Section HomePageProofs.
Import Http Browser HomePage.

Ltac run_home :=
  unfold generateReadme, handleFileSelect, setSelectedFile, setIsGenerating,
    setUserPrompt, setModel, setShowCodeBlock, setCurrentReadme;
  run_prog.

Lemma generateReadme_requests base_url file apiKey userPrompt model token net st :
  requests (effects (generateReadme base_url (Some file) apiKey userPrompt model
                       token net st))
  = [generateRequest base_url file apiKey userPrompt model token].
Proof.
  run_home. destruct net as [res|msg]; cbn.
  - destruct (ok res); cbn; [reflexivity|].
    destruct (json res); reflexivity.
  - reflexivity.
Qed.

Lemma generateReadme_ok base_url file apiKey userPrompt model token res st :
  ok res = true ->
  let r := generateReadme base_url (Some file) apiKey userPrompt model token
             (Responded res) st in
  currentReadme (final_state r) = Some (text res)
  /\ effects r = [ToastLoading "AI is analyzing your project...";
                  Fetch (generateRequest base_url file apiKey userPrompt model token);
                  ToastSuccess "README generated successfully!"].
Proof.
  intros Hok. run_home. rewrite Hok. cbn. split; reflexivity.
Qed.

Lemma generateRequest_fields base_url file apiKey userPrompt model token :
  let req := generateRequest base_url file apiKey userPrompt model token in
  form_field "file" req = [FormFile file]
  /\ form_field "prompt" req = [FormText userPrompt]
  /\ form_field "model" req = [FormText (JS.or_else model "gemini-1.5-flash")].
Proof. cbn. repeat split. Qed.

(** C3. For every selected file and every requirement string, the empty one
    included, [generateReadme] issues exactly one request, the generation
    request, whose [prompt] field is that string; when the server answers
    it with a success status the answer's text becomes the current README
    and only a success is announced, so an empty requirement is no error.
    [generateReadme] returns early with the error message, issuing no
    request and changing nothing, when no file is selected, and it is only
    then that no request is issued. *)
Theorem generateReadme_sends_the_requirement
    (base_url : string) (selectedFile : option File)
    (apiKey userPrompt model : string) (token : option string)
    (net : FetchOutcome) (st : State) :
  let r := generateReadme base_url selectedFile apiKey userPrompt model token net st in
  (forall file, selectedFile = Some file ->
     exists req,
       requests (effects r) = [req]
       /\ url req = base_url +:+ "/generate"
       /\ form_field "prompt" req = [FormText userPrompt]
       /\ (forall res, net = Responded res -> ok res = true ->
           currentReadme (final_state r) = Some (text res)
           /\ effects r = [ToastLoading "AI is analyzing your project...";
                           Fetch req;
                           ToastSuccess "README generated successfully!"]))
  /\ (selectedFile = None ->
      effects r = [ToastError "Please select a project file first"]
      /\ final_state r = st)
  /\ (requests (effects r) = [] <-> selectedFile = None).
Proof.
  intros r. split; [|split].
  - intros file ->. exists (generateRequest base_url file apiKey userPrompt model token).
    split; [apply generateReadme_requests|].
    split; [reflexivity|]. split; [reflexivity|].
    intros res -> Hok. apply generateReadme_ok. exact Hok.
  - intros ->. split; reflexivity.
  - subst r. destruct selectedFile as [file|].
    + rewrite generateReadme_requests. split; discriminate.
    + split; reflexivity.
Qed.

Lemma generateReadme_sends_the_requirement_witness :
  (exists req,
     requests (effects (generateReadme Samples.base_url (Some Samples.archive)
                          "AIza-key" "" "gemini-1.5-pro" (Some "jwt")
                          (Responded (Samples.answer 200 "# Shop")) Samples.home))
     = [req]
     /\ form_field "prompt" req = [FormText ""])
  /\ ok (Samples.answer 200 "# Shop") = true
  /\ currentReadme (final_state
       (generateReadme Samples.base_url (Some Samples.archive) "AIza-key" ""
          "gemini-1.5-pro" (Some "jwt") (Responded (Samples.answer 200 "# Shop"))
          Samples.home))
     = Some "# Shop"
  /\ effects (generateReadme Samples.base_url None "AIza-key" "" "gemini-1.5-pro"
                (Some "jwt") (Responded (Samples.answer 200 "# Shop")) Samples.home)
     = [ToastError "Please select a project file first"].
Proof.
  destruct (generateReadme_sends_the_requirement Samples.base_url (Some Samples.archive)
              "AIza-key" "" "gemini-1.5-pro" (Some "jwt")
              (Responded (Samples.answer 200 "# Shop")) Samples.home)
    as (Hsome & _ & _).
  destruct (Hsome Samples.archive eq_refl) as (req & Hreq & _ & Hprompt & Hok).
  destruct (Hok _ eq_refl eq_refl) as [Hreadme _].
  destruct (generateReadme_sends_the_requirement Samples.base_url None
              "AIza-key" "" "gemini-1.5-pro" (Some "jwt")
              (Responded (Samples.answer 200 "# Shop")) Samples.home)
    as (_ & Hnone & _).
  destruct (Hnone eq_refl) as [Heffects _].
  split; [exists req; split; [exact Hreq|exact Hprompt]|].
  split; [reflexivity|]. split; [exact Hreadme|exact Heffects].
Defined.

(** C4, as stated, fails for a drop on a disabled drop zone: the guard of
    [handleDrop] returns before the file list is looked at, so a non-empty
    list is dropped and nothing reaches [onFileSelect]. *)
Lemma handleDrop_disabled_passes_nothing :
  ~ (forall (disabled : bool) (files : list File) (dz : DropZone.State),
       DropZone.selected (DropZone.handleDrop disabled files dz)
       = match files with
         | file :: _ => [file]
         | [] => []
         end).
Proof.
  intros Hclaim.
  specialize (Hclaim true [Samples.archive; Samples.other_archive] false).
  vm_compute in Hclaim. discriminate Hclaim.
Qed.

(** C4 (amended). Every generation request carries exactly one archive file
    together with an optional free-text requirement and an optional model
    identifier: for every drop event on a drop zone that is not disabled,
    DropZone passes only the first file of the dropped file list to
    [onFileSelect] (and passes nothing when the list is empty), a disabled
    drop zone passes nothing, and [generateReadme] issues one request whose
    form has exactly one [file] field, one [prompt] field and one [model]
    field, the last holding 'gemini-1.5-flash' when the model string is
    empty and the model string otherwise. *)
Theorem one_archive_per_request
    (disabled : bool) (files : list File) (dz : DropZone.State)
    (base_url : string) (file : File) (apiKey userPrompt model : string)
    (token : option string) (net : FetchOutcome) (st : State) :
  DropZone.selected (DropZone.handleDrop disabled files dz)
  = match files with
    | first :: _ => if disabled then [] else [first]
    | [] => []
    end
  /\ exists req,
      requests (effects (generateReadme base_url (Some file) apiKey userPrompt model
                           token net st)) = [req]
      /\ form_field "file" req = [FormFile file]
      /\ form_field "prompt" req = [FormText userPrompt]
      /\ form_field "model" req
         = [FormText (if decide (model = "") then "gemini-1.5-flash" else model)].
Proof.
  split.
  - destruct disabled, files; reflexivity.
  - exists (generateRequest base_url file apiKey userPrompt model token).
    split; [apply generateReadme_requests|].
    apply generateRequest_fields.
Qed.

Lemma initialModel_first_match (before after : list AIModelDropdown.AIModel)
    (m : AIModelDropdown.AIModel) (defaultModel : option string) :
  Forall (fun x => Some (AIModelDropdown.id x) ≠ defaultModel) before ->
  Some (AIModelDropdown.id m) = defaultModel ->
  AIModelDropdown.initialModel (before ++ m :: after) defaultModel = Some m.
Proof.
  intros Hbefore Hm. unfold AIModelDropdown.initialModel.
  assert (Hfind : find (fun x => bool_decide (Some (AIModelDropdown.id x) = defaultModel))
                    (before ++ m :: after) = Some m).
  { induction Hbefore as [|x before Hx Hbefore IH]; cbn.
    - rewrite bool_decide_eq_true_2 by exact Hm. reflexivity.
    - rewrite bool_decide_eq_false_2 by exact Hx. exact IH. }
  rewrite Hfind. reflexivity.
Qed.

Lemma initialModel_no_match (models : list AIModelDropdown.AIModel)
    (defaultModel : option string) :
  Forall (fun x => Some (AIModelDropdown.id x) ≠ defaultModel) models ->
  AIModelDropdown.initialModel models defaultModel = head models.
Proof.
  intros Hnone. unfold AIModelDropdown.initialModel.
  assert (Hfind : find (fun m => bool_decide (Some (AIModelDropdown.id m) = defaultModel))
                    models = None).
  { induction Hnone as [|x l Hx Hl IH]; cbn; [reflexivity|].
    rewrite bool_decide_eq_false_2 by exact Hx. exact IH. }
  rewrite Hfind. reflexivity.
Qed.

Lemma generateReadme_frame base_url file apiKey userPrompt model' token net st :
  let st' := final_state (generateReadme base_url file apiKey userPrompt model'
                            token net st) in
  model st' = model st /\ dropdown st' = dropdown st.
Proof.
  destruct file as [file|]; run_home; [|split; reflexivity].
  destruct net as [res|msg]; cbn; [|split; reflexivity].
  destruct (ok res); cbn; [split; reflexivity|].
  destruct (json res); split; reflexivity.
Qed.

Lemma handle_untouched base_url (s : State) (e : Event) :
  picks_no_model [e] = true -> untouched s ->
  untouched (final_state (handle base_url s e s))
  /\ Forall carries_default (requests (effects (handle base_url s e s))).
Proof.
  intros Hpick [Hmodel Hsel]. unfold handle.
  destruct (showCodeBlock s) eqn:Hshow; [split; [split; assumption|constructor]|].
  destruct e as [files|files|newPrompt| |n|token net]; try discriminate Hpick.
  - unfold mount, DropZone.handleDrop, DropZone.setIsDragOver. run_home.
    destruct (isGenerating s), files; cbn; (split; [split; assumption|constructor]).
  - destruct (isGenerating s); [split; [split; assumption|constructor]|].
    unfold mount, DropZone.handleFileInput. run_home.
    destruct files as [[|f files]|]; cbn; (split; [split; assumption|constructor]).
  - run_home. split; [split; assumption|constructor].
  - unfold mount, AIModelDropdown.toggle, AIModelDropdown.setIsOpen. run_home.
    split; [split; assumption|constructor].
  - destruct (selectedFile s) as [file|] eqn:Hfile.
    2:{ rewrite bool_decide_eq_false_2 by (intros [? ?]; discriminate).
        cbn [negb orb]. split; [split; assumption|constructor]. }
    rewrite bool_decide_eq_true_2 by (eexists; reflexivity). cbn [negb orb].
    destruct (isGenerating s); [split; [split; assumption|constructor]|].
    destruct (generateReadme_frame base_url (Some file) (apiKey s) (userPrompt s)
                (model s) token net s) as [Hm Hd].
    split.
    + split; [rewrite Hm; exact Hmodel|rewrite Hd; exact Hsel].
    + rewrite generateReadme_requests. constructor; [|constructor].
      unfold carries_default. rewrite Hmodel. reflexivity.
Qed.


Lemma run_untouched base_url (events : list Event) (s : State) :
  picks_no_model events = true -> untouched s ->
  untouched (run base_url events s).1
  /\ Forall carries_default (requests (run base_url events s).2).
Proof.
  revert s. induction events as [|e events IH]; intros s Hpicks Hs.
  - split; [exact Hs|constructor].
  - cbn in Hpicks. apply andb_true_iff in Hpicks as [He Hevents].
    assert (He' : picks_no_model [e] = true) by (cbn; rewrite He; reflexivity).
    destruct (handle_untouched base_url s e He' Hs) as [Hs1 Hl1].
    cbn [run]. unfold final_state, effects in Hs1, Hl1.
    destruct (handle base_url s e s) as [[c s1] l1]. cbn in Hs1, Hl1.
    destruct (IH s1 Hevents Hs1) as [Hs2 Hl2].
    destruct (run base_url events s1) as [s2 l2]. cbn in Hs2, Hl2 |- *.
    split; [exact Hs2|].
    unfold requests. rewrite omap_app. apply Forall_app. split; assumption.
Qed.

(** C10. For every non-empty model list and every [defaultModel] string,
    AIModelDropdown initially selects the first entry whose id equals
    [defaultModel], and the first entry of the list when no id matches.
    HomePage passes 'gemini-1.5-pro', which no entry of the default list has
    as id, so the dropdown first displays 'Gemini 2.0 Flash'; and as long as
    the user picks no model, the page's model identifier stays
    'gemini-1.5-pro', the dropdown keeps displaying 'Gemini 2.0 Flash', and
    every request [generateReadme] issues submits 'gemini-1.5-pro'. Picking
    an entry of the open menu makes its id the page's model identifier. *)
Theorem dropdown_shows_first_while_default_is_sent
    (models : list AIModelDropdown.AIModel) (defaultModel : string)
    (base_url apiKey0 : string) (currentReadme0 : option string)
    (events : list Event) :
  (models ≠ [] ->
     is_Some (AIModelDropdown.initialModel models (Some defaultModel))
     /\ (forall before m after,
           models = before ++ m :: after ->
           Forall (fun x => AIModelDropdown.id x ≠ defaultModel) before ->
           AIModelDropdown.id m = defaultModel ->
           AIModelDropdown.initialModel models (Some defaultModel) = Some m)
     /\ (Forall (fun x => AIModelDropdown.id x ≠ defaultModel) models ->
         AIModelDropdown.initialModel models (Some defaultModel) = head models))
  /\ ("gemini-1.5-pro" ∉ AIModelDropdown.id <$> AIModelDropdown.defaultModels)
  /\ AIModelDropdown.displayed (dropdown (init apiKey0 currentReadme0))
     = Some "Gemini 2.0 Flash"
  /\ (picks_no_model events = true ->
      let after := run base_url events (init apiKey0 currentReadme0) in
      model after.1 = "gemini-1.5-pro"
      /\ AIModelDropdown.displayed (dropdown after.1) = Some "Gemini 2.0 Flash"
      /\ Forall (fun req => form_field "model" req = [FormText "gemini-1.5-pro"])
           (requests after.2))
  /\ (forall s n m,
      showCodeBlock s = false ->
      AIModelDropdown.isOpen (dropdown s) = true ->
      AIModelDropdown.defaultModels !! n = Some m ->
      let s' := final_state (handle base_url s (PickModel n) s) in
      model s' = AIModelDropdown.id m
      /\ AIModelDropdown.displayed (dropdown s') = Some (AIModelDropdown.name m)).
Proof.
  split; [|split; [|split; [|split]]].
  - intros Hne. split; [|split].
    + unfold AIModelDropdown.initialModel.
      destruct (find _ models); [eexists; reflexivity|].
      destruct models; [contradiction|eexists; reflexivity].
    + intros before m after -> Hbefore Hm.
      apply initialModel_first_match; [|congruence].
      eapply Forall_impl; [exact Hbefore|]. cbn. congruence.
    + intros Hnone. apply initialModel_no_match.
      eapply Forall_impl; [exact Hnone|]. cbn. congruence.
  - apply (bool_decide_unpack _). vm_compute. exact I.
  - reflexivity.
  - intros Hpicks after.
    assert (Hinit : untouched (init apiKey0 currentReadme0)) by (split; reflexivity).
    destruct (run_untouched base_url events _ Hpicks Hinit) as [[Hmodel Hsel] Hreqs].
    fold after in Hmodel, Hsel, Hreqs.
    split; [exact Hmodel|]. split; [|exact Hreqs].
    unfold AIModelDropdown.displayed. rewrite Hsel. reflexivity.
  - intros s n m Hshow Hopen Hnth. unfold handle. rewrite Hshow, Hopen, Hnth.
    unfold mount, AIModelDropdown.handleModelSelect, AIModelDropdown.setSelectedModel,
      AIModelDropdown.setIsOpen.
    run_home. split; reflexivity.
Qed.

Lemma dropdown_shows_first_while_default_is_sent_witness :
  AIModelDropdown.defaultModels ≠ []
  /\ AIModelDropdown.initialModel AIModelDropdown.defaultModels (Some "gemini-1.5-flash")
     = AIModelDropdown.defaultModels !! 2
  /\ AIModelDropdown.initialModel AIModelDropdown.defaultModels (Some "gemini-1.5-pro")
     = head AIModelDropdown.defaultModels
  /\ picks_no_model [ToggleModels; Drop [Samples.archive];
                     ClickGenerate (Some "jwt") (Responded (Samples.answer 200 "# Shop"))]
     = true
  /\ Forall (fun req => form_field "model" req = [FormText "gemini-1.5-pro"])
       (requests (run Samples.base_url
                    [ToggleModels; Drop [Samples.archive];
                     ClickGenerate (Some "jwt") (Responded (Samples.answer 200 "# Shop"))]
                    Samples.home).2).
Proof.
  destruct (dropdown_shows_first_while_default_is_sent AIModelDropdown.defaultModels
              "gemini-1.5-flash" Samples.base_url "AIza-key" None []) as (Hinit & _).
  destruct (Hinit ltac:(discriminate)) as (_ & Hmatch & _).
  destruct (dropdown_shows_first_while_default_is_sent AIModelDropdown.defaultModels
              "gemini-1.5-pro" Samples.base_url "AIza-key" None
              [ToggleModels; Drop [Samples.archive];
               ClickGenerate (Some "jwt") (Responded (Samples.answer 200 "# Shop"))])
    as (Hinit' & _ & _ & Hrun & _).
  destruct (Hinit' ltac:(discriminate)) as (_ & _ & Hnone).
  destruct (Hrun eq_refl) as (_ & _ & Hreqs).
  split; [discriminate|]. split; [|split; [|split; [reflexivity|exact Hreqs]]].
  - apply (Hmatch (take 2 AIModelDropdown.defaultModels) _
             (drop 3 AIModelDropdown.defaultModels)); [reflexivity| |reflexivity].
    repeat constructor; discriminate.
  - apply Hnone. repeat constructor; discriminate.
Defined.

End HomePageProofs.

(** ** Confirming a deletion *)

Section ModalProofs.
Import Http Browser.
Import DeleteConfirmationModal.

Lemma confirm_enabled_iff (props : Props) (inputValue : State) (b : Buttons) :
  render props inputValue = Some b ->
  (confirm_disabled b = false <-> JS.trim inputValue = itemName props).
Proof.
  unfold render. destruct (isOpen props); [|discriminate].
  intros [= <-]. cbn. unfold isMatch. rewrite negb_false_iff.
  apply bool_decide_eq_true.
Qed.

Lemma handle_calls (props : Props) (closure st : State) (e : Event) :
  effects (handle props closure e st)
  = match e with
    | ClickConfirm =>
        if isOpen props && bool_decide (JS.trim closure = itemName props)
        then [OnConfirm] else []
    | ClickCancel => if isOpen props then [OnCancel] else []
    | Type_ _ => []
    end.
Proof.
  unfold handle, render, isMatch. destruct (isOpen props); [|destruct e; reflexivity].
  destruct e; cbn; try reflexivity.
  destruct (bool_decide (JS.trim closure = itemName props)); reflexivity.
Qed.

Lemma handle_input (props : Props) (closure st : State) (e : Event) :
  final_state (handle props closure e st)
  = match e with
    | Type_ value => if isOpen props then value else st
    | _ => st
    end.
Proof.
  unfold handle, render, isMatch. destruct (isOpen props); [|destruct e; reflexivity].
  destruct e; cbn; try reflexivity.
  destruct (bool_decide (JS.trim closure = itemName props)); reflexivity.
Qed.

Import SettingsPage.

Lemma handleDeleteAccount_deletions base_url token net (s : SettingsPage.State) :
  deletions (effects (handleDeleteAccount base_url token net s))
  = [deleteAccountRequest base_url token].
Proof.
  unfold handleDeleteAccount, setShowDelete. run_prog.
  destruct net as [r|msg]; cbn; [|reflexivity].
  destruct (ok r); reflexivity.
Qed.

Lemma settings_step base_url (s : SettingsPage.State) (e : SettingsPage.Event) :
  let r := SettingsPage.handle base_url s e s in
  (deletions (effects r) ≠ [] ->
     showDelete s = true /\ JS.trim (modal s) = JS.lit "Delete Account"
     /\ exists token net, e = Modal ClickConfirm token net)
  /\ (modal (final_state r) = modal s
      \/ exists value token net,
           e = Modal (Type_ value) token net /\ modal (final_state r) = value).
Proof.
  destruct e as [|e token net]; cbn.
  - split; [intros H; destruct (H eq_refl)|left; reflexivity].
  - pose proof (handle_calls (modalProps s) (modal s) (modal s) e) as Hcalls.
    pose proof (handle_input (modalProps s) (modal s) (modal s) e) as Hinput.
    unfold effects, final_state in Hcalls, Hinput.
    destruct (DeleteConfirmationModal.handle (modalProps s) (modal s) e (modal s))
      as [[c input] calls]. cbn in Hcalls, Hinput. subst calls input.
    destruct e as [value| |]; cbn.
    + split; [intros H; destruct (H eq_refl)|].
      destruct (showDelete s); [right; eauto|left; reflexivity].
    + destruct (showDelete s); cbn; (split; [intros H; destruct (H eq_refl)|left; reflexivity]).
    + destruct (showDelete s) eqn:Hshow; cbn;
        [|split; [intros H; destruct (H eq_refl)|left; reflexivity]].
      destruct (bool_decide (JS.trim (modal s) = JS.lit "Delete Account")) eqn:Hmatch;
        cbn;
        [|split; [intros H; destruct (H eq_refl)|left; reflexivity]].
      apply bool_decide_eq_true in Hmatch. split; [intros _; eauto|].
      left. unfold handleDeleteAccount, setShowDelete. run_prog.
      destruct net as [r|msg]; cbn; [|reflexivity].
      destruct (ok r); reflexivity.
Qed.

Lemma settings_run base_url (events : list SettingsPage.Event) (s : SettingsPage.State) :
  deletions (SettingsPage.run base_url events s).2 ≠ [] ->
  exists value,
    value ∈ modal s :: typed events /\ JS.trim value = JS.lit "Delete Account".
Proof.
  revert s. induction events as [|e events IH]; intros s Hdel.
  - destruct (Hdel eq_refl).
  - cbn [SettingsPage.run] in Hdel.
    destruct (settings_step base_url s e) as [Hstep Hinput].
    unfold effects, final_state in Hstep, Hinput.
    destruct (SettingsPage.handle base_url s e s) as [[c s1] l1]. cbn in Hstep, Hinput.
    specialize (IH s1).
    destruct (SettingsPage.run base_url events s1) as [s2 l2]. cbn in Hdel, IH.
    unfold deletions in Hdel. rewrite omap_app in Hdel. fold (deletions l1) in *.
    fold (deletions l2) in *.
    destruct (deletions l1) as [|req reqs] eqn:Hl1.
    + destruct (IH Hdel) as (value & Hin & Htrim). exists value. split; [|exact Htrim].
      apply elem_of_cons in Hin as [->|Hin].
      * destruct Hinput as [->|(v & token & net & -> & ->)].
        -- apply list_elem_of_here.
        -- apply list_elem_of_further. cbn. apply list_elem_of_here.
      * apply list_elem_of_further. destruct e as [|[v| |] token net]; cbn;
          [exact Hin|apply list_elem_of_further; exact Hin|exact Hin|exact Hin].
    + destruct (Hstep ltac:(discriminate)) as (_ & Htrim & _).
      exists (modal s). split; [apply list_elem_of_here|exact Htrim].
Qed.



(** White space around the phrase is tolerated, a different case is not. *)
Example confirm_trims_the_input :
  isMatch (modalProps {| showDelete := true; modal := [] |})
    (JS.lit "  Delete Account ") = true
  /\ isMatch (modalProps {| showDelete := true; modal := [] |})
       (JS.lit "delete account") = false.
Proof. split; vm_compute; reflexivity. Qed.

End ModalProofs.

(** ** Token usage *)

Section UsageProofs.
Import SettingsPage.

Lemma percent_over_limit (used limit : Q) :
  (0 < limit -> limit < used -> 100 < tokenUsagePercentOrg used limit)%Q.
Proof.
  intros Hpos Hover. unfold tokenUsagePercentOrg.
  assert (H1 : (1 < used / limit)%Q).
  { apply Qlt_shift_div_l; [exact Hpos|]. lra. }
  lra.
Qed.

Lemma percent_within_limit (used limit : Q) :
  (0 < limit -> used <= limit -> tokenUsagePercentOrg used limit <= 100)%Q.
Proof.
  intros Hpos Hin. unfold tokenUsagePercentOrg.
  assert (H1 : (used / limit <= 1)%Q).
  { apply Qle_shift_div_r; [exact Hpos|]. lra. }
  lra.
Qed.

(** [<] on doubles is asymmetric, as read off the comparison of their
    specification. *)
Lemma SFltb_asym (a b : spec_float) : SFltb a b = true -> SFltb b a = false.
Proof.
  unfold SFltb.
  destruct a as [sa|sa| |sa ma ea], b as [sb|sb| |sb mb eb]; cbn;
    try discriminate; try reflexivity;
    try (destruct sa; try discriminate; reflexivity);
    try (destruct sb; try discriminate; reflexivity);
    try (destruct sa, sb; try discriminate; reflexivity).
  destruct sa, sb; try discriminate; try reflexivity;
    rewrite (Z.compare_antisym ea eb);
    (destruct (ea ?= eb)%Z; cbn; try discriminate; try reflexivity);
    pose proof (Pos.compare_cont_antisym ma mb Eq) as Hm; cbn in Hm; rewrite <- Hm;
    destruct (Pos.compare_cont Eq ma mb); cbn; try discriminate; reflexivity.
Qed.

Lemma ltb_asym (x y : float) : (x <? y)%float = true -> (y <? x)%float = false.
Proof. rewrite !ltb_spec. apply SFltb_asym. Qed.

(** Whatever double it is given, NaN and the infinities included,
    [Math.min(x, 100)] is not above 100. *)
Lemma Math_min_clamps (x : float) : (100 <? Math_min x 100)%float = false.
Proof.
  unfold Math_min. destruct (is_nan x); cbn [orb]; [reflexivity|].
  change (is_nan 100) with false. cbn [orb].
  destruct (x <? 100)%float eqn:H1; [apply ltb_asym; exact H1|].
  destruct (100 <? x)%float eqn:H2; [reflexivity|].
  destruct (get_sign x); [exact H2|reflexivity].
Qed.



End UsageProofs.

(** ** The chunker *)

Section ChunkerProofs.
Import Chunker.
Variable cfg : Config.

Lemma substring_length (n : nat) (s : string) :
  String.length (String.substring 0 n s) = Nat.min n (String.length s).
Proof.
  revert n. induction s as [|c s IH]; intros [|n]; cbn; try reflexivity.
  rewrite IH. reflexivity.
Qed.

Lemma truncate_entry_shrinks (e : FileEntry) :
  estimate cfg (truncate_entry cfg e) <= estimate cfg e.
Proof.
  unfold estimate, estimate_tokens, truncate_entry. cbn.
  rewrite substring_length. apply Nat.Div0.div_le_mono. lia.
Qed.

Lemma truncate_entry_fits (e : FileEntry) :
  estimate cfg (truncate_entry cfg e) <= MAX_TOKENS cfg.
Proof.
  unfold estimate, estimate_tokens, truncate_entry. cbn.
  rewrite substring_length.
  destruct (CHARS_PER_TOKEN cfg) as [|r] eqn:Hr; [cbn; lia|].
  etransitivity; [apply Nat.Div0.div_le_mono, Nat.le_min_l|].
  rewrite Nat.div_mul by discriminate. reflexivity.
Qed.

Lemma estimate_sum_app (l1 l2 : list FileEntry) :
  estimate_sum cfg (l1 ++ l2) = estimate_sum cfg l1 + estimate_sum cfg l2.
Proof. apply sum_list_with_app. Qed.

Lemma flush_well_packed selected i cur cur_tokens :
  cur_tokens = estimate_sum cfg cur ->
  cur_tokens <= MAX_TOKENS cfg ->
  Forall (fun e => e ∈ selected /\ estimate cfg e <= MAX_TOKENS cfg) cur ->
  Forall (well_packed cfg selected) (flush i cur cur_tokens).
Proof.
  intros Hsum Hle Hcur. destruct cur as [|e cur]; [constructor|].
  cbn. constructor; [|constructor].
  split; [exact Hsum|]. left. split; assumption.
Qed.

Lemma pack_well_packed selected todo : forall i cur cur_tokens,
  (forall e, e ∈ todo -> e ∈ selected) ->
  cur_tokens = estimate_sum cfg cur ->
  cur_tokens <= MAX_TOKENS cfg ->
  Forall (fun e => e ∈ selected /\ estimate cfg e <= MAX_TOKENS cfg) cur ->
  Forall (well_packed cfg selected) (pack cfg todo i cur cur_tokens).
Proof.
  induction todo as [|e rest IH]; intros i cur cur_tokens Hin Hsum Hle Hcur.
  - apply flush_well_packed; assumption.
  - assert (He : e ∈ selected) by (apply Hin; left).
    assert (Hrest : forall x, x ∈ rest -> x ∈ selected)
      by (intros x Hx; apply Hin; right; exact Hx).
    cbn [pack]. unfold oversized.
    destruct (MAX_TOKENS cfg <? estimate cfg e) eqn:Hover.
    + apply Nat.ltb_lt in Hover. apply Forall_app. split.
      * apply flush_well_packed; assumption.
      * constructor.
        -- split; [unfold estimate_sum; cbn; lia|]. right. exists e. cbn.
           split; [exact He|]. split; [exact Hover|]. split; [reflexivity|].
           apply truncate_entry_shrinks.
        -- apply IH; [exact Hrest|reflexivity|lia|constructor].
    + apply Nat.ltb_ge in Hover.
      destruct (MAX_TOKENS cfg <? cur_tokens + estimate cfg e) eqn:Hfull.
      * apply Forall_app. split.
        -- apply flush_well_packed; assumption.
        -- apply IH; [exact Hrest|unfold estimate_sum; cbn; lia|exact Hover|].
           constructor; [split; assumption|constructor].
      * apply Nat.ltb_ge in Hfull.
        apply IH; [exact Hrest| |exact Hfull|].
        -- rewrite estimate_sum_app, Hsum. unfold estimate_sum. cbn. lia.
        -- apply Forall_app. split; [exact Hcur|].
           constructor; [split; assumption|constructor].
Qed.

Lemma flush_entries i cur cur_tokens :
  concat (entries <$> flush i cur cur_tokens) = cur.
Proof. destruct cur; cbn; [reflexivity|]. rewrite app_nil_r. reflexivity. Qed.

Lemma pack_keeps_everything todo : forall i cur cur_tokens,
  concat (entries <$> pack cfg todo i cur cur_tokens) = cur ++ (packed cfg <$> todo).
Proof.
  induction todo as [|e rest IH]; intros i cur cur_tokens.
  - cbn [pack]. rewrite flush_entries, fmap_nil, app_nil_r. reflexivity.
  - cbn [pack]. rewrite fmap_cons.
    change (packed cfg e) with (if oversized cfg e then truncate_entry cfg e else e).
    destruct (oversized cfg e).
    + rewrite fmap_app, concat_app, flush_entries. rewrite fmap_cons. cbn [concat entries].
      rewrite IH. reflexivity.
    + destruct (MAX_TOKENS cfg <? cur_tokens + estimate cfg e).
      * rewrite fmap_app, concat_app, flush_entries, IH. reflexivity.
      * rewrite IH, <- app_assoc. reflexivity.
Qed.
End ChunkerProofs.

Section ChunkerClaim.
Import Chunker.



End ChunkerClaim.

(** ** The orchestrator *)

Section OrchestratorProofs.
Import Chunker Orchestrator.
Variables SYSTEM_FRAMING DEFAULT_INSTRUCTION : string.
Variable recap : string -> string.
Variable merge : string -> string -> string.
Variable model : Model.
Variable requirement : string.

Let run := process SYSTEM_FRAMING DEFAULT_INSTRUCTION recap merge model requirement.

Lemma successes_output i a text n (l : list Event) :
  successes (Call i a (Output text n) :: l) = text :: successes l.
Proof. reflexivity. Qed.

Lemma successes_failure i a (l : list Event) :
  successes (Call i a Failure :: l) = successes l.
Proof. reflexivity. Qed.

Lemma successes_backoff (l : list Event) : successes (Backoff :: l) = successes l.
Proof. reflexivity. Qed.

Lemma ends_in_failure_cons (e : Event) (l : list Event) :
  l ≠ [] -> ends_in_failure (e :: l) = ends_in_failure l.
Proof. intros Hl. unfold ends_in_failure. destruct l; [contradiction|reflexivity]. Qed.

Lemma process_trail (chunks : list Chunk) : forall s,
  exists tail, Trail merge model chunks s (run chunks s) tail.
Proof.
  induction chunks as [|c rest IH]; intros s.
  - exists []. split; cbn; try (rewrite ?app_nil_r; reflexivity).
    + exists 0. reflexivity.
    + constructor.
    + intros _. auto.
    + discriminate.
  - subst run. cbn [process].
    destruct (model (calls s) _) as [text n|] eqn:Hfirst.
    + destruct (IH (accept merge [Call (index c) 1 (Output text n)] 1 text n s))
        as [tail [Hlog Hdis Hdoc Hmerged Hout [k Hatt] Hans Hcomplete Hpartial]].
      exists (Call (index c) 1 (Output text n) :: tail). split.
      * rewrite Hlog. cbn. rewrite <- app_assoc. reflexivity.
      * exact Hdis.
      * rewrite Hdoc. reflexivity.
      * exact Hmerged.
      * rewrite Hout. cbn. rewrite <- app_assoc. reflexivity.
      * exists (S k).
        change (attempted (Call (index c) 1 (Output text n) :: tail))
          with (index c :: attempted tail).
        rewrite Hatt. reflexivity.
      * rewrite successes_output. constructor; [eauto|exact Hans].
      * intros Hst. destruct (Hcomplete Hst) as (Hp & He & Hlen).
        split; [exact Hp|].
        split; [|rewrite ?successes_failure, ?successes_backoff, successes_output;
                 cbn [length]; rewrite Hlen; reflexivity].
        destruct tail as [|e tail]; [reflexivity|].
        rewrite ends_in_failure_cons by discriminate. exact He.
      * intros Hst. destruct (Hpartial Hst) as (Hp & He & Hlen).
        split; [exact Hp|].
        split; [|rewrite ?successes_failure, ?successes_backoff, successes_output;
                 cbn [length]; lia].
        destruct tail as [|e tail]; [discriminate He|].
        rewrite ends_in_failure_cons by discriminate. exact He.
    + destruct (model (S (calls s)) _) as [text n|] eqn:Hsecond.
      * destruct (IH (accept merge [Call (index c) 1 Failure; Backoff;
                                   Call (index c) 2 (Output text n)] 2 text n s))
          as [tail [Hlog Hdis Hdoc Hmerged Hout [k Hatt] Hans Hcomplete Hpartial]].
        exists (Call (index c) 1 Failure :: Backoff
                  :: Call (index c) 2 (Output text n) :: tail). split.
        -- rewrite Hlog. cbn. rewrite <- app_assoc. reflexivity.
        -- cbn. rewrite Nat.eqb_refl. exact Hdis.
        -- rewrite Hdoc. reflexivity.
        -- exact Hmerged.
        -- rewrite Hout. cbn. rewrite <- app_assoc. reflexivity.
        -- exists (S k).
           change (attempted (Call (index c) 1 Failure :: Backoff
                                :: Call (index c) 2 (Output text n) :: tail))
             with (index c :: attempted tail).
           rewrite Hatt. reflexivity.
        -- rewrite successes_failure, successes_backoff, successes_output.
           constructor; [eauto|exact Hans].
        -- intros Hst. destruct (Hcomplete Hst) as (Hp & He & Hlen).
           split; [exact Hp|].
        split; [|rewrite ?successes_failure, ?successes_backoff, successes_output;
                 cbn [length]; rewrite Hlen; reflexivity].
           destruct tail as [|e tail]; [reflexivity|].
           rewrite !ends_in_failure_cons by discriminate. exact He.
        -- intros Hst. destruct (Hpartial Hst) as (Hp & He & Hlen).
           split; [exact Hp|].
        split; [|rewrite ?successes_failure, ?successes_backoff, successes_output;
                 cbn [length]; lia].
           destruct tail as [|e tail]; [discriminate He|].
           rewrite !ends_in_failure_cons by discriminate. exact He.
      * exists [Call (index c) 1 Failure; Backoff; Call (index c) 2 Failure]. split.
        -- reflexivity.
        -- cbn. rewrite Nat.eqb_refl. reflexivity.
        -- reflexivity.
        -- reflexivity.
        -- cbn. rewrite app_nil_r. reflexivity.
        -- exists 1. reflexivity.
        -- constructor.
        -- discriminate.
        -- intros _. split; [reflexivity|]. split; [reflexivity|]. cbn. lia.
Qed.

Lemma foldl_merge_nonempty (outs : list string) (d : string) :
  (forall d t, t ≠ "" -> merge d t ≠ "") ->
  outs ≠ [] -> Forall (fun t => t ≠ "") outs ->
  foldl merge d outs ≠ "".
Proof.
  intros Hmerge Hne Hall. destruct outs as [|t outs _] using rev_ind; [contradiction|].
  rewrite foldl_app. cbn. apply Hmerge.
  apply Forall_app in Hall as [_ Hlast]. inversion Hlast. assumption.
Qed.
End OrchestratorProofs.

Section OrchestratorClaim.
Import Chunker Orchestrator.



End OrchestratorClaim.

(** ** More on the session list *)

Section SessionsPageMore.
Import Http Browser SessionsPage.

Ltac run_sessions :=
  unfold SessionsView.handleConfirmDelete, SessionsView.handleDeleteClick,
    SessionsView.handleCancelDelete, SessionsView.handleRetry,
    SessionsView.fetchReadmeData, SessionsView.setLoading, SessionsView.setSearchTerm,
    handleDelete, handleViewSession, fetchReadmeContent, setDeletingId,
    setDeleteError, setReadmeData, setDeleteSuccess, setDeleteConfirmId,
    setSelectedSession, setPreviousSelected, setCurrentReadme, setError;
  run_prog.

Lemma handleViewSession_ok base_url session token r st :
  ok r = true ->
  handleViewSession base_url session token (Responded r) st
  = (Normal tt,
     {| searchTerm := searchTerm st; selectedSession := Some (id session);
        isPreviousSelected := true;
        readmeData := map (fun s => if bool_decide (id s = id session)
                                    then SessionsView.with_content (text r) s else s)
                          (readmeData st);
        loading := loading st; error := error st;
        deleteConfirmId := deleteConfirmId st; deletingId := deletingId st;
        deleteError := deleteError st; deleteSuccess := deleteSuccess st;
        currentReadme := Some (text r) |},
     [Fetch {| url := base_url +:+ "/readme/" +:+ id session; method := GET;
               headers := [("Authorization", bearer token)]; body := NoBody |}]).
Proof.
  intros Hok. run_sessions. rewrite Hok. reflexivity.
Qed.

Lemma handleViewSession_not_ok base_url session token net st :
  match net with Responded r => ok r = false | Rejected _ => True end ->
  handleViewSession base_url session token net st
  = (Normal tt,
     {| searchTerm := searchTerm st; selectedSession := Some (id session);
        isPreviousSelected := true;
        readmeData := readmeData st;
        loading := loading st;
        error := Some (match net with
                       | Responded r => content_failure (status r)
                       | Rejected m => m
                       end);
        deleteConfirmId := deleteConfirmId st; deletingId := deletingId st;
        deleteError := deleteError st; deleteSuccess := deleteSuccess st;
        currentReadme := currentReadme st |},
     [Fetch {| url := base_url +:+ "/readme/" +:+ id session; method := GET;
               headers := [("Authorization", bearer token)]; body := NoBody |};
      ConsoleError "Error fetching README content:"
        (match net with
         | Responded r => content_failure (status r)
         | Rejected m => m
         end)]).
Proof.
  destruct net as [r|m]; intros Hok; run_sessions; [rewrite Hok|]; reflexivity.
Qed.

Lemma loaded_ids (sid text' : string) (l : list ReadmeData) :
  id <$> map (fun s => if bool_decide (id s = sid)
                       then SessionsView.with_content text' s else s) l
  = id <$> l.
Proof.
  induction l as [|x l IH]; [reflexivity|].
  cbn. rewrite <- IH. destruct (bool_decide (id x = sid)); reflexivity.
Qed.

Lemma loaded_others (sid text' : string) (l : list ReadmeData) :
  filter (fun s => id s ≠ sid)
    (map (fun s => if bool_decide (id s = sid)
                   then SessionsView.with_content text' s else s) l)
  = filter (fun s => id s ≠ sid) l.
Proof.
  induction l as [|x l IH]; [reflexivity|]. cbn [map].
  destruct (decide (id x = sid)) as [Heq|Hne].
  - rewrite (bool_decide_eq_true_2 _ Heq).
    rewrite !filter_cons_False by (cbn; intros H; apply H; exact Heq). exact IH.
  - rewrite (bool_decide_eq_false_2 _ Hne).
    rewrite !filter_cons_True by exact Hne. rewrite IH. reflexivity.
Qed.

Lemma loaded_content (sid text' : string) (l : list ReadmeData) :
  Forall (fun s => id s = sid -> content s = Some text')
    (map (fun s => if bool_decide (id s = sid)
                   then SessionsView.with_content text' s else s) l).
Proof.
  induction l as [|x l IH]; [constructor|]. cbn [map]. constructor; [|exact IH].
  destruct (decide (id x = sid)) as [Heq|Hne].
  - rewrite (bool_decide_eq_true_2 _ Heq). reflexivity.
  - rewrite (bool_decide_eq_false_2 _ Hne). contradiction.
Qed.

(** X1. Viewing a session whose content the server returns: the text
    becomes the current README and the content of every entry with that
    id; the list keeps its ids in order and the entries with another id as
    they were; the session is selected and the page is in preview. *)
Theorem handleViewSession_loads_the_content
    (base_url : string) (session : ReadmeData) (token : option string)
    (r : Response) (st : State) :
  ok r = true ->
  let st' := final_state (handleViewSession base_url session token (Responded r) st) in
  currentReadme st' = Some (text r)
  /\ selectedSession st' = Some (id session)
  /\ isPreviousSelected st' = true
  /\ error st' = error st
  /\ id <$> readmeData st' = id <$> readmeData st
  /\ filter (fun s => id s ≠ id session) (readmeData st')
     = filter (fun s => id s ≠ id session) (readmeData st)
  /\ Forall (fun s => id s = id session -> content s = Some (text r)) (readmeData st').
Proof.
  intros Hok st'. subst st'. rewrite (handleViewSession_ok _ _ _ _ _ Hok).
  cbn. repeat (split; [reflexivity|]).
  split; [apply loaded_ids|]. split; [apply loaded_others|apply loaded_content].
Qed.

(** X2. Viewing a session whose content cannot be loaded (a status that is
    no success, or a network failure): [handleViewSession] does not throw,
    the list and the current README are unchanged and the failure is put in
    [error]; the session is selected and the page is in preview all the
    same, because both are set before the request. *)
Theorem handleViewSession_failure_keeps_the_list
    (base_url : string) (session : ReadmeData) (token : option string)
    (net : FetchOutcome) (st : State) :
  match net with Responded r => ok r = false | Rejected _ => True end ->
  let run := handleViewSession base_url session token net st in
  completion run = Normal tt
  /\ readmeData (final_state run) = readmeData st
  /\ currentReadme (final_state run) = currentReadme st
  /\ error (final_state run)
     = Some (match net with
             | Responded r => content_failure (status r)
             | Rejected message => message
             end)
  /\ selectedSession (final_state run) = Some (id session)
  /\ isPreviousSelected (final_state run) = true.
Proof.
  intros Hnet run. subst run. rewrite (handleViewSession_not_ok _ _ _ _ _ Hnet).
  cbn. repeat split.
Qed.

Lemma handleDelete_effects base_url closure i token net st :
  let run := handleDelete base_url closure i token net st in
  completion run = Normal tt
  /\ deletingId (final_state run) = None
  /\ deleteConfirmId (final_state run) = None
  /\ SessionsView.deleted (effects run) = [base_url +:+ "/delete/" +:+ i].
Proof.
  run_sessions. destruct net as [r|m]; cbn; [|repeat split].
  destruct (ok r); cbn; [|repeat split].
  destruct (bool_decide (selectedSession closure = Some i)); repeat split.
Qed.

(** X3. Whatever the server or the network answers, [handleDelete] does
    not throw, sends exactly the one DELETE request for the id, schedules
    exactly one timer (the success message's after 3000 ms, or the error
    message's after 5000 ms) and ends with no session marked as being
    deleted or awaiting confirmation. A success leaves no error message; a
    failure leaves the earlier success message as it was. *)
Theorem handleDelete_always_settles
    (base_url : string) (closure st : State) (i : string)
    (token : option string) (net : FetchOutcome) :
  let run := handleDelete base_url closure i token net st in
  let request := Fetch {| url := base_url +:+ "/delete/" +:+ i; method := DELETE;
                          headers := [("Content-Type", "application/json");
                                      ("Authorization", bearer token)];
                          body := NoBody |} in
  let succeeded := match net with Responded r => ok r | Rejected _ => false end in
  completion run = Normal tt
  /\ deletingId (final_state run) = None
  /\ deleteConfirmId (final_state run) = None
  /\ (if succeeded
      then effects run = [request; SetTimeout ClearDeleteSuccess 3000]
           /\ deleteError (final_state run) = None
           /\ is_Some (deleteSuccess (final_state run))
      else exists message,
             effects run = [request; ConsoleError "Error deleting session:" message;
                            SetTimeout ClearDeleteError 5000]
             /\ deleteError (final_state run) = Some message
             /\ deleteSuccess (final_state run) = deleteSuccess st).
Proof.
  run_sessions. destruct net as [r|m]; cbn.
  - destruct (ok r); cbn.
    + destruct (bool_decide (selectedSession closure = Some i)); cbn;
        (repeat split; eexists; reflexivity).
    + repeat split. eexists. repeat split.
  - repeat split. eexists. repeat split.
Qed.

Lemma find_first_with_id (i : string) (before after : list ReadmeData) (x : ReadmeData) :
  Forall (fun d => id d ≠ i) before -> id x = i ->
  find (fun item => bool_decide (id item = i)) (before ++ x :: after) = Some x.
Proof.
  intros Hbefore Hx. induction Hbefore as [|d before Hd _ IH]; cbn.
  - rewrite (bool_decide_eq_true_2 _ Hx). reflexivity.
  - rewrite (bool_decide_eq_false_2 _ Hd). exact IH.
Qed.

Lemma find_no_id (i : string) (l : list ReadmeData) :
  i ∉ (id <$> l) -> find (fun item => bool_decide (id item = i)) l = None.
Proof.
  induction l as [|d l IH]; intros Hnot; [reflexivity|]. cbn.
  rewrite fmap_cons in Hnot. apply not_elem_of_cons in Hnot as [Hd Hl].
  rewrite bool_decide_eq_false_2 by congruence. auto.
Qed.

Lemma handleDelete_success_state base_url closure i token r st :
  ok r = true ->
  let st' := final_state (handleDelete base_url closure i token (Responded r) st) in
  (if bool_decide (selectedSession closure = Some i)
   then selectedSession st' = None /\ isPreviousSelected st' = false
        /\ currentReadme st' = Some ""
   else selectedSession st' = selectedSession st
        /\ isPreviousSelected st' = isPreviousSelected st
        /\ currentReadme st' = currentReadme st)
  /\ deleteSuccess st'
     = Some (JS.dquote
             +:+ JS.opt_or_else
                   (filename <$> find (fun item => bool_decide (id item = i))
                                   (readmeData closure)) "Session"
             +:+ JS.dquote +:+ " deleted successfully").
Proof.
  intros Hok. run_sessions. rewrite Hok. cbn.
  destruct (bool_decide (selectedSession closure = Some i)); cbn; repeat split.
Qed.

(** X4. After a successful deletion, what is cleared and what is announced
    comes from the render the handler was created in: the selection, the
    preview and the current README are cleared exactly when that render had
    the deleted session selected, and are otherwise left as they are; the
    success message quotes the file name of the first entry with that id in
    that render's list, and "Session" when the name is empty or the render
    had no such entry. *)
Theorem handleDelete_clears_and_names_by_the_render
    (base_url : string) (closure st : State) (i : string)
    (token : option string) (r : Response) :
  ok r = true ->
  let st' := final_state (handleDelete base_url closure i token (Responded r) st) in
  (selectedSession closure = Some i ->
     selectedSession st' = None /\ isPreviousSelected st' = false
     /\ currentReadme st' = Some "")
  /\ (selectedSession closure ≠ Some i ->
      selectedSession st' = selectedSession st
      /\ isPreviousSelected st' = isPreviousSelected st
      /\ currentReadme st' = currentReadme st)
  /\ (forall before x after,
        readmeData closure = before ++ x :: after ->
        Forall (fun d => id d ≠ i) before -> id x = i ->
        deleteSuccess st'
        = Some (JS.dquote +:+ (if decide (filename x = "") then "Session" else filename x)
                +:+ JS.dquote +:+ " deleted successfully"))
  /\ (i ∉ (id <$> readmeData closure) ->
      deleteSuccess st'
      = Some (JS.dquote +:+ "Session" +:+ JS.dquote +:+ " deleted successfully")).
Proof.
  intros Hok st'.
  destruct (handleDelete_success_state base_url closure i token r st Hok)
    as [Hsel Hmsg]. fold st' in Hsel, Hmsg.
  split; [|split; [|split]].
  - intros Hc. rewrite (bool_decide_eq_true_2 _ Hc) in Hsel. exact Hsel.
  - intros Hc. rewrite (bool_decide_eq_false_2 _ Hc) in Hsel. exact Hsel.
  - intros before x after Hlist Hbefore Hx. rewrite Hmsg, Hlist.
    rewrite (find_first_with_id _ _ _ _ Hbefore Hx). reflexivity.
  - intros Hnot. rewrite Hmsg, (find_no_id _ _ Hnot). reflexivity.
Qed.

(** X5. Successful deletions compose: deleting two sessions leaves the
    entries with neither id, whichever is deleted first, and deleting the
    same session again changes nothing more. *)
Theorem deletions_commute
    (base_url : string) (c1 c2 c3 c4 st : State) (i j : string)
    (t1 t2 : option string) (r1 r2 : Response) :
  ok r1 = true -> ok r2 = true ->
  let delete c k t r s := final_state (handleDelete base_url c k t (Responded r) s) in
  readmeData (delete c2 j t2 r2 (delete c1 i t1 r1 st))
  = filter (fun item => id item ≠ i /\ id item ≠ j) (readmeData st)
  /\ readmeData (delete c2 j t2 r2 (delete c1 i t1 r1 st))
     = readmeData (delete c4 i t1 r1 (delete c3 j t2 r2 st))
  /\ readmeData (delete c2 i t2 r2 (delete c1 i t1 r1 st))
     = readmeData (delete c1 i t1 r1 st).
Proof.
  intros H1 H2 delete. subst delete. cbn beta.
  rewrite !(handleDelete_success _ _ _ _ _ _ H1), !(handleDelete_success _ _ _ _ _ _ H2).
  rewrite !(handleDelete_success _ _ _ _ _ _ H1).
  rewrite !list_filter_filter. split; [|split].
  - apply list_filter_iff. tauto.
  - apply list_filter_iff. tauto.
  - apply list_filter_iff. tauto.
Qed.
End SessionsPageMore.

(** ** The sessions page as a whole *)

Section SessionsViewProofs.
Import Http Browser SessionsPage SessionsView.

Ltac run_view :=
  unfold handleConfirmDelete, handleDeleteClick, handleCancelDelete, handleRetry,
    fetchReadmeData, setLoading, setSearchTerm,
    handleDelete, handleViewSession, fetchReadmeContent, setDeletingId,
    setDeleteError, setReadmeData, setDeleteSuccess, setDeleteConfirmId,
    setSelectedSession, setPreviousSelected, setCurrentReadme, setError;
  run_prog.

(** X6. Loading the list never throws and always ends with [loading]
    false. An [ok] answer with a JSON body replaces the list by the parsed
    array and clears [error]; any failure (a status that is no success, a
    body that is no JSON, a network failure) keeps the list that was there
    and puts the failure in [error]. The selection, the session awaiting
    confirmation and the search term are not touched either way. *)
Theorem fetchReadmeData_replaces_or_keeps
    (base_url : string) (token : option string) (net : FetchOutcome)
    (data : list ReadmeData) (st : State) :
  let run := fetchReadmeData base_url token net data st in
  let st' := final_state run in
  completion run = Normal tt
  /\ loading st' = false
  /\ requests (effects run) = [listRequest base_url token]
  /\ selectedSession st' = selectedSession st
  /\ deleteConfirmId st' = deleteConfirmId st
  /\ searchTerm st' = searchTerm st
  /\ match net with
     | Responded r =>
         if ok r then
           match json r with
           | JsonValue _ => readmeData st' = data /\ error st' = None
           | JsonInvalid syntax_error =>
               readmeData st' = readmeData st /\ error st' = Some syntax_error
           end
         else readmeData st' = readmeData st
              /\ error st' = Some (list_failure (status r))
     | Rejected message => readmeData st' = readmeData st /\ error st' = Some message
     end.
Proof.
  run_view. destruct net as [r|m]; cbn; [|repeat split].
  destruct (ok r); cbn; [|repeat split].
  destruct (json r); cbn; repeat split.
Qed.

Variable toLowerCase : string -> string.
Variable base_url : string.

Lemma handle_step (s : State) (e : Event) :
  let r := handle toLowerCase base_url s e s in
  (forall u, u ∈ deleted (effects r) ->
     exists i token net,
       e = Confirm i token net /\ deleteConfirmId s = Some i
       /\ on_screen toLowerCase s i = true
       /\ u = base_url +:+ "/delete/" +:+ i)
  /\ (deleteConfirmId (final_state r) = deleteConfirmId s
      \/ deleteConfirmId (final_state r) = None
      \/ exists i, e = Trash i /\ deleteConfirmId (final_state r) = Some i).
Proof.
  destruct e as [term| |token net data|n token net|i|i|i token net|c]; cbn [handle].
  - destruct (isPreviousSelected s || loading s); run_view;
      (split; [intros u Hu; inversion Hu|left; reflexivity]).
  - destruct (isPreviousSelected s); run_view;
      (split; [intros u Hu; inversion Hu|left; reflexivity]).
  - destruct (truthy (error s));
      [|run_view; split; [intros u Hu; inversion Hu|left; reflexivity]].
    run_view. destruct net as [r|m]; cbn;
      [|split; [intros u Hu; inversion Hu|left; reflexivity]].
    destruct (ok r); cbn; [|split; [intros u Hu; inversion Hu|left; reflexivity]].
    destruct (json r); cbn; (split; [intros u Hu; inversion Hu|left; reflexivity]).
  - destruct (list_shown s);
      [|run_view; split; [intros u Hu; inversion Hu|left; reflexivity]].
    destruct (filteredSessions toLowerCase s !! n) as [session|];
      [|run_view; split; [intros u Hu; inversion Hu|left; reflexivity]].
    run_view. destruct net as [r|m]; cbn;
      [|split; [intros u Hu; inversion Hu|left; reflexivity]].
    destruct (ok r); cbn; (split; [intros u Hu; inversion Hu|left; reflexivity]).
  - destruct (on_screen toLowerCase s i && _ && _); run_view.
    + split; [intros u Hu; inversion Hu|]. right. right. eauto.
    + split; [intros u Hu; inversion Hu|left; reflexivity].
  - destruct (on_screen toLowerCase s i && _ && _); run_view.
    + split; [intros u Hu; inversion Hu|]. right. left. reflexivity.
    + split; [intros u Hu; inversion Hu|left; reflexivity].
  - destruct (on_screen toLowerCase s i) eqn:Hscreen; cbn [andb];
      [|run_view; split; [intros u Hu; inversion Hu|left; reflexivity]].
    destruct (bool_decide (deleteConfirmId s = Some i)) eqn:Hconfirm; cbn [andb];
      [|run_view; split; [intros u Hu; inversion Hu|left; reflexivity]].
    apply bool_decide_eq_true in Hconfirm.
    destruct (negb (bool_decide (deletingId s = Some i)));
      [|run_view; split; [intros u Hu; inversion Hu|left; reflexivity]].
    destruct (handleDelete_effects base_url s i token net s) as (_ & _ & Hc & Hd).
    unfold handleConfirmDelete. split; [|right; left; exact Hc].
    intros u Hu. exists i, token, net.
    split; [reflexivity|]. split; [exact Hconfirm|]. split; [exact Hscreen|].
    rewrite Hd in Hu. apply list_elem_of_singleton in Hu. exact Hu.
  - destruct c; run_view; (split; [intros u Hu; inversion Hu|left; reflexivity]).
Qed.

Lemma run_deleted (events : list Event) : forall (s : State) (u : string),
  u ∈ deleted (run toLowerCase base_url events s).2 ->
  exists i pre token net post,
    events = pre ++ Confirm i token net :: post
    /\ u = base_url +:+ "/delete/" +:+ i
    /\ (deleteConfirmId s = Some i \/ Trash i ∈ pre).
Proof.
  induction events as [|e events IH]; intros s u Hu; [inversion Hu|].
  cbn [run] in Hu. destruct (handle_step s e) as [Hstep Hconfirm].
  unfold effects, final_state in Hstep, Hconfirm.
  destruct (handle toLowerCase base_url s e s) as [[c s1] l1]. cbn in Hstep, Hconfirm.
  specialize (IH s1).
  destruct (run toLowerCase base_url events s1) as [s2 l2]. cbn in Hu, IH.
  unfold deleted in Hu. rewrite omap_app in Hu. apply elem_of_app in Hu as [Hu|Hu].
  - destruct (Hstep u Hu) as (i & token & net & -> & Hs & _ & ->).
    exists i, [], token, net, events. split; [reflexivity|]. split; [reflexivity|].
    left. exact Hs.
  - destruct (IH u Hu) as (i & pre & token & net & post & -> & -> & Hi).
    exists i, (e :: pre), token, net, post.
    split; [reflexivity|]. split; [reflexivity|].
    destruct Hi as [Hi|Hi]; [|right; right; exact Hi].
    destruct Hconfirm as [Heq|[Hnone|(k & -> & Hk)]].
    + left. rewrite <- Heq. exact Hi.
    + rewrite Hnone in Hi. discriminate Hi.
    + rewrite Hk in Hi. injection Hi as ->. right. left.
Qed.

(** X7. Deleting takes two clicks: in every sequence of events on the
    page, starting with no session awaiting confirmation, each DELETE
    request is sent by a click on the confirm button of a session whose
    trash button was clicked earlier in the sequence, and it is the request
    for that session. *)
Theorem delete_needs_two_clicks (events : list Event) (s : State) (u : string) :
  deleteConfirmId s = None ->
  u ∈ deleted (run toLowerCase base_url events s).2 ->
  exists i pre token net post,
    events = pre ++ Confirm i token net :: post
    /\ Trash i ∈ pre
    /\ u = base_url +:+ "/delete/" +:+ i.
Proof.
  intros Hnone Hu.
  destruct (run_deleted events s u Hu) as (i & pre & token & net & post & He & Hurl & Hi).
  exists i, pre, token, net, post. split; [exact He|]. split; [|exact Hurl].
  destruct Hi as [Hi|Hi]; [|exact Hi]. rewrite Hnone in Hi. discriminate Hi.
Qed.

Lemma includes_empty (x : string) : includes x "" = true.
Proof.
  unfold includes. apply bool_decide_eq_true. destruct x; cbn; eexists; reflexivity.
Qed.

Lemma handleDelete_keeps_the_term closure i token net (st : State) :
  searchTerm (final_state (handleDelete base_url closure i token net st)) = searchTerm st.
Proof.
  run_view. destruct net as [r|m]; cbn; [|reflexivity].
  destruct (ok r); cbn; [|reflexivity].
  destruct (bool_decide (selectedSession closure = Some i)); reflexivity.
Qed.

(** X8. With an empty search term every session is listed (the lowercased
    empty string being empty); and a successful deletion removes from the
    listed sessions exactly those with the deleted id, whatever the search
    term. *)
Theorem search_lists_and_deletion (closure st : State) (i : string)
    (token : option string) (r : Response) :
  (toLowerCase "" = "" -> searchTerm st = "" ->
     filteredSessions toLowerCase st = readmeData st)
  /\ (ok r = true ->
      filteredSessions toLowerCase
        (final_state (handleDelete base_url closure i token (Responded r) st))
      = filter (fun item => id item ≠ i) (filteredSessions toLowerCase st)).
Proof.
  split.
  - intros Hlower Hterm. unfold filteredSessions. rewrite Hterm, Hlower.
    induction (readmeData st) as [|x l IH]; [reflexivity|].
    rewrite filter_cons_True by apply includes_empty. rewrite IH. reflexivity.
  - intros Hok. unfold filteredSessions.
    rewrite handleDelete_keeps_the_term, (handleDelete_success _ _ _ _ _ _ Hok).
    rewrite !list_filter_filter. apply list_filter_iff. tauto.
Qed.
End SessionsViewProofs.

(** ** The upload page as a whole *)

Section HomeSessionProofs.
Import Http Browser HomePage HomeSession.

Ltac run_page :=
  unfold mount, DropZone.handleDrop, DropZone.handleFileInput, DropZone.setIsDragOver,
    AIModelDropdown.toggle, AIModelDropdown.handleModelSelect,
    AIModelDropdown.setSelectedModel, AIModelDropdown.setIsOpen,
    generateReadme, handleFileSelect, setSelectedFile, setIsGenerating,
    setUserPrompt, setModel, setShowCodeBlock, setCurrentReadme;
  run_prog.

Lemma last_cons_or {A} (x : A) (l : list A) :
  last (x :: l) = match last l with Some y => Some y | None => Some x end.
Proof.
  destruct l as [|y l]; [reflexivity|].
  change (last (x :: y :: l)) with (last (y :: l)).
  destruct (last (y :: l)) eqn:Hl; [reflexivity|].
  apply last_None in Hl. discriminate Hl.
Qed.

Lemma run_app base_url (l1 l2 : list Event) (s : State) :
  run base_url (l1 ++ l2) s
  = let '(s1, e1) := run base_url l1 s in
    let '(s2, e2) := run base_url l2 s1 in
    (s2, e1 ++ e2).
Proof.
  revert s. induction l1 as [|e l1 IH]; intros s; cbn [run app].
  - destruct (run base_url l2 s). reflexivity.
  - destruct (handle base_url s e s) as [[c s1] x1]. rewrite IH.
    destruct (run base_url l1 s1) as [s2 x2].
    destruct (run base_url l2 s2) as [s3 x3]. rewrite app_assoc. reflexivity.
Qed.

Lemma generateReadme_outcome base_url file apiKey' userPrompt' model' token net st :
  let run := generateReadme base_url (Some file) apiKey' userPrompt' model' token net st in
  let st' := final_state run in
  completion run = Normal tt
  /\ showCodeBlock st' = true /\ isGenerating st' = false
  /\ selectedFile st' = selectedFile st /\ userPrompt st' = userPrompt st
  /\ apiKey st' = apiKey st /\ model st' = model st /\ dropdown st' = dropdown st
  /\ dropZone st' = dropZone st.
Proof.
  run_page. destruct net as [res|m]; cbn; [|repeat split].
  destruct (ok res); cbn; [repeat split|].
  destruct (json res); repeat split.
Qed.

(** One event on the page: it sends nothing and leaves the upload section
    on screen, or it is the click on Generate, sends one request and
    replaces the upload section by the result. *)
Lemma handle_generates base_url (s : State) (e : Event) :
  let r := handle base_url s e s in
  (requests (effects r) = []
   /\ showCodeBlock (final_state r) = showCodeBlock s
   /\ isGenerating (final_state r) = isGenerating s)
  \/ (exists token net file,
        e = ClickGenerate token net /\ selectedFile s = Some file
        /\ showCodeBlock s = false
        /\ requests (effects r)
           = [generateRequest base_url file (apiKey s) (userPrompt s) (model s) token]
        /\ showCodeBlock (final_state r) = true
        /\ isGenerating (final_state r) = false
        /\ model (final_state r) = model s).
Proof.
  cbv zeta. unfold handle.
  destruct (showCodeBlock s) eqn:Hshow; [left; run_page; repeat split; assumption|].
  destruct e as [files|files|newPrompt| |n|token net].
  - left. run_page. destruct (isGenerating s) eqn:Hgen, files; cbn; repeat split;
      assumption.
  - left. destruct (isGenerating s) eqn:Hgen; [repeat split; assumption|].
    run_page. destruct files as [[|f files]|]; cbn; repeat split; assumption.
  - left. run_page. repeat split; assumption.
  - left. run_page. repeat split; assumption.
  - left. destruct (AIModelDropdown.isOpen (dropdown s)); [|repeat split; assumption].
    destruct (AIModelDropdown.defaultModels !! n); [|repeat split; assumption].
    run_page. repeat split; assumption.
  - destruct (selectedFile s) as [file|] eqn:Hfile.
    2:{ rewrite bool_decide_eq_false_2 by (intros [? ?]; discriminate).
        cbn [negb orb]. left. repeat split; assumption. }
    rewrite bool_decide_eq_true_2 by (eexists; reflexivity). cbn [negb orb].
    destruct (isGenerating s) eqn:Hgen; [left; repeat split; assumption|].
    right. exists token, net, file.
    destruct (generateReadme_outcome base_url file (apiKey s) (userPrompt s) (model s)
                token net s) as (_ & Hshow' & Hgen' & _ & _ & _ & Hmodel' & _).
    split; [reflexivity|]. split; [reflexivity|]. split; [reflexivity|].
    split; [apply generateReadme_requests|]. repeat split; assumption.
Qed.

Lemma run_after_generation base_url (events : list Event) (s : State) :
  showCodeBlock s = true -> run base_url events s = (s, []).
Proof.
  intros Hshow. induction events as [|e events IH]; [reflexivity|].
  cbn [run]. unfold handle. rewrite Hshow.
  unfold mret, prog_ret, ret. rewrite IH. reflexivity.
Qed.


(** Events other than a click on Generate, on a page that shows the upload
    section and is not generating. *)
Lemma run_selects base_url (events : list Event) : forall (s : State),
  generates_nothing events = true ->
  showCodeBlock s = false -> isGenerating s = false ->
  let s' := (run base_url events s).1 in
  showCodeBlock s' = false /\ isGenerating s' = false
  /\ apiKey s' = apiKey s
  /\ selectedFile s' = match last (omap selects events) with
                       | Some file => Some file
                       | None => selectedFile s
                       end
  /\ userPrompt s' = default (userPrompt s) (last (omap types events))
  /\ (run base_url events s).2 = ((fun f => ToastSuccess ("Selected: " +:+ file_name f))
                                  <$> omap selects events).
Proof.
  induction events as [|e events IH]; intros s Hfree Hshow Hgen.
  - cbn. repeat split; assumption.
  - cbn in Hfree. apply andb_true_iff in Hfree as [He Hfree].
    cbn [run].
    assert (Hstep :
      let r := handle base_url s e s in
      showCodeBlock (final_state r) = false /\ isGenerating (final_state r) = false
      /\ apiKey (final_state r) = apiKey s
      /\ selectedFile (final_state r) = from_option Some (selectedFile s) (selects e)
      /\ userPrompt (final_state r) = default (userPrompt s) (types e)
      /\ effects r = match selects e with
                     | Some f => [ToastSuccess ("Selected: " +:+ file_name f)]
                     | None => []
                     end).
    { cbv zeta. unfold handle. rewrite Hshow.
      destruct e as [files|files|newPrompt| |n|token net]; try discriminate He.
      - run_page. rewrite Hgen. destruct files; cbn; repeat split; assumption.
      - rewrite Hgen. run_page. destruct files as [[|f files]|]; cbn; repeat split;
          assumption.
      - run_page. repeat split; assumption.
      - run_page. repeat split; assumption.
      - destruct (AIModelDropdown.isOpen (dropdown s)); [|repeat split; assumption].
        destruct (AIModelDropdown.defaultModels !! n); [|repeat split; assumption].
        run_page. repeat split; assumption. }
    unfold final_state, effects in Hstep.
    destruct (handle base_url s e s) as [[c s1] l1]. cbn in Hstep.
    destruct Hstep as (Hshow1 & Hgen1 & Hkey1 & Hfile1 & Hprompt1 & Heff1).
    specialize (IH s1 Hfree Hshow1 Hgen1).
    destruct (run base_url events s1) as [s2 l2]. cbn in IH |- *.
    destruct IH as (Hshow2 & Hgen2 & Hkey2 & Hfile2 & Hprompt2 & Heff2).
    split; [exact Hshow2|]. split; [exact Hgen2|]. split; [congruence|].
    split; [|split].
    + rewrite Hfile2, Hfile1. destruct (selects e) as [f|]; cbn; [|reflexivity].
      rewrite last_cons_or. destruct (last (omap selects events)); reflexivity.
    + rewrite Hprompt2, Hprompt1. destruct (types e) as [p|]; cbn; [|reflexivity].
      rewrite last_cons_or. destruct (last (omap types events)); reflexivity.
    + rewrite Heff1, Heff2. destruct (selects e); reflexivity.
Qed.

Lemma toasts_are_no_requests (files : list File) :
  requests ((fun f => ToastSuccess ("Selected: " +:+ file_name f)) <$> files) = [].
Proof. induction files as [|f files IH]; [reflexivity|exact IH]. Qed.

(** X10. What a click on Generate sends is the latest selection: after any
    events that do not click Generate, on a freshly mounted page, the click
    sends nothing if no drop or choice offered a file, and otherwise one
    request carrying the first file of the last non-empty drop or choice
    (an empty drop does not unselect), the last prompt typed (the empty
    string if none was), and the API key of the context. *)
Theorem generation_sends_the_latest_selection
    (base_url apiKey0 : string) (currentReadme0 : option string)
    (pre : list Event) (token : option string) (net : FetchOutcome) :
  generates_nothing pre = true ->
  let start := init apiKey0 currentReadme0 in
  requests (run base_url (pre ++ [ClickGenerate token net]) start).2
  = match last (omap selects pre) with
    | Some file =>
        [generateRequest base_url file apiKey0 (default "" (last (omap types pre)))
           (model (run base_url pre start).1) token]
    | None => []
    end.
Proof.
  intros Hfree start. rewrite run_app.
  destruct (run_selects base_url pre start Hfree eq_refl eq_refl)
    as (Hshow & Hgen & Hkey & Hfile & Hprompt & Heff).
  destruct (run base_url pre start) as [s1 l1]. cbn in Hshow, Hgen, Hkey, Hfile, Hprompt, Heff.
  cbn [run fst snd]. destruct (handle_generates base_url s1 (ClickGenerate token net))
    as [Hquiet|Hsent].
  - destruct Hquiet as (Hreq & _ & _).
    assert (Hnone : selectedFile s1 = None).
    { destruct (selectedFile s1) as [file|] eqn:Hsel; [|reflexivity].
      exfalso. revert Hreq. unfold handle. rewrite Hshow, Hsel, Hgen.
      rewrite bool_decide_eq_true_2 by (eexists; reflexivity). cbn [negb orb].
      rewrite generateReadme_requests. discriminate. }
    unfold effects in Hreq.
    destruct (handle base_url s1 (ClickGenerate token net) s1) as [[c s2] l2].
    cbn in Hreq |- *. unfold requests in *. rewrite omap_app, app_nil_r, Hreq, app_nil_r.
    rewrite Heff. fold (requests ((fun f => ToastSuccess ("Selected: " +:+ file_name f))
                                  <$> omap selects pre)).
    rewrite toasts_are_no_requests.
    rewrite Hnone in Hfile. destruct (last (omap selects pre)); [discriminate|reflexivity].
  - destruct Hsent as (token' & net' & file & [= <- <-] & Hsel & _ & Hreq & _ & _ & _).
    unfold effects in Hreq.
    destruct (handle base_url s1 (ClickGenerate token net) s1) as [[c s2] l2].
    cbn in Hreq |- *. unfold requests in *. rewrite omap_app, app_nil_r, Hreq.
    rewrite Heff. fold (requests ((fun f => ToastSuccess ("Selected: " +:+ file_name f))
                                  <$> omap selects pre)).
    rewrite toasts_are_no_requests. cbn [app].
    rewrite Hsel in Hfile. rewrite Hkey, Hprompt.
    destruct (last (omap selects pre)) as [file'|]; [|discriminate].
    injection Hfile as ->. reflexivity.
Qed.

(** X11. A generation that fails (the server answers with a status that is
    no success, or the request cannot be made) never throws: the failure is
    shown in one error toast, whose text is the [error] member of the JSON
    answer, "Something went wrong" when the answer has none, or the message
    of the JSON or network failure; the current README and the selected
    file stay as they were, and the page still switches to the result view
    with [isGenerating] back to false. *)
Theorem generateReadme_failure_is_reported
    (base_url : string) (file : File) (apiKey' userPrompt' model' : string)
    (token : option string) (net : FetchOutcome) (st : State) :
  match net with Responded res => ok res = false | Rejected _ => True end ->
  let run := generateReadme base_url (Some file) apiKey' userPrompt' model' token net st in
  let reason := match net with
                | Rejected message => message
                | Responded res =>
                    match json res with
                    | JsonInvalid syntax_error => syntax_error
                    | JsonValue (Some error) =>
                        if decide (error = "") then "Something went wrong" else error
                    | JsonValue None => "Something went wrong"
                    end
                end in
  completion run = Normal tt
  /\ effects run
     = [ToastLoading "AI is analyzing your project...";
        Fetch (generateRequest base_url file apiKey' userPrompt' model' token);
        ToastError ("Failed to generate README: " +:+ reason)]
  /\ currentReadme (final_state run) = currentReadme st
  /\ selectedFile (final_state run) = selectedFile st
  /\ showCodeBlock (final_state run) = true
  /\ isGenerating (final_state run) = false.
Proof.
  intros Hnet. run_page. destruct net as [res|m]; cbn; [|repeat split].
  rewrite Hnet. cbn. destruct (json res) as [e|[err|]]; cbn; repeat split.
Qed.

Lemma in_step_named (s : State) : in_step s -> model s ≠ "".
Proof.
  intros [[Hm _]|(m & Hin & _ & Hm)]; rewrite Hm; [discriminate|].
  clear Hm. revert m Hin. apply Forall_forall. repeat constructor; discriminate.
Qed.

Lemma handle_in_step base_url (s : State) (e : Event) :
  in_step s -> in_step (final_state (handle base_url s e s)).
Proof.
  intros Hs. unfold handle. destruct (showCodeBlock s) eqn:Hshow; [exact Hs|].
  assert (Hframe : forall r : Completion unit * State * list Effect,
            model (final_state r) = model s ->
            AIModelDropdown.selectedModel (dropdown (final_state r))
            = AIModelDropdown.selectedModel (dropdown s) ->
            in_step (final_state r)).
  { intros r Hm Hd. destruct Hs as [[Hs1 Hs2]|(m & Hin & Hsel & Hmodel)].
    - left. split; congruence.
    - right. exists m. split; [exact Hin|]. split; congruence. }
  destruct e as [files|files|newPrompt| |n|token net].
  - apply Hframe; run_page; destruct (isGenerating s), files; reflexivity.
  - destruct (isGenerating s); [exact Hs|].
    apply Hframe; run_page; destruct files as [[|f files]|]; reflexivity.
  - apply Hframe; reflexivity.
  - apply Hframe; reflexivity.
  - destruct (AIModelDropdown.isOpen (dropdown s)); [|exact Hs].
    destruct (AIModelDropdown.defaultModels !! n) as [m|] eqn:Hn; [|exact Hs].
    right. exists m. split; [eapply list_elem_of_lookup_2; exact Hn|].
    run_page. split; reflexivity.
  - destruct (selectedFile s) as [file|] eqn:Hfile.
    2:{ rewrite bool_decide_eq_false_2 by (intros [? ?]; discriminate). exact Hs. }
    rewrite bool_decide_eq_true_2 by (eexists; reflexivity). cbn [negb orb].
    destruct (isGenerating s); [exact Hs|].
    destruct (generateReadme_outcome base_url file (apiKey s) (userPrompt s)
                (model s) token net s) as (_ & _ & _ & _ & _ & _ & Hm & Hd & _).
    apply Hframe; [exact Hm|rewrite Hd; reflexivity].
Qed.

Lemma run_in_step base_url (events : list Event) : forall (s : State),
  in_step s ->
  in_step (run base_url events s).1
  /\ Forall (fun req => form_field "model" req
                        = [FormText (model (run base_url events s).1)])
       (requests (run base_url events s).2).
Proof.
  induction events as [|e events IH]; intros s Hs; [split; [exact Hs|constructor]|].
  cbn [run]. pose proof (handle_in_step base_url s e Hs) as Hs1.
  destruct (handle_generates base_url s e) as [Hquiet|Hsent].
  - destruct Hquiet as (Hreq & _ & _). unfold effects, final_state in Hreq, Hs1.
    destruct (handle base_url s e s) as [[c s1] l1]. cbn in Hreq, Hs1.
    specialize (IH s1 Hs1). destruct (run base_url events s1) as [s2 l2].
    cbn in IH |- *. unfold requests in *. rewrite omap_app, Hreq. exact IH.
  - destruct Hsent as (token & net & file & _ & _ & _ & Hreq & Hshow & _ & Hmodel).
    unfold effects, final_state in Hreq, Hshow, Hmodel, Hs1.
    destruct (handle base_url s e s) as [[c s1] l1]. cbn in Hreq, Hshow, Hmodel, Hs1.
    rewrite (run_after_generation base_url events s1 Hshow). cbn.
    split; [exact Hs1|]. rewrite app_nil_r, Hreq. constructor; [|constructor].
    cbn. rewrite Hmodel. unfold JS.or_else.
    destruct (decide (model s = "")) as [Hempty|_]; [|reflexivity].
    destruct (in_step_named s Hs Hempty).
Qed.

End HomeSessionProofs.

(** ** The drop zone over a sequence of events *)

Section DropZoneProofs.
Import Http DropZone DropZoneEvents.

Lemma drop_step (disabled : bool) (e : Event) (s : State) :
  effects (handle disabled e s)
  = (if disabled then [] else OnFileSelect <$> offered [e])
  /\ (final_state (handle disabled e s) = true ->
      s = true \/ (disabled = false /\ e = DragOver)).
Proof.
  unfold handle, handleDragOver, handleDragLeave, handleDrop, handleFileInput,
    setIsDragOver.
  destruct e as [| |files|files], disabled; run_prog;
    try (split; [reflexivity|]; first [discriminate|intros ->; auto|auto]).
  - destruct files; cbn; (split; [reflexivity|discriminate]).
  - destruct files as [[|f files]|]; cbn; (split; [reflexivity|]); intros ->; auto.
Qed.

(** X13. What a drop zone hands to its parent over any sequence of drag,
    drop and file-input events: an enabled zone passes the first file of
    each non-empty drop or choice, in order, and nothing else; a disabled
    zone passes nothing, and its drag-over highlight is never switched
    on. *)
Theorem drop_zone_passes_first_files
    (disabled : bool) (events : list Event) (s : State) :
  (run disabled events s).2
  = (if disabled then [] else OnFileSelect <$> offered events)
  /\ (disabled = true -> (run disabled events s).1 = true -> s = true).
Proof.
  revert s. induction events as [|e events IH]; intros s.
  - cbn. destruct disabled; auto.
  - cbn [run]. destruct (drop_step disabled e s) as [Heff Hstate].
    unfold effects, final_state in Heff, Hstate.
    destruct (handle disabled e s) as [[c s1] l1]. cbn in Heff, Hstate.
    destruct (IH s1) as [IHeff IHstate].
    destruct (run disabled events s1) as [s2 l2]. cbn in IHeff, IHstate |- *.
    split.
    + rewrite Heff, IHeff. destruct disabled; [reflexivity|].
      unfold offered. cbn [omap]. destruct e as [| |[|f files]|[[|f files]|]]; reflexivity.
    + intros Hd Hs2. specialize (IHstate Hd Hs2).
      destruct (Hstate IHstate) as [Hs|[Hfalse _]]; [exact Hs|congruence].
Qed.
End DropZoneProofs.

(** ** The confirmation modal and the account *)

Section ModalMore.
Import Http Browser DeleteConfirmationModal.

Lemma trim_start_white (ws s : JS.jsstring) :
  forallb JS.is_white_space ws = true -> JS.trim_start (ws ++ s) = JS.trim_start s.
Proof.
  induction ws as [|c ws IH]; intros Hws; [reflexivity|].
  cbn in Hws. apply andb_true_iff in Hws as [Hc Hws]. cbn. rewrite Hc. auto.
Qed.

Lemma trim_start_all_white (ws : JS.jsstring) :
  forallb JS.is_white_space ws = true -> JS.trim_start ws = [].
Proof.
  intros Hws. rewrite <- (app_nil_r ws). rewrite trim_start_white by exact Hws.
  reflexivity.
Qed.

Lemma trim_start_idem (s : JS.jsstring) :
  JS.trim_start (JS.trim_start s) = JS.trim_start s.
Proof.
  induction s as [|c s IH]; [reflexivity|]. cbn.
  destruct (JS.is_white_space c) eqn:Hc; [exact IH|]. cbn. rewrite Hc. reflexivity.
Qed.

(** Stripping the front leaves a text that is empty or starts with a
    character that is no white space. *)
Lemma trim_start_head (s : JS.jsstring) :
  match JS.trim_start s with
  | [] => forallb JS.is_white_space s = true
  | c :: _ => JS.is_white_space c = false
  end.
Proof.
  induction s as [|c s IH]; [reflexivity|]. cbn.
  destruct (JS.is_white_space c) eqn:Hc; [exact IH|exact Hc].
Qed.

Lemma trim_start_snoc (s : JS.jsstring) (c : N) :
  JS.is_white_space c = false ->
  exists t, JS.trim_start (s ++ [c]) = t ++ [c].
Proof.
  intros Hc. induction s as [|d s IH]; cbn.
  - rewrite Hc. exists []. reflexivity.
  - destruct (JS.is_white_space d); [exact IH|]. exists (d :: s). reflexivity.
Qed.

Lemma trim_start_app (s t : JS.jsstring) :
  JS.trim_start (s ++ t)
  = if forallb JS.is_white_space s then JS.trim_start t else JS.trim_start s ++ t.
Proof.
  induction s as [|c s IH]; [reflexivity|]. cbn.
  destruct (JS.is_white_space c); [exact IH|reflexivity].
Qed.

Lemma forallb_rev {A} (f : A -> bool) (l : list A) :
  forallb f (rev l) = forallb f l.
Proof.
  induction l as [|x l IH]; [reflexivity|]. cbn.
  rewrite forallb_app, IH. cbn. rewrite andb_true_r. apply andb_comm.
Qed.

Lemma trim_end_white (s ws : JS.jsstring) :
  forallb JS.is_white_space ws = true -> JS.trim_end (s ++ ws) = JS.trim_end s.
Proof.
  intros Hws. unfold JS.trim_end. rewrite rev_app_distr.
  rewrite trim_start_white by (rewrite forallb_rev; exact Hws). reflexivity.
Qed.

Lemma trim_padding (ws1 s ws2 : JS.jsstring) :
  forallb JS.is_white_space ws1 = true -> forallb JS.is_white_space ws2 = true ->
  JS.trim (ws1 ++ s ++ ws2) = JS.trim s.
Proof.
  intros H1 H2. unfold JS.trim. rewrite trim_start_white by exact H1.
  rewrite trim_start_app. destruct (forallb JS.is_white_space s) eqn:Hs.
  - rewrite (trim_start_all_white ws2 H2), (trim_start_all_white s Hs). reflexivity.
  - apply trim_end_white. exact H2.
Qed.

Lemma trim_end_idem (s : JS.jsstring) : JS.trim_end (JS.trim_end s) = JS.trim_end s.
Proof. unfold JS.trim_end. rewrite rev_involutive, trim_start_idem. reflexivity. Qed.

(** Stripping the end of a text that starts with a character that is no
    white space leaves that start in place. *)
Lemma trim_end_keeps_head (c : N) (s : JS.jsstring) :
  JS.is_white_space c = false -> exists t, JS.trim_end (c :: s) = c :: t.
Proof.
  intros Hc. unfold JS.trim_end. cbn [rev].
  destruct (trim_start_snoc (rev s) c Hc) as [t Ht]. rewrite Ht, rev_app_distr.
  exists (rev t). reflexivity.
Qed.

Lemma trim_idem (s : JS.jsstring) : JS.trim (JS.trim s) = JS.trim s.
Proof.
  unfold JS.trim. pose proof (trim_start_head s) as Hhead.
  destruct (JS.trim_start s) as [|c t] eqn:Hs; [reflexivity|].
  destruct (trim_end_keeps_head c t Hhead) as [t' Ht']. rewrite Ht'.
  assert (Hfix : JS.trim_start (c :: t') = c :: t') by (cbn; rewrite Hhead; reflexivity).
  rewrite Hfix, <- Ht'. apply trim_end_idem.
Qed.

(** X14. White space around the typed text does not count: for every
    [itemName], padding the input with white space on either side leaves
    the confirm button as it was. *)
Theorem isMatch_ignores_padding (props : Props) (ws1 s ws2 : JS.jsstring) :
  forallb JS.is_white_space ws1 = true -> forallb JS.is_white_space ws2 = true ->
  isMatch props (ws1 ++ s ++ ws2) = isMatch props s.
Proof.
  intros H1 H2. unfold isMatch. rewrite trim_padding by assumption. reflexivity.
Qed.

(** X15. The confirm button can only ever be enabled for a name that is
    itself trimmed: if [itemName] starts or ends with white space, no input
    matches it, whereas for the empty [itemName] the button is enabled
    before anything is typed. *)
Theorem isMatch_needs_a_trimmed_name (props : Props) (inputValue : State) :
  (isMatch props inputValue = true -> JS.trim (itemName props) = itemName props)
  /\ (JS.trim (itemName props) ≠ itemName props -> isMatch props inputValue = false)
  /\ (itemName props = [] -> isMatch props init = true).
Proof.
  assert (Hmain : isMatch props inputValue = true ->
                  JS.trim (itemName props) = itemName props).
  { unfold isMatch. intros H. apply bool_decide_eq_true in H.
    rewrite <- H. apply trim_idem. }
  split; [exact Hmain|]. split.
  - intros Hne. destruct (isMatch props inputValue) eqn:H; [|reflexivity].
    destruct (Hne (Hmain eq_refl)).
  - intros Hempty. unfold isMatch, init. rewrite Hempty. reflexivity.
Qed.
End ModalMore.

(** ** More on the settings page *)

Section SettingsMore.
Import Http Browser SettingsPage.

Lemma handleDeleteAccount_outcome base_url token net (s : State) :
  let run := handleDeleteAccount base_url token net s in
  completion run = Normal tt
  /\ modal (final_state run) = modal s
  /\ match net with
     | Responded r =>
         if ok r then
           effects run = [Fetch (deleteAccountRequest base_url token);
                          ToastSuccess "Account deleted successfully!";
                          SetTimeout SignOutAndRedirect 1500]
           /\ showDelete (final_state run) = false
         else
           effects run = [Fetch (deleteAccountRequest base_url token);
                          ConsoleError "Error deleting account:"
                            ("Failed to delete account. Status: "
                             +:+ JS.of_nat (status r));
                          ToastError "Failed to delete account. Please try again."]
           /\ showDelete (final_state run) = showDelete s
     | Rejected message =>
         effects run = [Fetch (deleteAccountRequest base_url token);
                        ConsoleError "Error deleting account:" message;
                        ToastError "Failed to delete account. Please try again."]
         /\ showDelete (final_state run) = showDelete s
     end.
Proof.
  unfold handleDeleteAccount, setShowDelete. run_prog.
  destruct net as [r|m]; cbn; [|repeat split].
  destruct (ok r); cbn; repeat split.
Qed.

(** X16. Signing out follows a deletion the server accepted, and only
    that: [handleDeleteAccount] never throws and sends the one DELETE
    request; on a success status it closes the modal and schedules the
    sign-out and redirect after 1500 ms; on any failure it schedules
    nothing, leaves the modal as it is, and shows the same fixed error
    toast whatever the reason, which goes to the console only. *)
Theorem sign_out_only_after_deletion
    (base_url : string) (token : option string) (net : FetchOutcome) (s : State) :
  let run := handleDeleteAccount base_url token net s in
  let accepted := match net with Responded r => ok r | Rejected _ => false end in
  completion run = Normal tt
  /\ deletions (effects run) = [deleteAccountRequest base_url token]
  /\ (SetTimeout SignOutAndRedirect 1500 ∈ effects run <-> accepted = true)
  /\ (accepted = true -> showDelete (final_state run) = false)
  /\ (accepted = false ->
      final_state run = s
      /\ ToastError "Failed to delete account. Please try again." ∈ effects run).
Proof.
  intros run accepted.
  destruct (handleDeleteAccount_outcome base_url token net s) as (Hc & Hm & Hnet).
  fold run in Hc, Hm, Hnet. split; [exact Hc|].
  split; [apply handleDeleteAccount_deletions|].
  assert (Hstate : showDelete (final_state run) = showDelete s -> final_state run = s).
  { intros Hs. destruct (final_state run) as [sd md], s as [sd0 md0].
    cbn in Hm, Hs. congruence. }
  subst accepted. destruct net as [r|m]; [destruct (ok r)|];
    destruct Hnet as [Heff Hshow]; rewrite Heff.
  - split; [split; [reflexivity|intros _; set_solver]|].
    split; [intros _; exact Hshow|discriminate].
  - split; [split; [intros Hin|discriminate]|].
    + repeat (apply elem_of_cons in Hin as [Hin|Hin]; [discriminate Hin|]).
      inversion Hin.
    + split; [discriminate|]. intros _. split; [exact (Hstate Hshow)|set_solver].
  - split; [split; [intros Hin|discriminate]|].
    + repeat (apply elem_of_cons in Hin as [Hin|Hin]; [discriminate Hin|]).
      inversion Hin.
    + split; [discriminate|]. intros _. split; [exact (Hstate Hshow)|set_solver].
Qed.

Lemma run_keeps_untyped base_url (events : list Event) : forall (s : State),
  typed events = [] -> modal (SettingsPage.run base_url events s).1 = modal s.
Proof.
  induction events as [|e events IH]; intros s Htyped; [reflexivity|].
  cbn [SettingsPage.run].
  destruct (settings_step base_url s e) as [_ Hinput]. unfold final_state in Hinput.
  destruct (SettingsPage.handle base_url s e s) as [[c s1] l1]. cbn in Hinput.
  assert (Htail : typed events = []).
  { destruct e as [|[v| |] token net]; cbn in Htyped; [exact Htyped|discriminate|
      exact Htyped|exact Htyped]. }
  specialize (IH s1 Htail).
  destruct (SettingsPage.run base_url events s1) as [s2 l2]. cbn in IH |- *.
  rewrite IH. destruct Hinput as [Heq|(v & token & net & -> & _)]; [exact Heq|].
  discriminate Htyped.
Qed.

(** X17. The modal keeps what was typed: no event other than typing
    changes its input, not cancelling, not reopening, not a deletion that
    failed. So once the phrase was typed, cancelling and reopening the
    modal leaves the confirm button enabled, and one click deletes the
    account without the phrase being typed again. *)
Theorem modal_keeps_the_typed_phrase
    (base_url : string) (events : list Event) (s : State)
    (t0 token : option string) (n0 net : FetchOutcome) :
  (typed events = [] -> modal (SettingsPage.run base_url events s).1 = modal s)
  /\ (showDelete s = true -> JS.trim (modal s) = JS.lit "Delete Account" ->
      deletions (SettingsPage.run base_url
                   [Modal DeleteConfirmationModal.ClickCancel t0 n0;
                    ClickDeleteAccount;
                    Modal DeleteConfirmationModal.ClickConfirm token net] s).2
      = [deleteAccountRequest base_url token]).
Proof.
  split; [apply run_keeps_untyped|].
  intros Hshow Htrim. cbn [SettingsPage.run SettingsPage.handle].
  unfold DeleteConfirmationModal.handle, DeleteConfirmationModal.render, modalProps.
  rewrite Hshow. cbn [DeleteConfirmationModal.isOpen].
  unfold setShowDelete, setModal. run_prog.
  unfold DeleteConfirmationModal.isMatch. cbn [DeleteConfirmationModal.itemName].
  rewrite (bool_decide_eq_true_2 _ Htrim). cbn.
  pose proof (handleDeleteAccount_deletions base_url token net
                {| showDelete := true; modal := modal s |}) as Hdel.
  unfold effects in Hdel.
  destruct (handleDeleteAccount base_url token net {| showDelete := true; modal := modal s |})
    as [[c s1] l1]. cbn in Hdel |- *. destruct c; cbn; rewrite !app_nil_r; exact Hdel.
Qed.

Lemma percent_above (used limit threshold : Q) :
  (0 < limit -> threshold < 100 ->
   (threshold < tokenUsagePercent used limit <-> threshold * limit < 100 * used))%Q.
Proof.
  intros Hpos Hth. unfold tokenUsagePercent, tokenUsagePercentOrg.
  assert (Hq : (used / limit * limit == used)%Q).
  { rewrite Qmult_comm. apply Qmult_div_r. intros H. rewrite H in Hpos.
    discriminate Hpos. }
  set (q := (used / limit)%Q) in *.
  split.
  - intros H. assert (H1 : (threshold < q * 100)%Q).
    { eapply Qlt_le_trans; [exact H|apply Q.le_min_l]. }
    rewrite <- Hq. nra.
  - intros H. apply Q.min_glb_lt; [|exact Hth].
    rewrite <- Hq in H. nra.
Qed.

End SettingsMore.

(** ** The application context and the API key *)

Section ApiKeyProofs.
Import Http ApiKeySettings.

Ltac run_key :=
  unfold handle, handleSaveApiKey, saveApiKeyToServer, fetchApiKey, handleEditCancel,
    handleEdit, handleApiKeyChange, settle, setApiKey, setApp, setShowApiKey,
    setIsEditing, setIsSaving, setIsLoading, setLocalApiKey,
    AppContext.refreshUsage, AppContext.setApiKey, AppContext.setDailyTokensUsed;
  run_prog.

(** X19. The stored API key survives a remount: after [setApiKey(key)] the
    key is under 'apiKey' in [localStorage], every other entry of
    [localStorage] is as before, and a provider mounted over that storage
    starts with that key; over a storage without the entry it starts with
    the empty key. *)
Theorem setApiKey_round_trip (key : JS.jsstring) (s : AppContext.State)
    (stored : gmap string JS.jsstring) :
  let s' := final_state (AppContext.setApiKey key s) in
  AppContext.apiKey s' = key
  /\ AppContext.localStorage s' !! "apiKey" = Some key
  /\ (forall name, name ≠ "apiKey" ->
        AppContext.localStorage s' !! name = AppContext.localStorage s !! name)
  /\ AppContext.apiKey (AppContext.init (AppContext.localStorage s')) = key
  /\ (stored !! "apiKey" = None -> AppContext.apiKey (AppContext.init stored) = []).
Proof.
  cbv zeta. unfold AppContext.setApiKey, AppContext.init, final_state, modify.
  cbv beta iota delta [fst snd AppContext.apiKey AppContext.localStorage].
  split; [reflexivity|]. split; [apply lookup_insert_eq|]. split; [|split].
  - intros name Hne. apply lookup_insert_ne. congruence.
  - rewrite lookup_insert_eq. reflexivity.
  - intros Hnone. unfold JS.jsstring in *. rewrite Hnone. reflexivity.
Qed.


(** X21. A key that is not blank is sent and stored exactly as typed, white
    space around it included: one POST carries the input's text; when the
    server answers with a success status and a JSON body, that text becomes
    the context's key and the 'apiKey' entry of [localStorage], and editing
    ends; on any failure (also an [ok] answer whose body is no JSON) the
    context and the editing state are as before and the fixed error toast
    is shown. [isSaving] ends false either way and nothing is thrown. *)
Theorem key_is_saved_as_typed
    (base_url : string) (closure st : State) (token : option string)
    (net : FetchOutcome) :
  JS.trim (localApiKey closure) ≠ [] ->
  let run := handleSaveApiKey base_url closure token net st in
  let st' := final_state run in
  let accepted := match net with
                  | Responded r =>
                      ok r && match json r with JsonValue _ => true | _ => false end
                  | Rejected _ => false
                  end in
  completion run = Normal tt
  /\ saved (effects run) = [localApiKey closure]
  /\ isSaving st' = false
  /\ localApiKey st' = localApiKey st
  /\ (accepted = true ->
      AppContext.apiKey (app st') = localApiKey closure
      /\ AppContext.localStorage (app st') !! "apiKey" = Some (localApiKey closure)
      /\ isEditing st' = false
      /\ ToastSuccess "API key saved successfully!" ∈ effects run)
  /\ (accepted = false ->
      app st' = app st /\ isEditing st' = isEditing st
      /\ ToastError "Failed to save API key. Please try again." ∈ effects run).
Proof.
  intros Hkey. unfold handleSaveApiKey.
  destruct (JS.trim (localApiKey closure)) as [|c t]; [contradiction|].
  run_key.
  destruct net as [r|m]; cbn; [destruct (ok r); cbn; [destruct (json r); cbn|]|];
    repeat split; try discriminate; try reflexivity;
    try apply lookup_insert_eq; try (clear; set_solver).
Qed.


Lemma key_step (base_url : string) (s : State) (e : Event) :
  let run := handle base_url s e s in
  let s' := final_state run in
  isLoading s' = isLoading s
  /\ (isLoading s = true -> s' = s /\ effects run = [])
  /\ Forall (fun key => JS.trim key ≠ []) (saved (effects run))
  /\ (AppContext.apiKey (app s') = AppContext.apiKey (app s)
      \/ AppContext.apiKey (app s') ∈ saved (effects run)).
Proof.
  cbv zeta. unfold handle. destruct (isLoading s) eqn:Hload.
  { cbn. rewrite Hload. repeat split; try discriminate; auto. }
  destruct e as [|value|token net| |].
  - destruct (isEditing s); run_key; rewrite ?Hload; repeat split; try discriminate; auto.
  - destruct (isEditing s); run_key; rewrite ?Hload; repeat split; try discriminate; auto.
  - destruct (isEditing s && negb (isSaving s));
      [|run_key; rewrite ?Hload; repeat split; try discriminate; auto].
    unfold handleSaveApiKey.
    destruct (JS.trim (localApiKey s)) as [|c t] eqn:Htrim;
      [run_key; rewrite ?Hload; repeat split; try discriminate; auto|].
    assert (Hkey : JS.trim (localApiKey s) ≠ []) by (rewrite Htrim; discriminate).
    run_key.
    destruct net as [r|m]; cbn; [destruct (ok r); cbn; [destruct (json r); cbn|]|];
      rewrite ?Hload; repeat split; try discriminate; auto; try (right; set_solver).
  - destruct (isEditing s && negb (isSaving s)); run_key; rewrite ?Hload;
      repeat split; try discriminate; auto.
  - run_key. rewrite ?Hload. repeat split; try discriminate; auto.
Qed.

Lemma saved_app (l1 l2 : list Effect) : saved (l1 ++ l2) = saved l1 ++ saved l2.
Proof. unfold saved. apply omap_app. Qed.

(** X23. Over any sequence of clicks and keystrokes in the API key section:
    while the key is still loading nothing happens at all; every key sent
    to the server has a character that is no white space; and the context's
    key after the sequence is the one before it or one of the keys sent. *)
Theorem only_nonblank_keys_are_sent (base_url : string) (events : list Event)
    (s : State) :
  let s' := (run base_url events s).1 in
  let sent := saved (run base_url events s).2 in
  (isLoading s = true -> run base_url events s = (s, []))
  /\ Forall (fun key => JS.trim key ≠ []) sent
  /\ (AppContext.apiKey (app s') = AppContext.apiKey (app s)
      \/ AppContext.apiKey (app s') ∈ sent).
Proof.
  cbv zeta. revert s. induction events as [|e rest IH]; intros s.
  { cbn. repeat split; auto. }
  cbn [run].
  pose proof (key_step base_url s e) as Hstep. cbv zeta in Hstep.
  unfold final_state, effects in Hstep.
  destruct (handle base_url s e s) as [[c s1] l1]. cbn in Hstep.
  destruct Hstep as (Hload & Hidle & Hsent & Hkey).
  destruct (IH s1) as (IHidle & IHsent & IHkey).
  destruct (run base_url rest s1) as [s2 l2]. cbn in *.
  rewrite saved_app. split; [|split].
  - intros H. destruct (Hidle H) as [-> ->]. injection (IHidle H) as -> ->. reflexivity.
  - apply Forall_app. split; assumption.
  - destruct IHkey as [IHkey|IHkey].
    + rewrite IHkey. destruct Hkey as [Hkey|Hkey]; [left; exact Hkey|].
      right. apply elem_of_app. left. exact Hkey.
    + right. apply elem_of_app. right. exact IHkey.
Qed.

Lemma last_nonempty {A : Type} (l : list A) (a d d' : A) :
  List.last (a :: l) d = List.last (a :: l) d'.
Proof.
  revert a. induction l as [|b l IH]; intros a; [reflexivity|].
  change (List.last (b :: l) d = List.last (b :: l) d'). apply IH.
Qed.

Lemma typing_run (base_url : string) (values : list JS.jsstring) (s : State)
    (rest : list Event) :
  isLoading s = false -> isEditing s = true ->
  run base_url (map Type_ values ++ rest) s
  = run base_url rest
      {| app := app s; showApiKey := showApiKey s; isEditing := true;
         isSaving := isSaving s; isLoading := false;
         localApiKey := List.last values (localApiKey s) |}.
Proof.
  revert s. induction values as [|v values IH]; intros s Hload Hedit.
  { cbn. destruct s; cbn in *. rewrite Hload, Hedit. reflexivity. }
  change (map Type_ (v :: values) ++ rest) with (Type_ v :: (map Type_ values ++ rest)).
  cbn [run]. unfold handle at 1. rewrite Hload, Hedit. run_key.
  rewrite IH by assumption. cbn.
  destruct values as [|w values]; [destruct (run base_url rest _); reflexivity|].
  rewrite (last_nonempty values w (localApiKey s) v).
  destruct (run base_url rest _); reflexivity.
Qed.

(** X24. Cancelling an edit discards it: Edit, any keystrokes, then Cancel
    send nothing and show nothing, leave the context as it was, and end
    outside editing with the input showing the context's key. *)
Theorem cancel_discards_the_edit (base_url : string) (values : list JS.jsstring)
    (s : State) :
  isLoading s = false -> isEditing s = false -> isSaving s = false ->
  let r := run base_url (ClickEdit :: map Type_ values ++ [ClickCancel]) s in
  r.2 = []
  /\ app r.1 = app s
  /\ isEditing r.1 = false
  /\ localApiKey r.1 = AppContext.apiKey (app s)
  /\ shown r.1 = shown s.
Proof.
  intros Hload Hedit Hsaving.
  assert (Hrun : run base_url (ClickEdit :: map Type_ values ++ [ClickCancel]) s
                 = ({| app := app s; showApiKey := showApiKey s; isEditing := false;
                       isSaving := isSaving s; isLoading := false;
                       localApiKey := AppContext.apiKey (app s) |}, [])).
  { cbn [run]. unfold handle at 1. rewrite Hload, Hedit. run_key.
    rewrite (typing_run base_url values
               {| app := app s; showApiKey := showApiKey s; isEditing := true;
                  isSaving := isSaving s; isLoading := isLoading s;
                  localApiKey := AppContext.apiKey (app s) |} [ClickCancel] Hload eq_refl).
    cbn. rewrite Hsaving. run_key. reflexivity. }
  cbv zeta. rewrite Hrun. unfold shown. cbn. rewrite Hedit. repeat split.
Qed.
End ApiKeyProofs.

(** ** The properties on sample sessions *)

Section SessionsPageExamples.
Import Http Browser SessionsPage.

Lemma handleViewSession_loads_the_content_witness :
  ok (Samples.answer 200 "# Shop") = true
  /\ currentReadme
       (final_state
          (handleViewSession Samples.base_url Samples.session_a (Some "jwt")
             (Responded (Samples.answer 200 "# Shop")) Scenarios.listed))
     = Some "# Shop".
Proof.
  split; [reflexivity|].
  destruct (handleViewSession_loads_the_content Samples.base_url Samples.session_a
              (Some "jwt") (Samples.answer 200 "# Shop") Scenarios.listed eq_refl)
    as [Hreadme _].
  exact Hreadme.
Defined.

Lemma handleViewSession_failure_keeps_the_list_witness :
  ok (Samples.answer 404 "") = false
  /\ error
       (final_state
          (handleViewSession Samples.base_url Samples.session_a (Some "jwt")
             (Responded (Samples.answer 404 "")) Scenarios.listed))
     = Some "README not found"
  /\ readmeData
       (final_state
          (handleViewSession Samples.base_url Samples.session_a (Some "jwt")
             (Responded (Samples.answer 404 "")) Scenarios.listed))
     = [Samples.session_a; Samples.session_b].
Proof.
  split; [reflexivity|].
  destruct (handleViewSession_failure_keeps_the_list Samples.base_url Samples.session_a
              (Some "jwt") (Responded (Samples.answer 404 "")) Scenarios.listed eq_refl)
    as (_ & Hlist & _ & Herror & _).
  split; [exact Herror|exact Hlist].
Defined.

Lemma handleDelete_clears_and_names_by_the_render_witness :
  ok (Samples.answer 200 "") = true
  /\ selectedSession Samples.sessions = Some "64f0a1"
  /\ currentReadme
       (final_state
          (handleDelete Samples.base_url Samples.sessions "64f0a1" (Some "jwt")
             (Responded (Samples.answer 200 "")) Scenarios.listed))
     = Some "".
Proof.
  split; [reflexivity|]. split; [reflexivity|].
  destruct (handleDelete_clears_and_names_by_the_render Samples.base_url
              Samples.sessions Scenarios.listed "64f0a1" (Some "jwt")
              (Samples.answer 200 "") eq_refl)
    as [Hselected _].
  destruct (Hselected eq_refl) as (_ & _ & Hreadme).
  exact Hreadme.
Defined.

Lemma deletions_commute_witness :
  ok (Samples.answer 200 "") = true
  /\ readmeData
       (final_state
          (handleDelete Samples.base_url Samples.sessions "64f0b2" (Some "jwt")
             (Responded (Samples.answer 200 ""))
             (final_state
                (handleDelete Samples.base_url Samples.sessions "64f0a1" (Some "jwt")
                   (Responded (Samples.answer 200 "")) Scenarios.listed))))
     = [].
Proof.
  split; [reflexivity|].
  destruct (deletions_commute Samples.base_url Samples.sessions Samples.sessions
              Samples.sessions Samples.sessions Scenarios.listed "64f0a1" "64f0b2"
              (Some "jwt") (Some "jwt") (Samples.answer 200 "") (Samples.answer 200 "")
              eq_refl eq_refl)
    as [Hboth _].
  exact Hboth.
Defined.

End SessionsPageExamples.

Section SessionsViewExamples.
Import Http Browser SessionsPage SessionsView.

Lemma delete_needs_two_clicks_witness :
  deleteConfirmId Scenarios.listed = None
  /\ (Samples.base_url +:+ "/delete/64f0a1")
       ∈ deleted (run Scenarios.lower Samples.base_url Scenarios.search_and_delete
                    Scenarios.listed).2
  /\ exists i pre token net post,
       Scenarios.search_and_delete = pre ++ Confirm i token net :: post
       /\ Trash i ∈ pre
       /\ Samples.base_url +:+ "/delete/64f0a1" = Samples.base_url +:+ "/delete/" +:+ i.
Proof.
  assert (Hsent : (Samples.base_url +:+ "/delete/64f0a1")
                    ∈ deleted (run Scenarios.lower Samples.base_url
                                 Scenarios.search_and_delete Scenarios.listed).2)
    by (apply (bool_decide_unpack _); vm_compute; exact I).
  split; [reflexivity|]. split; [exact Hsent|].
  exact (delete_needs_two_clicks Scenarios.lower Samples.base_url
           Scenarios.search_and_delete Scenarios.listed
           (Samples.base_url +:+ "/delete/64f0a1") eq_refl Hsent).
Defined.

Lemma search_lists_and_deletion_witness :
  Scenarios.lower "" = ""
  /\ searchTerm Scenarios.listed = ""
  /\ filteredSessions Scenarios.lower Scenarios.listed
     = [Samples.session_a; Samples.session_b]
  /\ ok (Samples.answer 200 "") = true
  /\ filteredSessions Scenarios.lower
       (final_state (handleDelete Samples.base_url Samples.sessions "64f0a1"
                       (Some "jwt") (Responded (Samples.answer 200 ""))
                       Scenarios.listed))
     = [Samples.session_b].
Proof.
  destruct (search_lists_and_deletion Scenarios.lower Samples.base_url Samples.sessions
              Scenarios.listed "64f0a1" (Some "jwt") (Samples.answer 200 ""))
    as [Hall Hdeleted].
  split; [reflexivity|]. split; [reflexivity|].
  split; [exact (Hall eq_refl eq_refl)|]. split; [reflexivity|].
  exact (Hdeleted eq_refl).
Defined.

End SessionsViewExamples.

Section HomeSessionExamples.
Import Http Browser HomePage HomeSession.


Lemma generation_sends_the_latest_selection_witness :
  generates_nothing Scenarios.prepare = true
  /\ requests (run Samples.base_url
                 (Scenarios.prepare ++ [ClickGenerate (Some "jwt") (Rejected "offline")])
                 (init "AIza-key" None)).2
     = [generateRequest Samples.base_url Samples.archive "AIza-key"
          "Add a usage section" "gemini-1.5-pro" (Some "jwt")].
Proof.
  split; [reflexivity|].
  exact (generation_sends_the_latest_selection Samples.base_url "AIza-key" None
           Scenarios.prepare (Some "jwt") (Rejected "offline") eq_refl).
Defined.

Lemma generateReadme_failure_is_reported_witness :
  ok Scenarios.refusal = false
  /\ effects (generateReadme Samples.base_url (Some Samples.archive) "AIza-key" ""
                "gemini-1.5-pro" (Some "jwt") (Responded Scenarios.refusal) Samples.home)
     = [ToastLoading "AI is analyzing your project...";
        Fetch (generateRequest Samples.base_url Samples.archive "AIza-key" ""
                 "gemini-1.5-pro" (Some "jwt"));
        ToastError "Failed to generate README: Daily token limit reached"].
Proof.
  split; [reflexivity|].
  destruct (generateReadme_failure_is_reported Samples.base_url Samples.archive
              "AIza-key" "" "gemini-1.5-pro" (Some "jwt") (Responded Scenarios.refusal)
              Samples.home eq_refl)
    as (_ & Heffects & _).
  exact Heffects.
Defined.

End HomeSessionExamples.

Section DropZoneExamples.
Import Http DropZone DropZoneEvents.

Lemma drop_zone_passes_first_files_witness :
  (run false Scenarios.drags false).2
  = [OnFileSelect Samples.archive; OnFileSelect Samples.other_archive]
  /\ (run true Scenarios.drags false).2 = []
  /\ ((run true [DragOver] true).1 = true -> true = true).
Proof.
  split; [exact (proj1 (drop_zone_passes_first_files false Scenarios.drags false))|].
  split; [exact (proj1 (drop_zone_passes_first_files true Scenarios.drags false))|].
  exact (proj2 (drop_zone_passes_first_files true [DragOver] true) eq_refl).
Defined.

End DropZoneExamples.

Section ModalExamples.
Import DeleteConfirmationModal.

Lemma isMatch_ignores_padding_witness :
  forallb JS.is_white_space (JS.lit "  ") = true
  /\ forallb JS.is_white_space (JS.lit " ") = true
  /\ isMatch Scenarios.account_modal
       (JS.lit "  " ++ JS.lit "Delete Account" ++ JS.lit " ")
     = isMatch Scenarios.account_modal (JS.lit "Delete Account").
Proof.
  split; [reflexivity|]. split; [reflexivity|].
  exact (isMatch_ignores_padding Scenarios.account_modal (JS.lit "  ")
           (JS.lit "Delete Account") (JS.lit " ") eq_refl eq_refl).
Defined.

Lemma isMatch_needs_a_trimmed_name_witness :
  JS.trim (itemName Scenarios.padded_modal) ≠ itemName Scenarios.padded_modal
  /\ isMatch Scenarios.padded_modal (JS.lit "shop.zip ") = false.
Proof.
  assert (Hpadded : JS.trim (itemName Scenarios.padded_modal)
                    ≠ itemName Scenarios.padded_modal)
    by (vm_compute; discriminate).
  split; [exact Hpadded|].
  destruct (isMatch_needs_a_trimmed_name Scenarios.padded_modal (JS.lit "shop.zip "))
    as (_ & Hnever & _).
  exact (Hnever Hpadded).
Defined.

End ModalExamples.

Section SettingsExamples.
Import Http Browser SettingsPage.

Lemma sign_out_only_after_deletion_witness :
  SetTimeout SignOutAndRedirect 1500
    ∈ effects (handleDeleteAccount Samples.base_url (Some "jwt")
                 (Responded (Samples.answer 200 "")) Scenarios.confirming)
  /\ showDelete (final_state
                   (handleDeleteAccount Samples.base_url (Some "jwt")
                      (Responded (Samples.answer 200 "")) Scenarios.confirming))
     = false
  /\ final_state (handleDeleteAccount Samples.base_url (Some "jwt")
                    (Rejected "offline") Scenarios.confirming)
     = Scenarios.confirming.
Proof.
  destruct (sign_out_only_after_deletion Samples.base_url (Some "jwt")
              (Responded (Samples.answer 200 "")) Scenarios.confirming)
    as (_ & _ & Hsign & Hclosed & _).
  destruct (sign_out_only_after_deletion Samples.base_url (Some "jwt")
              (Rejected "offline") Scenarios.confirming)
    as (_ & _ & _ & _ & Hkept).
  split; [exact (proj2 Hsign eq_refl)|]. split; [exact (Hclosed eq_refl)|].
  exact (proj1 (Hkept eq_refl)).
Defined.

Lemma modal_keeps_the_typed_phrase_witness :
  showDelete Scenarios.confirming = true
  /\ JS.trim (modal Scenarios.confirming) = JS.lit "Delete Account"
  /\ deletions (run Samples.base_url
                  [Modal DeleteConfirmationModal.ClickCancel None (Rejected "offline");
                   ClickDeleteAccount;
                   Modal DeleteConfirmationModal.ClickConfirm (Some "jwt")
                     (Responded (Samples.answer 200 ""))]
                  Scenarios.confirming).2
     = [deleteAccountRequest Samples.base_url (Some "jwt")].
Proof.
  assert (Htyped : JS.trim (modal Scenarios.confirming) = JS.lit "Delete Account")
    by (vm_compute; reflexivity).
  split; [reflexivity|]. split; [exact Htyped|].
  exact (proj2 (modal_keeps_the_typed_phrase Samples.base_url [] Scenarios.confirming
                  None (Some "jwt") (Rejected "offline")
                  (Responded (Samples.answer 200 "")))
           eq_refl Htyped).
Defined.


End SettingsExamples.

Section ApiKeyExamples.
Import Http ApiKeySettings.

Lemma setApiKey_round_trip_witness :
  "theme" ≠ "apiKey"
  /\ AppContext.localStorage
       (final_state (AppContext.setApiKey (JS.lit "AIza-new") Scenarios.context))
       !! "theme"
     = AppContext.localStorage Scenarios.context !! "theme"
  /\ AppContext.apiKey
       (AppContext.init
          (AppContext.localStorage
             (final_state (AppContext.setApiKey (JS.lit "AIza-new") Scenarios.context))))
     = JS.lit "AIza-new"
  /\ (∅ : gmap string JS.jsstring) !! "apiKey" = None
  /\ AppContext.apiKey (AppContext.init ∅) = [].
Proof.
  assert (Hname : "theme" ≠ "apiKey") by discriminate.
  destruct (setApiKey_round_trip (JS.lit "AIza-new") Scenarios.context ∅)
    as (_ & _ & Hothers & Hremount & Hfresh).
  split; [exact Hname|]. split; [exact (Hothers "theme" Hname)|].
  split; [exact Hremount|]. split; [reflexivity|].
  exact (Hfresh eq_refl).
Defined.

Lemma key_is_saved_as_typed_witness :
  JS.trim (localApiKey Scenarios.key_typed) ≠ []
  /\ saved (effects (handleSaveApiKey Samples.base_url Scenarios.key_typed (Some "jwt")
                       (Responded (Samples.answer 200 "")) Scenarios.key_typed))
     = [JS.lit "AIza-new "]
  /\ AppContext.apiKey
       (app (final_state
               (handleSaveApiKey Samples.base_url Scenarios.key_typed (Some "jwt")
                  (Responded (Samples.answer 200 "")) Scenarios.key_typed)))
     = JS.lit "AIza-new ".
Proof.
  assert (Hkey : JS.trim (localApiKey Scenarios.key_typed) ≠ [])
    by (vm_compute; discriminate).
  destruct (key_is_saved_as_typed Samples.base_url Scenarios.key_typed
              Scenarios.key_typed (Some "jwt") (Responded (Samples.answer 200 "")) Hkey)
    as (_ & Hsent & _ & _ & Haccepted & _).
  split; [exact Hkey|]. split; [exact Hsent|].
  exact (proj1 (Haccepted eq_refl)).
Defined.


Lemma only_nonblank_keys_are_sent_witness :
  isLoading (init Scenarios.context) = true
  /\ run Samples.base_url Scenarios.retype_and_save (init Scenarios.context)
     = (init Scenarios.context, [])
  /\ Forall (fun key => JS.trim key ≠ [])
       (saved (run Samples.base_url Scenarios.retype_and_save Scenarios.key_section).2).
Proof.
  destruct (only_nonblank_keys_are_sent Samples.base_url Scenarios.retype_and_save
              (init Scenarios.context))
    as (Hidle & _).
  destruct (only_nonblank_keys_are_sent Samples.base_url Scenarios.retype_and_save
              Scenarios.key_section)
    as (_ & Hsent & _).
  split; [reflexivity|]. split; [exact (Hidle eq_refl)|exact Hsent].
Defined.

Lemma cancel_discards_the_edit_witness :
  isLoading Scenarios.key_section = false
  /\ isEditing Scenarios.key_section = false
  /\ isSaving Scenarios.key_section = false
  /\ (run Samples.base_url
        (ClickEdit :: map Type_ [JS.lit "A"; JS.lit "AI"] ++ [ClickCancel])
        Scenarios.key_section).2 = []
  /\ localApiKey
       (run Samples.base_url
          (ClickEdit :: map Type_ [JS.lit "A"; JS.lit "AI"] ++ [ClickCancel])
          Scenarios.key_section).1
     = JS.lit "AIza-old".
Proof.
  destruct (cancel_discards_the_edit Samples.base_url [JS.lit "A"; JS.lit "AI"]
              Scenarios.key_section eq_refl eq_refl eq_refl)
    as (Hquiet & _ & _ & Hinput & _).
  split; [reflexivity|]. split; [reflexivity|]. split; [reflexivity|].
  split; [exact Hquiet|exact Hinput].
Defined.

End ApiKeyExamples.
